(** * Otazumi auth service: account and token lifecycle, sync reconciliation

    A shallow embedding of [src/services/authService.js] and
    [src/utils/jwt.js] together with the tables of [src/db/schema.js].

    - JavaScript values are the inductive [jsval]; objects are finite maps
      from property names to values.
    - The relational store is a record of tables; a table is the list of its
      rows in insertion order plus the next value of its [serial] column.
    - Every service method is a computation in a state-and-exception monad
      over a [world]: the object heap (for arguments passed by reference),
      the store, and the log of store statements in the order they ran.
    - bcrypt, jsonwebtoken and the JavaScript [Date] built-ins are external
      to the repository; they are the members of the class [Runtime], with
      the two laws the service relies on in [RuntimeLaws].
    - A call reads the clock once: its argument [now], in milliseconds,
      stands for every [new Date()] and [Date.now()] of the call.  What a
      call draws at random (the salt of [bcrypt.hash], the string of
      [generateSecureToken]) is an argument too. *)

From Stdlib Require Import Ascii.
From stdpp Require Import gmap strings list fin_maps pretty.

Open Scope string_scope.
Open Scope list_scope.
Open Scope Z_scope.

(** ** JavaScript values *)

#[warnings="-register-all"]
Inductive jsval :=
  | JUndef
  | JNull
  | JBool (b : bool)
  | JNum (n : Z)
  | JStr (s : string)
  | JDate (t : Z)
  | JArr (l : list jsval)
  | JObj (m : gmap string jsval).

Abbreviation jsobj := (gmap string jsval).

(** Truthiness, as used by [if (x)], [x || y] and [x ? a : b].  Numbers are
    the integers; [NaN] does not occur in a request body. *)
Definition truthy (v : jsval) : bool :=
  match v with
  | JUndef | JNull => false
  | JBool b => b
  | JNum n => negb (n =? 0)
  | JStr s => negb (String.eqb s "")
  | JDate _ | JArr _ | JObj _ => true
  end.

(** [a || b] *)
Definition js_or (a b : jsval) : jsval := if truthy a then a else b.

(** [v.k] for the property names the service reads ([animeId], [id],
    [status], ...), none of which exists on a primitive or an array.
    [None] is the TypeError raised on [null] and [undefined]. *)
Definition js_get (v : jsval) (k : string) : option jsval :=
  match v with
  | JUndef | JNull => None
  | JObj m => Some (default JUndef (m !! k))
  | _ => Some JUndef
  end.

(** [o.k] on an object known to be one. *)
Definition prop (o : jsobj) (k : string) : jsval := default JUndef (o !! k).

(** Own enumerable properties copied by the spread [{...v}]. *)
Definition index_keys (l : list jsval) : jsobj :=
  list_to_map (imap (fun i x => (pretty i, x)) l).

Definition string_chars (s : string) : list jsval :=
  (fun c => JStr (String c EmptyString)) <$> String.list_ascii_of_string s.

Definition js_spread (v : jsval) : jsobj :=
  match v with
  | JObj m => m
  | JArr l => index_keys l
  | JStr s => index_keys (string_chars s)
  | _ => ∅
  end.

(** ** Errors and outcomes *)

(** [Error msg] is [new Error(msg)]; [TypeError] is raised by the language
    itself; [StoreError] is a statement the store refuses (a declared
    constraint would be violated, or a parameter does not fit its column). *)
Inductive error :=
  | Error (message : string)
  | TypeError
  | StoreError.

Inductive outcome (A : Type) :=
  | Ok (a : A)
  | Throw (e : error).
Arguments Ok {A} a.
Arguments Throw {A} e.

(** ** Rows of the tables declared in [schema.js] *)

Record user := {
  u_id : Z;
  u_email : string;
  u_username : string;
  u_password : string;
  u_avatar : option string;
  u_isVerified : option bool;
  u_preferences : jsval;
  u_createdAt : option Z;
  u_updatedAt : option Z
}.

(** Rows of [email_verification_tokens] and of [password_reset_tokens]. *)
Record token := {
  tk_id : Z;
  tk_userId : Z;
  tk_token : string;
  tk_expiresAt : Z;
  tk_used : bool;
  tk_createdAt : Z
}.

Record dailySignup := {
  ds_id : Z;
  ds_date : string;
  ds_count : Z;
  ds_createdAt : Z
}.

Record favorite := {
  fv_id : Z;
  fv_userId : Z;
  fv_animeId : string;
  fv_animeData : jsval;
  fv_createdAt : Z
}.

Record watchlistItem := {
  wl_id : Z;
  wl_userId : Z;
  wl_animeId : string;
  wl_status : string;
  wl_animeData : jsval;
  wl_createdAt : Z;
  wl_updatedAt : Z
}.

Record watchHistoryEntry := {
  wh_id : Z;
  wh_userId : Z;
  wh_animeId : string;
  wh_episodeId : string;
  wh_episodeNumber : option Z;
  wh_progress : Z;
  wh_duration : Z;
  wh_completed : bool;
  wh_watchedAt : Z;
  wh_createdAt : Z
}.

(** ** Tables and the store *)

Record table (R : Type) := {
  rows : list R;
  serial : Z
}.
Arguments rows {R} t.
Arguments serial {R} t.

Record store := {
  users : table user;
  emailVerificationTokens : table token;
  passwordResetTokens : table token;
  favorites : table favorite;
  watchlist : table watchlistItem;
  watchHistory : table watchHistoryEntry;
  dailySignups : table dailySignup
}.

Inductive tname :=
  | Users
  | EmailVerificationTokens
  | PasswordResetTokens
  | Favorites
  | Watchlist
  | WatchHistory
  | DailySignups.

#[global] Instance tname_eq_dec : EqDecision tname.
Proof. solve_decision. Defined.

(** One entry per statement sent to the store, and per property deleted from
    a heap object, in program order. *)
Inductive event :=
  | EvSelect (t : tname)
  | EvInsert (t : tname)
  | EvUpdate (t : tname)
  | EvDelete (t : tname)
  | EvObjDelete (l : positive) (k : string).

#[global] Instance event_eq_dec : EqDecision event.
Proof. solve_decision. Defined.

Record world := {
  w_heap : gmap positive jsobj;
  w_db : store;
  w_log : list event
}.

(** ** The monad of service computations

    A thrown error keeps the world reached so far: nothing is rolled back,
    as in the source, which opens no transaction. *)
Definition M (A : Type) : Type := world -> outcome A * world.

Definition ret {A} (a : A) : M A := fun w => (Ok a, w).

Definition throw {A} (e : error) : M A := fun w => (Throw e, w).

Definition bind {A B} (m : M A) (k : A -> M B) : M B :=
  fun w =>
    match m w with
    | (Ok a, w') => k a w'
    | (Throw e, w') => (Throw e, w')
    end.

(** [try { m } catch (error) { h error }] *)
Definition catch {A} (m : M A) (h : error -> M A) : M A :=
  fun w =>
    match m w with
    | (Ok a, w') => (Ok a, w')
    | (Throw e, w') => h e w'
    end.

Notation "'let*' x ':=' m 'in' k" := (bind m (fun x => k))
  (at level 10, x name, m at level 100, k at level 200).

Definition logged (e : event) (w : world) : world :=
  {| w_heap := w_heap w; w_db := w_db w; w_log := w_log w ++ [e] |}.

Definition stored (s : store) (w : world) : world :=
  {| w_heap := w_heap w; w_db := s; w_log := w_log w |}.

Definition emit (e : event) : M unit := fun w => (Ok tt, logged e w).

Definition get_db : M store := fun w => (Ok (w_db w), w).

Definition put_db (s : store) : M unit := fun w => (Ok tt, stored s w).

Definition lift_opt {A} (e : error) (o : option A) : M A :=
  match o with
  | Some a => ret a
  | None => throw e
  end.

(** ** Declared constraints of [schema.js]

    [serial(..).primaryKey()], [.unique()], and [.references(() => users.id)]
    on every table owned by a user. *)

Definition unique_on {R A} `{EqDecision A} (f : R -> A) (t : table R) : bool :=
  bool_decide (NoDup (f <$> rows t)).

Definition references_users {R} (f : R -> Z) (t : table R) (s : store) : bool :=
  forallb (fun r => bool_decide (f r ∈ (u_id <$> rows (users s)))) (rows t).

Definition users_ok (s : store) : bool :=
  unique_on u_id (users s) && unique_on u_email (users s)
  && unique_on u_username (users s).

Definition emailVerificationTokens_ok (s : store) : bool :=
  unique_on tk_id (emailVerificationTokens s)
  && unique_on tk_token (emailVerificationTokens s)
  && references_users tk_userId (emailVerificationTokens s) s.

Definition passwordResetTokens_ok (s : store) : bool :=
  unique_on tk_id (passwordResetTokens s)
  && unique_on tk_token (passwordResetTokens s)
  && references_users tk_userId (passwordResetTokens s) s.

Definition favorites_ok (s : store) : bool :=
  unique_on fv_id (favorites s) && references_users fv_userId (favorites s) s.

Definition watchlist_ok (s : store) : bool :=
  unique_on wl_id (watchlist s) && references_users wl_userId (watchlist s) s.

Definition watchHistory_ok (s : store) : bool :=
  unique_on wh_id (watchHistory s) && references_users wh_userId (watchHistory s) s.

Definition dailySignups_ok (s : store) : bool :=
  unique_on ds_id (dailySignups s) && unique_on ds_date (dailySignups s).

(** The invariant a live database satisfies. *)
Definition store_ok (s : store) : bool :=
  users_ok s && emailVerificationTokens_ok s && passwordResetTokens_ok s
  && favorites_ok s && watchlist_ok s && watchHistory_ok s && dailySignups_ok s.

(** ** Table fields of the store, as getter and setter pairs *)

Definition set_users (t : table user) (s : store) : store :=
  {| users := t;
     emailVerificationTokens := emailVerificationTokens s;
     passwordResetTokens := passwordResetTokens s;
     favorites := favorites s; watchlist := watchlist s;
     watchHistory := watchHistory s; dailySignups := dailySignups s |}.

Definition set_emailVerificationTokens (t : table token) (s : store) : store :=
  {| users := users s;
     emailVerificationTokens := t;
     passwordResetTokens := passwordResetTokens s;
     favorites := favorites s; watchlist := watchlist s;
     watchHistory := watchHistory s; dailySignups := dailySignups s |}.

Definition set_passwordResetTokens (t : table token) (s : store) : store :=
  {| users := users s;
     emailVerificationTokens := emailVerificationTokens s;
     passwordResetTokens := t;
     favorites := favorites s; watchlist := watchlist s;
     watchHistory := watchHistory s; dailySignups := dailySignups s |}.

Definition set_favorites (t : table favorite) (s : store) : store :=
  {| users := users s;
     emailVerificationTokens := emailVerificationTokens s;
     passwordResetTokens := passwordResetTokens s;
     favorites := t; watchlist := watchlist s;
     watchHistory := watchHistory s; dailySignups := dailySignups s |}.

Definition set_watchlist (t : table watchlistItem) (s : store) : store :=
  {| users := users s;
     emailVerificationTokens := emailVerificationTokens s;
     passwordResetTokens := passwordResetTokens s;
     favorites := favorites s; watchlist := t;
     watchHistory := watchHistory s; dailySignups := dailySignups s |}.

Definition set_watchHistory (t : table watchHistoryEntry) (s : store) : store :=
  {| users := users s;
     emailVerificationTokens := emailVerificationTokens s;
     passwordResetTokens := passwordResetTokens s;
     favorites := favorites s; watchlist := watchlist s;
     watchHistory := t; dailySignups := dailySignups s |}.

Definition set_dailySignups (t : table dailySignup) (s : store) : store :=
  {| users := users s;
     emailVerificationTokens := emailVerificationTokens s;
     passwordResetTokens := passwordResetTokens s;
     favorites := favorites s; watchlist := watchlist s;
     watchHistory := watchHistory s; dailySignups := t |}.

(** ** Store statements

    Rows are scanned in insertion order.  A refused statement leaves the
    store as it was and raises [StoreError]. *)

Section Statements.
Context {R : Type}.
Variable name : tname.
Variable get : store -> table R.
Variable set : table R -> store -> store.

(** [db.select().from(t).where(P)] *)
Definition db_select (P : R -> bool) : M (list R) :=
  let* _ := emit (EvSelect name) in
  let* s := get_db in
  ret (List.filter P (rows (get s))).

(** [db.select().from(t).where(P).limit(1)] *)
Definition db_select_limit1 (P : R -> bool) : M (list R) :=
  let* _ := emit (EvSelect name) in
  let* s := get_db in
  ret (take 1 (List.filter P (rows (get s)))).

(** Rows get consecutive values of the serial column. *)
Fixpoint number_rows (n : Z) (mks : list (Z -> R)) : list R :=
  match mks with
  | [] => []
  | mk :: rest => mk n :: number_rows (n + 1) rest
  end.

(** [db.insert(t).values(vs).returning()]; [vs] is [None] when a parameter
    does not fit its column. *)
Definition db_insert (check : store -> bool) (vs : option (list (Z -> R)))
  : M (list R) :=
  let* _ := emit (EvInsert name) in
  let* s := get_db in
  match vs with
  | None => throw StoreError
  | Some mks =>
      let new := number_rows (serial (get s)) mks in
      let s' := set {| rows := rows (get s) ++ new;
                       serial := serial (get s) + Z.of_nat (length mks) |} s in
      if check s' then let* _ := put_db s' in ret new
      else throw StoreError
  end.

(** [db.update(t).set(..).where(P).returning()]; [set_values] is [None]
    when a parameter does not fit its column, and gives [None] on a row
    whose new version a NOT NULL column refuses. *)
Definition db_update (check : store -> bool) (P : R -> bool)
    (set_values : option (R -> option R)) : M (list R) :=
  let* _ := emit (EvUpdate name) in
  let* s := get_db in
  match set_values with
  | None => throw StoreError
  | Some f =>
      match mapM (fun r => if P r then f r else Some r) (rows (get s)) with
      | None => throw StoreError
      | Some rows' =>
          let s' := set {| rows := rows'; serial := serial (get s) |} s in
          if check s' then
            let* _ := put_db s' in
            ret (omap (fun r => if P r then f r else None) (rows (get s)))
          else throw StoreError
      end
  end.

(** [db.delete(t).where(P)] *)
Definition db_delete (P : R -> bool) : M unit :=
  let* _ := emit (EvDelete name) in
  let* s := get_db in
  put_db (set {| rows := List.filter (fun r => negb (P r)) (rows (get s));
                 serial := serial (get s) |} s).
End Statements.

(** An update that writes no key column cannot violate a constraint. *)
Definition unchecked (s : store) : bool := true.

(** [const [x] = rows] *)
Definition first {R} (l : list R) : option R := head l.

(** The cascade of [onDelete: 'cascade'] from [users] to every owned table. *)
Definition db_delete_users (P : user -> bool) : M unit :=
  let* _ := emit (EvDelete Users) in
  let* s := get_db in
  let gone := u_id <$> List.filter P (rows (users s)) in
  let owned {R} (f : R -> Z) (t : table R) : table R :=
    {| rows := List.filter (fun r => negb (bool_decide (f r ∈ gone))) (rows t);
       serial := serial t |} in
  put_db
    {| users := {| rows := List.filter (fun u => negb (P u)) (rows (users s));
                   serial := serial (users s) |};
       emailVerificationTokens := owned tk_userId (emailVerificationTokens s);
       passwordResetTokens := owned tk_userId (passwordResetTokens s);
       favorites := owned fv_userId (favorites s);
       watchlist := owned wl_userId (watchlist s);
       watchHistory := owned wh_userId (watchHistory s);
       dailySignups := dailySignups s |}.

(** ** Parameters of a statement

    How a JavaScript value fits a column.  The driver sends a number, a
    boolean or a string in its text form and the store reads the text by
    the type of the column: a text column takes it as it is, an integer
    column reads decimal notation within the range of [int4], a boolean
    column reads the literals of the type; [null] and [undefined] do not
    fit a NOT NULL column.  Objects, arrays and dates sent to a column of
    another type are not part of the model: such a parameter is refused. *)

(** White space the store skips around a literal. *)
Definition pg_space (c : ascii) : bool :=
  let n := Ascii.nat_of_ascii c in
  Nat.eqb n 32 || (Nat.leb 9 n && Nat.leb n 13).

Definition pg_trim (s : string) : list ascii :=
  let drop := fix drop (l : list ascii) : list ascii :=
    match l with
    | c :: rest => if pg_space c then drop rest else l
    | [] => []
    end in
  List.rev (drop (List.rev (drop (String.list_ascii_of_string s)))).

Definition lower (c : ascii) : ascii :=
  let n := Ascii.nat_of_ascii c in
  if Nat.leb 65 n && Nat.leb n 90 then Ascii.ascii_of_nat (n + 32) else c.

(** The input of type [boolean]: [true], [yes], [false], [no] and their
    prefixes, [on], [off] and [of], [1] and [0], in any case. *)
Definition pg_bool (s : string) : option bool :=
  let lit := String.string_of_list_ascii (lower <$> pg_trim s) in
  if bool_decide (lit ∈ ["t"; "tr"; "tru"; "true"; "y"; "ye"; "yes"; "on"; "1"])
  then Some true
  else if bool_decide (lit ∈ ["f"; "fa"; "fal"; "fals"; "false"; "n"; "no";
                               "of"; "off"; "0"])
  then Some false
  else None.

Fixpoint pg_digits (l : list ascii) (acc : Z) : option Z :=
  match l with
  | [] => Some acc
  | c :: rest =>
      let n := Ascii.nat_of_ascii c in
      if Nat.leb 48 n && Nat.leb n 57
      then pg_digits rest (acc * 10 + Z.of_nat (n - 48))
      else None
  end.

(** The values an [integer] or [serial] column holds; the store refuses a
    parameter outside them. *)
Definition int4 (z : Z) : bool := (-2147483648 <=? z) && (z <=? 2147483647).

(** The input of type [integer] in decimal notation: an optional sign and
    digits, within [int4]. *)
Definition pg_int4 (s : string) : option Z :=
  n ← match pg_trim s with
      | [] => None
      | c :: ds =>
          if Ascii.eqb c "-" then
            match ds with [] => None | _ => Z.opp <$> pg_digits ds 0 end
          else if Ascii.eqb c "+" then
            match ds with [] => None | _ => pg_digits ds 0 end
          else pg_digits (c :: ds) 0
      end;
  if int4 n then Some n else None.

Definition as_text (v : jsval) : option string :=
  match v with
  | JStr s => Some s
  | JNum n => Some (pretty n)
  | JBool b => Some (if b then "true" else "false")
  | _ => None
  end.

Definition as_int (v : jsval) : option Z :=
  match v with
  | JNum n => if int4 n then Some n else None
  | JStr s => pg_int4 s
  | _ => None
  end.

Definition as_bool (v : jsval) : option bool :=
  match v with
  | JBool b => Some b
  | JNum n => if n =? 1 then Some true else if n =? 0 then Some false else None
  | JStr s => pg_bool s
  | _ => None
  end.

(** A nullable integer column: [undefined] takes the default, NULL. *)
Definition as_int_null (v : jsval) : option (option Z) :=
  match v with
  | JUndef | JNull => Some None
  | _ => Some <$> as_int v
  end.

(** One column of [.set({...})]: absent or [undefined] keeps the column. *)
Inductive assignment (T : Type) :=
  | Keep
  | SetNull
  | SetTo (v : T).
Arguments Keep {T}.
Arguments SetNull {T}.
Arguments SetTo {T} v.

Definition set_with {T} (enc : jsval -> option T) (o : option jsval)
  : option (assignment T) :=
  match o with
  | None | Some JUndef => Some Keep
  | Some JNull => Some SetNull
  | Some v => SetTo <$> enc v
  end.

(** A timestamp column takes a [Date]. *)
Definition as_time (v : jsval) : option Z :=
  match v with
  | JDate t => Some t
  | _ => None
  end.

(** [k] decimal digits, zero padded. *)
Fixpoint digits (k : nat) (z : Z) : string :=
  match k with
  | O => ""
  | S k' =>
      digits k' (z / 10)
      +:+ String (Ascii.ascii_of_nat (48 + Z.to_nat (z mod 10))) ""
  end.

(** Year, month and day of the day numbered [days] from 1970-01-01, in the
    proleptic Gregorian calendar. *)
Definition civil_from_days (days : Z) : Z * Z * Z :=
  let z := days + 719468 in
  let era := z / 146097 in
  let doe := z - era * 146097 in
  let yoe := (doe - doe / 1460 + doe / 36524 - doe / 146096) / 365 in
  let doy := doe - (365 * yoe + yoe / 4 - yoe / 100) in
  let mp := (5 * doy + 2) / 153 in
  let d := doy - (153 * mp + 2) / 5 + 1 in
  let m := if mp <? 10 then mp + 3 else mp - 9 in
  (yoe + era * 400 + (if m <=? 2 then 1 else 0), m, d).

(** [new Date(t).toISOString()] *)
Definition toISOString (t : Z) : string :=
  let ms := t mod 86400000 in
  let '(y, m, d) := civil_from_days (t / 86400000) in
  (if (0 <=? y) && (y <=? 9999) then digits 4 y
   else (if y <? 0 then "-" else "+") +:+ digits 6 (Z.abs y))
  +:+ "-" +:+ digits 2 m +:+ "-" +:+ digits 2 d
  +:+ "T" +:+ digits 2 (ms / 3600000) +:+ ":" +:+ digits 2 (ms / 60000 mod 60)
  +:+ ":" +:+ digits 2 (ms / 1000 mod 60) +:+ "." +:+ digits 3 (ms mod 1000)
  +:+ "Z".

(** [JSON.parse(JSON.stringify(v))], what a [json] column gives back for the
    value stored in it: a property that is [undefined] is dropped, an
    [undefined] element of an array becomes [null], a [Date] becomes its ISO
    string, or [null] when it is out of the range of dates. *)
Fixpoint json_value (v : jsval) : jsval :=
  match v with
  | JDate t =>
      if Z.abs t <=? 8640000000000000 then JStr (toISOString t) else JNull
  | JArr l =>
      JArr ((fun x => match x with
                      | JUndef => JNull
                      | _ => json_value x
                      end) <$> l)
  | JObj m =>
      JObj (omap (fun x => match x with
                           | JUndef => None
                           | _ => Some (json_value x)
                           end) m)
  | _ => v
  end.

(** A [json] column is sent [JSON.stringify(v)]; [undefined] is stored as
    NULL and read back as [null]. *)
Definition as_json (v : jsval) : option jsval :=
  Some (match v with
        | JUndef => JNull
        | _ => json_value v
        end).

(** A [timestamp] column is sent [toISOString()] of the date; the store reads
    the four-digit years, 0001 to 9999. *)
Definition timestamp_fits (t : Z) : bool :=
  (-62135596800000 <=? t) && (t <=? 253402300799999).

Definition as_timestamp (d : option Z) : option Z :=
  t ← d; if timestamp_fits t then Some t else None.

Definition assign_notnull {T} (a : assignment T) (old : T) : option T :=
  match a with
  | Keep => Some old
  | SetNull => None
  | SetTo v => Some v
  end.

Definition assign_nullable {T} (a : assignment T) (old : option T) : option T :=
  match a with
  | Keep => old
  | SetNull => None
  | SetTo v => Some v
  end.

Definition assign_json (a : assignment jsval) (old : jsval) : jsval :=
  match a with
  | Keep => old
  | SetNull => JNull
  | SetTo v => v
  end.

Record user_set := {
  us_id : assignment Z;
  us_email : assignment string;
  us_username : assignment string;
  us_password : assignment string;
  us_avatar : assignment string;
  us_isVerified : assignment bool;
  us_preferences : assignment jsval;
  us_createdAt : assignment Z;
  us_updatedAt : assignment Z
}.

(** The columns of [users] named by the keys of a [.set] object; keys that
    name no column are ignored. *)
Definition encode_user_set (m : jsobj) : option user_set :=
  i ← set_with as_int (m !! "id");
  e ← set_with as_text (m !! "email");
  n ← set_with as_text (m !! "username");
  p ← set_with as_text (m !! "password");
  a ← set_with as_text (m !! "avatar");
  v ← set_with as_bool (m !! "isVerified");
  f ← set_with as_json (m !! "preferences");
  c ← set_with as_time (m !! "createdAt");
  u ← set_with as_time (m !! "updatedAt");
  Some {| us_id := i; us_email := e; us_username := n; us_password := p;
          us_avatar := a; us_isVerified := v; us_preferences := f;
          us_createdAt := c; us_updatedAt := u |}.

Definition apply_user_set (us : user_set) (u : user) : option user :=
  i ← assign_notnull (us_id us) (u_id u);
  e ← assign_notnull (us_email us) (u_email u);
  n ← assign_notnull (us_username us) (u_username u);
  p ← assign_notnull (us_password us) (u_password u);
  Some {| u_id := i; u_email := e; u_username := n; u_password := p;
          u_avatar := assign_nullable (us_avatar us) (u_avatar u);
          u_isVerified := assign_nullable (us_isVerified us) (u_isVerified u);
          u_preferences := assign_json (us_preferences us) (u_preferences u);
          u_createdAt := assign_nullable (us_createdAt us) (u_createdAt u);
          u_updatedAt := assign_nullable (us_updatedAt us) (u_updatedAt u) |}.

(** Changing [users.id] is also checked against the rows that reference it. *)
Definition users_set_ok (s : store) : bool :=
  users_ok s
  && references_users tk_userId (emailVerificationTokens s) s
  && references_users tk_userId (passwordResetTokens s) s
  && references_users fv_userId (favorites s) s
  && references_users wl_userId (watchlist s) s
  && references_users wh_userId (watchHistory s) s.

(** ** Rows as the objects the ORM hands back *)

Definition nullable {A} (f : A -> jsval) (o : option A) : jsval :=
  match o with
  | Some a => f a
  | None => JNull
  end.

Definition user_obj (u : user) : jsobj :=
  list_to_map
    [("id", JNum (u_id u)); ("email", JStr (u_email u));
     ("username", JStr (u_username u)); ("password", JStr (u_password u));
     ("avatar", nullable JStr (u_avatar u));
     ("isVerified", nullable JBool (u_isVerified u));
     ("preferences", u_preferences u);
     ("createdAt", nullable JDate (u_createdAt u));
     ("updatedAt", nullable JDate (u_updatedAt u))].

Definition watchHistory_obj (h : watchHistoryEntry) : jsobj :=
  list_to_map
    [("id", JNum (wh_id h)); ("userId", JNum (wh_userId h));
     ("animeId", JStr (wh_animeId h)); ("episodeId", JStr (wh_episodeId h));
     ("episodeNumber", nullable JNum (wh_episodeNumber h));
     ("progress", JNum (wh_progress h)); ("duration", JNum (wh_duration h));
     ("completed", JBool (wh_completed h));
     ("watchedAt", JDate (wh_watchedAt h));
     ("createdAt", JDate (wh_createdAt h))].

(** [const { password: _, ...userWithoutPassword } = user] *)
Definition without_password (user : jsobj) : jsobj := delete "password" user.

(** ** [parseInt] on one argument *)

Definition is_whitespace (c : ascii) : bool :=
  let n := nat_of_ascii c in
  ((9 <=? n)%nat && (n <=? 13)%nat) || (n =? 32)%nat.

Fixpoint skip_whitespace (s : string) : string :=
  match s with
  | String c rest => if is_whitespace c then skip_whitespace rest else s
  | EmptyString => s
  end.

Definition digit_value (c : ascii) : option Z :=
  let n := Z.of_nat (nat_of_ascii c) in
  if (48 <=? n) && (n <=? 57) then Some (n - 48)
  else if (97 <=? n) && (n <=? 122) then Some (n - 87)
  else if (65 <=? n) && (n <=? 90) then Some (n - 55)
  else None.

(** The longest prefix of digits in the radix; [None] is [NaN]. *)
Fixpoint parse_digits (radix : Z) (s : string) (acc : option Z) : option Z :=
  match s with
  | String c rest =>
      match digit_value c with
      | Some d =>
          if d <? radix then parse_digits radix rest (Some (default 0 acc * radix + d))
          else acc
      | None => acc
      end
  | EmptyString => acc
  end.

Definition parseInt (s : string) : option Z :=
  let s1 := skip_whitespace s in
  let '(negative, s2) :=
    match s1 with
    | String "-"%char rest => (true, rest)
    | String "+"%char rest => (false, rest)
    | _ => (false, s1)
    end in
  let '(radix, s3) :=
    match s2 with
    | String "0"%char (String "x"%char rest)
    | String "0"%char (String "X"%char rest) => (16, rest)
    | _ => (10, s2)
    end in
  (fun n => if negative : bool then - n else n) <$> parse_digits radix s3 None.

(** [count >= limit], false when the limit is [NaN]. *)
Definition js_ge (count : Z) (limit : option Z) : bool :=
  match limit with
  | Some l => l <=? count
  | None => false
  end.

(** ** Process configuration and external libraries *)

Record env := {
  JWT_SECRET : option string;
  JWT_EXPIRES_IN : option string;
  DAILY_SIGNUP_LIMIT : option string
}.

(** [process.env.X || fallback] *)
Definition env_or (x : option string) (fallback : string) : string :=
  match x with
  | Some v => if String.eqb v "" then fallback else v
  | None => fallback
  end.

Record jwt_claims := {
  userId : Z;
  iat : Z;
  exp : Z
}.

Class Runtime := {
  (** [bcrypt.hash(password, 10)] with the salt it draws *)
  bcrypt_hash : string -> string -> string;
  (** [bcrypt.compare(password, hash)] *)
  bcrypt_compare : string -> string -> bool;
  (** the signed compact form of the claims under a secret *)
  jwt_encode : string -> jwt_claims -> string;
  (** the claims of a well-formed token signed under the secret *)
  jwt_decode : string -> string -> option jwt_claims;
  (** the time span, in seconds, of the [expiresIn] option *)
  timespan : string -> option Z;
  (** [new Date(ms).toISOString().split('T')[0]] *)
  toISODate : Z -> string;
  (** the time value of [new Date(v)]; [None] is an invalid date *)
  new_Date : jsval -> option Z
}.

Class RuntimeLaws (rt : Runtime) : Prop := {
  bcrypt_compare_hash : forall salt password,
    bcrypt_compare password (bcrypt_hash salt password) = true;
  jwt_decode_encode : forall secret claims,
    jwt_decode secret (jwt_encode secret claims) = Some claims
}.

(** ** Objects passed by reference *)

(** [delete o.k] on the object at address [l]; [l] is unallocated when the
    argument is [undefined]. *)
Definition obj_delete (l : positive) (k : string) : M unit :=
  fun w =>
    match w_heap w !! l with
    | None => (Throw TypeError, w)
    | Some o =>
        (Ok tt, {| w_heap := <[l := delete k o]> (w_heap w);
                   w_db := w_db w;
                   w_log := w_log w ++ [EvObjDelete l k] |})
    end.

Definition obj_read (l : positive) : M jsobj :=
  fun w =>
    match w_heap w !! l with
    | None => (Throw TypeError, w)
    | Some o => (Ok o, w)
    end.

(** ** Result shapes *)

Record limitCheck := {
  allowed : bool;
  count : Z;
  limit : option Z;
  message : option string
}.

Record userData := {
  email : string;
  username : string;
  password : string;
  avatar : option string
}.

Record registered := {
  reg_user : jsobj;
  reg_token : string;
  reg_verificationToken : string
}.

Record loggedIn := {
  login_user : jsobj;
  login_token : string
}.

Record resetRequested := {
  rr_success : bool;
  rr_message : string;
  rr_resetToken : option string;
  rr_userId : option Z
}.

Record synced := {
  synced_favorites : option Z;
  synced_watchlist : option Z;
  synced_watchHistory : option Z
}.

Record userSnapshot := {
  snap_favorites : list jsval;
  snap_watchlist : list jsval;
  snap_watchHistory : list jsval
}.

(** [{ success: true, message }] *)
Definition success (msg : string) : jsobj :=
  list_to_map [("success", JBool true); ("message", JStr msg)].

(** Values handed to [insert(...).values(...)] before the driver encodes
    them. *)
Record favoriteValues := {
  fvv_animeId : jsval;
  fvv_animeData : jsval
}.

Record watchlistValues := {
  wlv_animeId : jsval;
  wlv_status : jsval;
  wlv_animeData : jsval
}.

Record watchHistoryValues := {
  whv_animeId : jsval;
  whv_episodeId : jsval;
  whv_episodeNumber : jsval;
  whv_progress : jsval;
  whv_duration : jsval;
  whv_completed : jsval;
  whv_watchedAt : option Z
}.

Definition encode_favorite (now uid : Z) (v : favoriteValues)
  : option (Z -> favorite) :=
  a ← as_text (fvv_animeId v);
  d ← as_json (fvv_animeData v);
  Some (fun id => {| fv_id := id; fv_userId := uid; fv_animeId := a;
                     fv_animeData := d; fv_createdAt := now |}).

Definition encode_watchlist (now uid : Z) (v : watchlistValues)
  : option (Z -> watchlistItem) :=
  a ← as_text (wlv_animeId v);
  st ← as_text (wlv_status v);
  d ← as_json (wlv_animeData v);
  Some (fun id => {| wl_id := id; wl_userId := uid; wl_animeId := a;
                     wl_status := st; wl_animeData := d;
                     wl_createdAt := now; wl_updatedAt := now |}).

Definition encode_watchHistory (now uid : Z) (v : watchHistoryValues)
  : option (Z -> watchHistoryEntry) :=
  a ← as_text (whv_animeId v);
  e ← as_text (whv_episodeId v);
  n ← as_int_null (whv_episodeNumber v);
  p ← as_int (whv_progress v);
  d ← as_int (whv_duration v);
  c ← as_bool (whv_completed v);
  t ← as_timestamp (whv_watchedAt v);
  Some (fun id => {| wh_id := id; wh_userId := uid; wh_animeId := a;
                     wh_episodeId := e; wh_episodeNumber := n;
                     wh_progress := p; wh_duration := d; wh_completed := c;
                     wh_watchedAt := t; wh_createdAt := now |}).

(** ** [authService.js] and [jwt.js] *)

Section Service.
Context `{rt : Runtime}.
Variable cfg : env.

(** [generateJWT(userId)]: [jwt.sign({ userId }, secret, { expiresIn })],
    which stamps [iat] and [exp] in seconds. *)
Definition generateJWT (now : Z) (uid : Z) : M string :=
  match JWT_SECRET cfg with
  | None | Some "" => throw (Error "secretOrPrivateKey must have a value")
  | Some secret =>
      match timespan (env_or (JWT_EXPIRES_IN cfg) "7d") with
      | None =>
          throw (Error "expiresIn should be a number of seconds or string representing a timespan")
      | Some ttl =>
          ret (jwt_encode secret
                 {| userId := uid; iat := now / 1000; exp := now / 1000 + ttl |})
      end
  end.

(** [verifyToken(token)] of [jwt.js] *)
Definition verifyToken (now : Z) (tok : string) : outcome jwt_claims :=
  match JWT_SECRET cfg with
  | None | Some "" => Throw (Error "Invalid token")
  | Some secret =>
      match jwt_decode secret tok with
      | None => Throw (Error "Invalid token")
      | Some decoded =>
          if exp decoded <=? now / 1000 then Throw (Error "Token has expired")
          else Ok decoded
      end
  end.

Definition checkDailySignupLimit (now : Z) : M limitCheck :=
  let today := toISODate now in
  let limit := parseInt (env_or (DAILY_SIGNUP_LIMIT cfg) "300") in
  catch
    (let* found := db_select_limit1 DailySignups dailySignups
                     (fun r => String.eqb (ds_date r) today) in
     match first found with
     | None =>
         let* _ := db_insert DailySignups dailySignups set_dailySignups
                     dailySignups_ok
                     (Some [fun id => {| ds_id := id; ds_date := today;
                                         ds_count := 0; ds_createdAt := now |}]) in
         ret {| allowed := true; count := 0; limit := limit; message := None |}
     | Some signupRecord =>
         if js_ge (ds_count signupRecord) limit then
           ret {| allowed := false; count := ds_count signupRecord;
                  limit := limit;
                  message :=
                    Some "Daily signup limit reached. Please try again tomorrow." |}
         else
           ret {| allowed := true; count := ds_count signupRecord;
                  limit := limit; message := None |}
     end)
    (fun _ => ret {| allowed := true; count := 0; limit := limit; message := None |}).

Definition incrementSignupCount (now : Z) : M unit :=
  let today := toISODate now in
  catch
    (let* found := db_select_limit1 DailySignups dailySignups
                     (fun r => String.eqb (ds_date r) today) in
     match first found with
     | Some record =>
         let* _ := db_update DailySignups dailySignups set_dailySignups
                     unchecked
                     (fun r => ds_id r =? ds_id record)
                     (Some (fun r => Some {| ds_id := ds_id r; ds_date := ds_date r;
                                             ds_count := ds_count record + 1;
                                             ds_createdAt := ds_createdAt r |})) in
         ret tt
     | None =>
         let* _ := db_insert DailySignups dailySignups set_dailySignups
                     dailySignups_ok
                     (Some [fun id => {| ds_id := id; ds_date := today;
                                         ds_count := 1; ds_createdAt := now |}]) in
         ret tt
     end)
    (fun _ => ret tt).

(** [register(userData)]; [salt] and [verificationToken] are the random
    draws of [bcrypt.hash] and [generateSecureToken]. *)
Definition register (now : Z) (salt verificationToken : string)
    (data : userData) : M registered :=
  let* limitCheck := checkDailySignupLimit now in
  if negb (allowed limitCheck) then
    throw (Error (default "" (message limitCheck)))
  else
  let* existingEmail := db_select_limit1 Users users
                          (fun u => String.eqb (u_email u) (email data)) in
  if (0 <? length existingEmail)%nat then
    throw (Error "User already exists with this email")
  else
  let* existingUsername := db_select_limit1 Users users
                             (fun u => String.eqb (u_username u) (username data)) in
  if (0 <? length existingUsername)%nat then
    throw (Error "Username already taken")
  else
  let hashedPassword := bcrypt_hash salt (password data) in
  let* inserted :=
    db_insert Users users set_users users_ok
      (Some [fun id =>
               {| u_id := id; u_email := email data;
                  u_username := username data;
                  u_password := hashedPassword;
                  u_avatar :=
                    Some (match avatar data with
                          | Some a => if String.eqb a "" then "avatar_1" else a
                          | None => "avatar_1"
                          end);
                  u_isVerified := Some false;
                  u_preferences := JObj ∅;
                  u_createdAt := Some now; u_updatedAt := Some now |}]) in
  let* newUser := lift_opt TypeError (first inserted) in
  let expiresAt := now + 24 * 60 * 60 * 1000 in
  let* _ := db_insert EmailVerificationTokens emailVerificationTokens
              set_emailVerificationTokens emailVerificationTokens_ok
              (Some [fun id => {| tk_id := id; tk_userId := u_id newUser;
                                  tk_token := verificationToken;
                                  tk_expiresAt := expiresAt; tk_used := false;
                                  tk_createdAt := now |}]) in
  let* _ := incrementSignupCount now in
  let userWithoutPassword := without_password (user_obj newUser) in
  let* token := generateJWT now (u_id newUser) in
  ret {| reg_user := userWithoutPassword; reg_token := token;
         reg_verificationToken := verificationToken |}.

Definition login (now : Z) (email password : string) : M loggedIn :=
  let* found := db_select_limit1 Users users
                  (fun u => String.eqb (u_email u) email) in
  match first found with
  | None => throw (Error "Invalid credentials")
  | Some user =>
      let isValidPassword := bcrypt_compare password (u_password user) in
      if negb isValidPassword then throw (Error "Invalid credentials")
      else
        let userWithoutPassword := without_password (user_obj user) in
        let* token := generateJWT now (u_id user) in
        ret {| login_user := userWithoutPassword; login_token := token |}
  end.

Definition getUserById (uid : Z) : M jsobj :=
  let* found := db_select_limit1 Users users (fun u => u_id u =? uid) in
  match first found with
  | None => throw (Error "User not found")
  | Some user => ret (without_password (user_obj user))
  end.

(** [updateProfile(userId, updates)]; [updates] is the address of the
    caller's object. *)
Definition updateProfile (now : Z) (uid : Z) (updates : positive) : M jsobj :=
  let* _ := obj_delete updates "email" in
  let* _ := obj_delete updates "password" in
  let* patch := obj_read updates in
  let* _ :=
    if truthy (prop patch "username") then
      let* name := lift_opt StoreError (as_text (prop patch "username")) in
      let* found := db_select_limit1 Users users
                      (fun u => String.eqb (u_username u) name) in
      match first found with
      | Some existingUser =>
          if negb (u_id existingUser =? uid) then
            throw (Error "Username already taken")
          else ret tt
      | None => ret tt
      end
    else ret tt in
  let* updated :=
    db_update Users users set_users users_set_ok (fun u => u_id u =? uid)
      (apply_user_set <$> encode_user_set (<["updatedAt" := JDate now]> patch)) in
  let* updatedUser := lift_opt TypeError (first updated) in
  ret (without_password (user_obj updatedUser)).

Definition with_password (hashed : string) (now : Z) (u : user) : user :=
  {| u_id := u_id u; u_email := u_email u; u_username := u_username u;
     u_password := hashed; u_avatar := u_avatar u;
     u_isVerified := u_isVerified u; u_preferences := u_preferences u;
     u_createdAt := u_createdAt u; u_updatedAt := Some now |}.

Definition with_isVerified (now : Z) (u : user) : user :=
  {| u_id := u_id u; u_email := u_email u; u_username := u_username u;
     u_password := u_password u; u_avatar := u_avatar u;
     u_isVerified := Some true; u_preferences := u_preferences u;
     u_createdAt := u_createdAt u; u_updatedAt := Some now |}.

Definition with_used (t : token) : token :=
  {| tk_id := tk_id t; tk_userId := tk_userId t; tk_token := tk_token t;
     tk_expiresAt := tk_expiresAt t; tk_used := true;
     tk_createdAt := tk_createdAt t |}.

Definition changePassword (now : Z) (salt : string) (uid : Z)
    (currentPassword newPassword : string) : M jsobj :=
  let* found := db_select_limit1 Users users (fun u => u_id u =? uid) in
  match first found with
  | None => throw (Error "User not found")
  | Some user =>
      if negb (bcrypt_compare currentPassword (u_password user)) then
        throw (Error "Current password is incorrect")
      else
        let hashedPassword := bcrypt_hash salt newPassword in
        let* _ := db_update Users users set_users unchecked
                    (fun u => u_id u =? uid)
                    (Some (fun u => Some (with_password hashedPassword now u))) in
        ret (success "Password changed successfully")
  end.

Definition requestPasswordReset (now : Z) (resetToken : string)
    (email : string) : M resetRequested :=
  let* found := db_select_limit1 Users users
                  (fun u => String.eqb (u_email u) email) in
  match first found with
  | None =>
      ret {| rr_success := true;
             rr_message := "If an account exists, a reset link will be sent.";
             rr_resetToken := None; rr_userId := None |}
  | Some user =>
      let expiresAt := now + 60 * 60 * 1000 in
      let* _ := db_insert PasswordResetTokens passwordResetTokens
                  set_passwordResetTokens passwordResetTokens_ok
                  (Some [fun id => {| tk_id := id; tk_userId := u_id user;
                                      tk_token := resetToken;
                                      tk_expiresAt := expiresAt;
                                      tk_used := false; tk_createdAt := now |}]) in
      ret {| rr_success := true;
             rr_message := "If an account exists, a reset link will be sent.";
             rr_resetToken := Some resetToken; rr_userId := Some (u_id user) |}
  end.

(** [and(eq(t.token, token), eq(t.used, false), gt(t.expiresAt, new Date()))] *)
Definition live_token (now : Z) (tok : string) (t : token) : bool :=
  String.eqb (tk_token t) tok && negb (tk_used t) && (now <? tk_expiresAt t).

Definition resetPassword (now : Z) (salt : string) (tok newPassword : string)
  : M jsobj :=
  let* found := db_select_limit1 PasswordResetTokens passwordResetTokens
                  (live_token now tok) in
  match first found with
  | None => throw (Error "Invalid or expired reset token")
  | Some tokenRecord =>
      let hashedPassword := bcrypt_hash salt newPassword in
      let* _ := db_update Users users set_users unchecked
                  (fun u => u_id u =? tk_userId tokenRecord)
                  (Some (fun u => Some (with_password hashedPassword now u))) in
      let* _ := db_update PasswordResetTokens passwordResetTokens
                  set_passwordResetTokens unchecked
                  (fun t => tk_id t =? tk_id tokenRecord)
                  (Some (fun t => Some (with_used t))) in
      ret (success "Password reset successful")
  end.

Definition verifyEmail (now : Z) (tok : string) : M jsobj :=
  let* found := db_select_limit1 EmailVerificationTokens
                  emailVerificationTokens (live_token now tok) in
  match first found with
  | None => throw (Error "Invalid or expired verification token")
  | Some tokenRecord =>
      let* _ := db_update Users users set_users unchecked
                  (fun u => u_id u =? tk_userId tokenRecord)
                  (Some (fun u => Some (with_isVerified now u))) in
      let* _ := db_update EmailVerificationTokens emailVerificationTokens
                  set_emailVerificationTokens unchecked
                  (fun t => tk_id t =? tk_id tokenRecord)
                  (Some (fun t => Some (with_used t))) in
      ret (success "Email verified successfully")
  end.

Definition resendVerificationEmail (now : Z) (verificationToken : string)
    (uid : Z) : M (jsobj * string) :=
  let* found := db_select_limit1 Users users (fun u => u_id u =? uid) in
  match first found with
  | None => throw (Error "User not found")
  | Some user =>
      if default false (u_isVerified user) then
        throw (Error "Email already verified")
      else
        let* _ := db_update EmailVerificationTokens emailVerificationTokens
                    set_emailVerificationTokens unchecked
                    (fun t => tk_userId t =? uid)
                    (Some (fun t => Some (with_used t))) in
        let expiresAt := now + 24 * 60 * 60 * 1000 in
        let* _ := db_insert EmailVerificationTokens emailVerificationTokens
                    set_emailVerificationTokens emailVerificationTokens_ok
                    (Some [fun id => {| tk_id := id; tk_userId := uid;
                                        tk_token := verificationToken;
                                        tk_expiresAt := expiresAt;
                                        tk_used := false; tk_createdAt := now |}]) in
        ret (success "Verification email sent", verificationToken)
  end.

Definition deleteAccount (uid : Z) (password : string) : M jsobj :=
  let* found := db_select_limit1 Users users (fun u => u_id u =? uid) in
  match first found with
  | None => throw (Error "User not found")
  | Some user =>
      if negb (bcrypt_compare password (u_password user)) then
        throw (Error "Invalid password")
      else
        let* _ := db_delete_users (fun u => u_id u =? uid) in
        ret (success "Account deleted successfully")
  end.
End Service.

(** ** Sync and fetch *)

Definition isArray (v : jsval) : bool :=
  match v with
  | JArr _ => true
  | _ => false
  end.

Definition elements_of (v : jsval) : list jsval :=
  match v with
  | JArr l => l
  | _ => []
  end.

Section Sync.
Context `{rt : Runtime}.

(** [{ userId, animeId: fav.animeId || fav.id, animeData: fav }] *)
Definition favorite_values (fav : jsval) : option favoriteValues :=
  a ← js_get fav "animeId";
  i ← (if truthy a then Some a else js_get fav "id");
  Some {| fvv_animeId := i; fvv_animeData := fav |}.

(** [{ userId, animeId: item.animeId || item.id,
       status: item.status || 'watching', animeData: item }] *)
Definition watchlist_values (item : jsval) : option watchlistValues :=
  a ← js_get item "animeId";
  i ← (if truthy a then Some a else js_get item "id");
  st ← js_get item "status";
  Some {| wlv_animeId := i; wlv_status := js_or st (JStr "watching");
          wlv_animeData := item |}.

Definition watchHistory_values (now : Z) (item : jsval)
  : option watchHistoryValues :=
  a ← js_get item "animeId";
  e ← js_get item "episodeId";
  n ← js_get item "episodeNumber";
  p ← js_get item "progress";
  d ← js_get item "duration";
  c ← js_get item "completed";
  w ← js_get item "watchedAt";
  Some {| whv_animeId := a; whv_episodeId := e; whv_episodeNumber := n;
          whv_progress := js_or p (JNum 0); whv_duration := js_or d (JNum 0);
          whv_completed := js_or c (JBool false);
          whv_watchedAt := if truthy w then new_Date w else Some now |}.

(** One of the three blocks of [syncUserData]; they differ in the table, the
    row built from an entry, and nothing else.  [None] leaves the key of
    [results] unset. *)
Definition sync_collection {R V} (name : tname) (get : store -> table R)
    (set : table R -> store -> store) (check : store -> bool)
    (owner : R -> Z) (values : jsval -> option V)
    (encode : V -> option (Z -> R)) (uid : Z) (submitted : jsval)
  : M (option Z) :=
  if truthy submitted && isArray submitted then
    let entries := elements_of submitted in
    let* _ := db_delete name get set (fun r => owner r =? uid) in
    let* _ :=
      if (0 <? length entries)%nat then
        let* vs := lift_opt TypeError (mapM values entries) in
        let* _ := db_insert name get set check (mapM encode vs) in
        ret tt
      else ret tt in
    ret (Some (Z.of_nat (length entries)))
  else ret None.

Definition syncUserData (now : Z) (uid : Z) (syncData : jsobj) : M (bool * synced) :=
  let* nf := sync_collection Favorites favorites set_favorites favorites_ok
               fv_userId favorite_values (encode_favorite now uid) uid
               (prop syncData "favorites") in
  let* nw := sync_collection Watchlist watchlist set_watchlist watchlist_ok
               wl_userId watchlist_values (encode_watchlist now uid) uid
               (prop syncData "watchlist") in
  let* nh := sync_collection WatchHistory watchHistory set_watchHistory
               watchHistory_ok wh_userId (watchHistory_values now)
               (encode_watchHistory now uid) uid
               (prop syncData "watchHistory") in
  ret (true, {| synced_favorites := nf; synced_watchlist := nw;
                synced_watchHistory := nh |}).

Definition fetchUserData (uid : Z) : M userSnapshot :=
  let* userFavorites := db_select Favorites favorites
                          (fun r => fv_userId r =? uid) in
  let* userWatchlist := db_select Watchlist watchlist
                          (fun r => wl_userId r =? uid) in
  let* userWatchHistory := db_select WatchHistory watchHistory
                             (fun r => wh_userId r =? uid) in
  ret {| snap_favorites := fv_animeData <$> userFavorites;
         snap_watchlist :=
           (fun w => JObj (<["status" := JStr (wl_status w)]>
                             (js_spread (wl_animeData w)))) <$> userWatchlist;
         snap_watchHistory :=
           (fun h => JObj (watchHistory_obj h)) <$> userWatchHistory |}.
End Sync.

(** ** Two requests in flight

    A request runs until its next [await] and then yields; the store
    statements of two requests interleave at those points.  The two methods
    that consume a token are cut at their awaits. *)

Inductive consumer :=
  | ResetPassword (now : Z) (salt tok newPassword : string)
  | VerifyEmail (now : Z) (tok : string).

Inductive progress :=
  | Called
  | Found (tokenRecord : token)
  | Hashed (tokenRecord : token) (hashedPassword : string)
  | UserUpdated (tokenRecord : token)
  | Returned (r : outcome jsobj).

Section Interleaving.
Context `{rt : Runtime}.

(** A thrown error ends the request. *)
Definition settle (m : M progress) : world -> progress * world :=
  fun w =>
    match m w with
    | (Ok p, w') => (p, w')
    | (Throw e, w') => (Returned (Throw e), w')
    end.

(** The code between two awaits. *)
Definition step (c : consumer) (p : progress) : world -> progress * world :=
  match c, p with
  | ResetPassword now salt tok newPassword, Called =>
      settle (let* found := db_select_limit1 PasswordResetTokens
                              passwordResetTokens (live_token now tok) in
              match first found with
              | None => throw (Error "Invalid or expired reset token")
              | Some tokenRecord => ret (Found tokenRecord)
              end)
  | ResetPassword now salt tok newPassword, Found tokenRecord =>
      settle (ret (Hashed tokenRecord (bcrypt_hash salt newPassword)))
  | ResetPassword now salt tok newPassword, Hashed tokenRecord hashedPassword =>
      settle (let* _ := db_update Users users set_users unchecked
                          (fun u => u_id u =? tk_userId tokenRecord)
                          (Some (fun u => Some (with_password hashedPassword now u))) in
              ret (UserUpdated tokenRecord))
  | ResetPassword now salt tok newPassword, UserUpdated tokenRecord =>
      settle (let* _ := db_update PasswordResetTokens passwordResetTokens
                          set_passwordResetTokens unchecked
                          (fun t => tk_id t =? tk_id tokenRecord)
                          (Some (fun t => Some (with_used t))) in
              ret (Returned (Ok (success "Password reset successful"))))
  | VerifyEmail now tok, Called =>
      settle (let* found := db_select_limit1 EmailVerificationTokens
                              emailVerificationTokens (live_token now tok) in
              match first found with
              | None => throw (Error "Invalid or expired verification token")
              | Some tokenRecord => ret (Found tokenRecord)
              end)
  | VerifyEmail now tok, Found tokenRecord =>
      settle (let* _ := db_update Users users set_users unchecked
                          (fun u => u_id u =? tk_userId tokenRecord)
                          (Some (fun u => Some (with_isVerified now u))) in
              ret (UserUpdated tokenRecord))
  | VerifyEmail now tok, Hashed tokenRecord _ =>
      fun w => (UserUpdated tokenRecord, w)
  | VerifyEmail now tok, UserUpdated tokenRecord =>
      settle (let* _ := db_update EmailVerificationTokens
                          emailVerificationTokens set_emailVerificationTokens
                          unchecked (fun t => tk_id t =? tk_id tokenRecord)
                          (Some (fun t => Some (with_used t))) in
              ret (Returned (Ok (success "Email verified successfully"))))
  | _, Returned r => fun w => (Returned r, w)
  end.

(** A request run alone, for at most [fuel] awaits. *)
Fixpoint run_alone (fuel : nat) (c : consumer) (p : progress) (w : world)
  : progress * world :=
  match fuel with
  | O => (p, w)
  | S n => let '(p', w') := step c p w in run_alone n c p' w'
  end.

(** Two requests under a schedule: [true] resumes the first, [false] the
    second. *)
Fixpoint interleave (schedule : list bool) (c1 c2 : consumer)
    (p1 p2 : progress) (w : world) : progress * progress * world :=
  match schedule with
  | [] => (p1, p2, w)
  | true :: rest =>
      let '(p1', w') := step c1 p1 w in interleave rest c1 c2 p1' p2 w'
  | false :: rest =>
      let '(p2', w') := step c2 p2 w in interleave rest c1 c2 p1 p2' w'
  end.
End Interleaving.

Definition consumed_table (c : consumer) : store -> table token :=
  match c with
  | ResetPassword _ _ _ _ => passwordResetTokens
  | VerifyEmail _ _ => emailVerificationTokens
  end.

Definition consumer_token (c : consumer) : string :=
  match c with
  | ResetPassword _ _ tok _ => tok
  | VerifyEmail _ tok => tok
  end.

Definition consumer_now (c : consumer) : Z :=
  match c with
  | ResetPassword now _ _ _ => now
  | VerifyEmail now _ => now
  end.

Definition same_method (c1 c2 : consumer) : bool :=
  match c1, c2 with
  | ResetPassword _ _ _ _, ResetPassword _ _ _ _ => true
  | VerifyEmail _ _, VerifyEmail _ _ => true
  | _, _ => false
  end.

(** Both requests select before either of them writes. *)
Definition both_select_first : list bool :=
  [true; false; true; true; true; false; false; false].

Definition succeeded (p : progress) : bool :=
  match p with
  | Returned (Ok _) => true
  | _ => false
  end.

(** ** The rest of [jwt.js] *)

(** [jwt.decode(token)]: the payload of a well-formed token, read without
    checking signature or expiry; [None] is [null]. *)
Class Inspect := {
  jwt_payload : string -> option jwt_claims
}.

Class InspectLaws `{rt : Runtime} (ins : Inspect) : Prop := {
  jwt_payload_encode : forall secret claims,
    jwt_payload (jwt_encode secret claims) = Some claims
}.

(** [s.split(' ')] *)
Fixpoint split_spaces (s : string) : list string :=
  match s with
  | EmptyString => [EmptyString]
  | String c rest =>
      if Ascii.eqb c " "%char then EmptyString :: split_spaces rest
      else
        match split_spaces rest with
        | part :: parts => String c part :: parts
        | [] => [String c EmptyString]
        end
  end.

(** [extractTokenFromHeader(authHeader)]; [None] is [null]. *)
Definition extractTokenFromHeader (authHeader : option string) : option string :=
  match authHeader with
  | None | Some "" => None
  | Some header =>
      match split_spaces header with
      | [scheme; tok] => if String.eqb scheme "Bearer" then Some tok else None
      | _ => None
      end
  end.

Section Jwt.
Context `{rt : Runtime} `{ins : Inspect}.
Variable cfg : env.

(** [generateToken(userId, expiresIn = null)] *)
Definition generateToken (now : Z) (uid : Z) (expiresIn : option string)
  : outcome string :=
  match JWT_SECRET cfg with
  | None | Some "" => Throw (Error "secretOrPrivateKey must have a value")
  | Some secret =>
      match timespan (env_or expiresIn (env_or (JWT_EXPIRES_IN cfg) "7d")) with
      | None =>
          Throw (Error "expiresIn should be a number of seconds or string representing a timespan")
      | Some ttl =>
          Ok (jwt_encode secret
                {| userId := uid; iat := now / 1000; exp := now / 1000 + ttl |})
      end
  end.

(** [decodeToken(token)] *)
Definition decodeToken (tok : string) : option jwt_claims := jwt_payload tok.

(** [isTokenExpired(token)]; an [exp] of zero is falsy. *)
Definition isTokenExpired (now : Z) (tok : string) : bool :=
  match decodeToken tok with
  | None => true
  | Some decoded =>
      if exp decoded =? 0 then true else exp decoded * 1000 <=? now
  end.
End Jwt.

(** ** The boundary: error handler, authentication middleware, routes *)

(** An error object as the handlers read it. *)
Record thrown := {
  err_name : string;
  err_message : string;
  err_stack : string
}.

(** [{ success: false, error }] *)
Definition failure (msg : string) : jsobj :=
  list_to_map [("success", JBool false); ("error", JStr msg)].

(** [errorHandler(err, req, res, next)] of [errorHandler.js]: the status and
    the body it sends. *)
Definition errorHandler (NODE_ENV : option string) (err : thrown) : Z * jsobj :=
  let '(status, message) :=
    if String.eqb (err_name err) "ValidationError" then (400, err_message err)
    else if String.eqb (err_name err) "UnauthorizedError" then (401, "Unauthorized")
    else if String.eqb (err_name err) "ForbiddenError" then (403, "Forbidden")
    else if negb (String.eqb (err_message err) "") then (500, err_message err)
    else (500, "Internal server error") in
  let message :=
    if bool_decide (NODE_ENV = Some "production") && (status =? 500)
    then "Internal server error" else message in
  (status,
   if bool_decide (NODE_ENV = Some "development")
   then <["stack" := JStr (err_stack err)]> (failure message)
   else failure message).

(** What a middleware did with a request: passed it on, with the user it
    attached if any, or answered it. *)
Inductive handled :=
  | Next (attached : option (jsobj * Z))
  | Responded (status : Z) (body : jsobj).

Inductive mail :=
  | VerificationEmail (to username : jsval) (token : string)
  | PasswordResetEmail (to username : jsval) (token : string)
  | AccountDeletionEmail (to username : jsval).

(** What a route did: the mails it handed to the email service and the
    response it sent. *)
Record answered := {
  mails : list mail;
  status : Z;
  body : jsobj
}.

Section Boundary.
Context `{rt : Runtime}.
Variable cfg : env.
Variable NODE_ENV : option string.
(** The name, message and stack the engine or the driver puts on an error. *)
Variable engine : error -> thrown.

(** The object behind a thrown error; [new Error(msg)] has name [Error] and
    message [msg]. *)
Definition thrown_of (e : error) : thrown :=
  match e with
  | Error msg => {| err_name := "Error"; err_message := msg;
                    err_stack := err_stack (engine e) |}
  | _ => engine e
  end.

Definition lift_outcome {A} (o : outcome A) : M A := fun w => (o, w).

(** [error.message || fallback] *)
Definition message_or (e : error) (fallback : string) : string :=
  let m := err_message (thrown_of e) in
  if String.eqb m "" then fallback else m.

(** [authenticate(req, res, next)]; [authorization] is
    [req.headers.authorization]. *)
Definition authenticate (now : Z) (authorization : option string) : M handled :=
  catch
    (match extractTokenFromHeader authorization with
     | None | Some "" =>
         ret (Responded 401 (failure "Authentication required"))
     | Some tok =>
         let* decoded := lift_outcome (verifyToken cfg now tok) in
         let* found := db_select_limit1 Users users
                         (fun u => u_id u =? userId decoded) in
         match first found with
         | None => ret (Responded 401 (failure "User not found"))
         | Some user =>
             ret (Next (Some (without_password (user_obj user), u_id user)))
         end
     end)
    (fun error =>
       ret (Responded 401 (failure (message_or error "Invalid or expired token")))).

(** [optionalAuth(req, res, next)] *)
Definition optionalAuth (now : Z) (authorization : option string) : M handled :=
  catch
    (match extractTokenFromHeader authorization with
     | None | Some "" => ret (Next None)
     | Some tok =>
         let* decoded := lift_outcome (verifyToken cfg now tok) in
         let* found := db_select_limit1 Users users
                         (fun u => u_id u =? userId decoded) in
         match first found with
         | Some user =>
             ret (Next (Some (without_password (user_obj user), u_id user)))
         | None => ret (Next None)
         end
     end)
    (fun _ => ret (Next None)).

(** A route handler is [try { ... res.json(...) } catch (error) { next(error) }]:
    it answers, or it hands the error on; [Throw e] below is [next(e)]. *)

(** [POST /register], after validation. *)
Definition route_register (now : Z) (salt verificationToken : string)
    (data : userData) : M answered :=
  let* result := register cfg now salt verificationToken data in
  ret {| mails := [VerificationEmail (prop (reg_user result) "email")
                     (prop (reg_user result) "username")
                     (reg_verificationToken result)];
         status := 201;
         body :=
           list_to_map
             [("success", JBool true);
              ("message",
               JStr "Registration successful. Please check your email to verify your account.");
              ("user", JObj (reg_user result));
              ("token", JStr (reg_token result))] |}.

(** [POST /login], after validation. *)
Definition route_login (now : Z) (email password : string) : M answered :=
  let* result := login cfg now email password in
  ret {| mails := []; status := 200;
         body :=
           list_to_map
             [("success", JBool true); ("message", JStr "Login successful");
              ("user", JObj (login_user result));
              ("token", JStr (login_token result))] |}.

(** [POST /forgot-password], after validation. *)
Definition route_forgot_password (now : Z) (resetToken : string)
    (email : string) : M answered :=
  let* result := requestPasswordReset now resetToken email in
  let* sent :=
    match rr_resetToken result, rr_userId result with
    | Some tok, Some uid =>
        if String.eqb tok "" then ret []
        else
          let* user := getUserById uid in
          ret [PasswordResetEmail (prop user "email") (prop user "username")
                 tok]
    | _, _ => ret []
    end in
  ret {| mails := sent; status := 200;
         body := success (rr_message result) |}.

(** [DELETE /account], behind [authenticate] and validation; [uid] is
    [req.userId]. *)
Definition route_delete_account (uid : Z) (password : string) : M answered :=
  let* user := getUserById uid in
  let* _ := deleteAccount uid password in
  ret {| mails := [AccountDeletionEmail (prop user "email")
                     (prop user "username")];
         status := 200;
         body := success "Account deleted successfully" |}.

(** What the client is sent when the error a route hands to [next] reaches
    [errorHandler]. *)
Definition with_errorHandler (m : M answered) : M answered :=
  catch m
    (fun error =>
       let '(st, b) := errorHandler NODE_ENV (thrown_of error) in
       ret {| mails := []; status := st; body := b |}).
End Boundary.

(** ** Properties stated over logs and tables *)

Definition is_statement (e : event) : bool :=
  match e with
  | EvObjDelete _ _ => false
  | _ => true
  end.


(** The table after [update(t).set(g).where(P)]. *)
Definition update_where {R} (P : R -> bool) (g : R -> R) (t : table R) : table R :=
  {| rows := (fun r => if P r then g r else r) <$> rows t; serial := serial t |}.

(** The table after [insert(t).values(mks)]. *)
Definition insert_into {R} (t : table R) (mks : list (Z -> R)) : table R :=
  {| rows := rows t ++ number_rows (serial t) mks;
     serial := serial t + Z.of_nat (length mks) |}.

(** Every row's id is below the next value of the serial column. *)
Definition fresh_serial {R} (id : R -> Z) (t : table R) : bool :=
  forallb (fun r => id r <? serial t) (rows t).

(** The table after [delete(t).where(P)]. *)
Definition delete_where {R} (P : R -> bool) (t : table R) : table R :=
  {| rows := List.filter (fun r => negb (P r)) (rows t); serial := serial t |}.

(** The rows of a collection that belong to a user. *)
Definition owned_rows {R} (owner : R -> Z) (uid : Z) (t : table R) : list R :=
  List.filter (fun r => owner r =? uid) (rows t).


(** The count recorded for the day of [now]; no row counts as zero. *)
Definition signups_on `{rt : Runtime} (now : Z) (s : store) : Z :=
  match List.find (fun r => String.eqb (ds_date r) (toISODate now))
          (rows (dailySignups s)) with
  | Some r => ds_count r
  | None => 0
  end.



(** ** Entries of a sync payload

    What an entry carries for its table to take the row built from it, said
    of the entry itself. *)












(** ** Frames

    [preserves R m] says that the world after [m] is related by [R] to the
    world before, whether [m] returns or throws; [returns P m] that whenever
    [m] returns a value, the value satisfies [P]. *)

Definition preserves (R : relation world) {A} (m : M A) : Prop :=
  forall w, R w (m w).2.

Definition returns {A} (P : A -> Prop) (m : M A) : Prop :=
  forall w, match (m w).1 with Ok a => P a | Throw _ => True end.

Definition same_table {T} (get : store -> T) : relation world :=
  fun w w' => get (w_db w') = get (w_db w).

Definition same_db : relation world :=
  fun w w' => w_db w' = w_db w.

(** The heap is untouched and the log grows by store statements only. *)
Definition statements_only : relation world :=
  fun w w' =>
    w_heap w' = w_heap w /\
    exists rest, w_log w' = w_log w ++ rest /\ forallb is_statement rest = true.

(** The counter table is consistent and its serial is ahead of its ids. *)
Definition dailySignups_wf (s : store) : bool :=
  dailySignups_ok s && fresh_serial ds_id (dailySignups s).

(** The row of the day of [now]. *)
Definition todays `{rt : Runtime} (now : Z) (r : dailySignup) : bool :=
  String.eqb (ds_date r) (toISODate now).

(** [raises P m]: whenever [m] throws, the error satisfies [P]. *)
Definition raises {A} (P : error -> Prop) (m : M A) : Prop :=
  forall w, match (m w).1 with Throw e => P e | Ok _ => True end.

(** The email and the password hash of every user, in table order. *)
Definition credentials (s : store) : list (string * string) :=
  (fun u => (u_email u, u_password u)) <$> rows (users s).

(** Registrations one after another; [None] as soon as one of them fails. *)
Record registration := {
  reg_at : Z;
  reg_salt : string;
  reg_verification : string;
  reg_data : userData
}.

Fixpoint register_all `{rt : Runtime} (cfg : env) (rs : list registration)
    (w : world) : option world :=
  match rs with
  | [] => Some w
  | r :: rest =>
      match register cfg (reg_at r) (reg_salt r) (reg_verification r)
              (reg_data r) w with
      | (Ok _, w') => register_all cfg rest w'
      | (Throw _, _) => None
      end
  end.

(** The row of a token issued to a user, before the store numbers it. *)
Definition issued (uid : Z) (tok : string) (expiresAt now : Z) (id : Z) : token :=
  {| tk_id := id; tk_userId := uid; tk_token := tok; tk_expiresAt := expiresAt;
     tk_used := false; tk_createdAt := now |}.

(** The configuration lets [jwt.sign] produce a token. *)
Definition jwt_ready `{rt : Runtime} (cfg : env) : Prop :=
  exists secret ttl,
    JWT_SECRET cfg = Some secret /\ secret <> ""
    /\ timespan (env_or (JWT_EXPIRES_IN cfg) "7d") = Some ttl.

(** The day of [now] has a counter row whose count has reached the
    configured limit. *)
Definition over_limit `{rt : Runtime} (cfg : env) (now : Z) (s : store) : bool :=
  match List.find (fun r => String.eqb (ds_date r) (toISODate now))
          (rows (dailySignups s)) with
  | Some r => js_ge (ds_count r) (parseInt (env_or (DAILY_SIGNUP_LIMIT cfg) "300"))
  | None => false
  end.

(** A consistent store stays consistent. *)
Definition keeps_ok : relation world :=
  fun w w' => store_ok (w_db w) = true -> store_ok (w_db w') = true.

(** No character of the string is a space. *)
Definition spaceless (s : string) : bool :=
  forallb (fun c => negb (Ascii.eqb c " "%char)) (String.list_ascii_of_string s).

(** ** A concrete runtime, for running the model on examples *)

Module Demo.

Fixpoint bits (p : positive) : string :=
  match p with
  | xH => ""
  | xO q => String "0"%char (bits q)
  | xI q => String "1"%char (bits q)
  end.

Definition write_Z (z : Z) (rest : string) : string :=
  match z with
  | Z0 => String "z"%char (String "."%char rest)
  | Zpos p => String "p"%char (bits p +:+ String "."%char rest)
  | Zneg p => String "n"%char (bits p +:+ String "."%char rest)
  end.

Fixpoint read_bits (s : string) : option (positive * string) :=
  match s with
  | String c rest =>
      if Ascii.eqb c "."%char then Some (xH, rest)
      else if Ascii.eqb c "0"%char then
        '(p, rest') ← read_bits rest; Some (xO p, rest')
      else if Ascii.eqb c "1"%char then
        '(p, rest') ← read_bits rest; Some (xI p, rest')
      else None
  | EmptyString => None
  end.

Definition read_Z (s : string) : option (Z * string) :=
  match s with
  | String c rest =>
      if Ascii.eqb c "z"%char then
        match rest with
        | String d rest' => if Ascii.eqb d "."%char then Some (0, rest') else None
        | EmptyString => None
        end
      else if Ascii.eqb c "p"%char then
        '(p, rest') ← read_bits rest; Some (Zpos p, rest')
      else if Ascii.eqb c "n"%char then
        '(p, rest') ← read_bits rest; Some (Zneg p, rest')
      else None
  | EmptyString => None
  end.

Definition encode (secret : string) (c : jwt_claims) : string :=
  write_Z (userId c) (write_Z (iat c) (write_Z (exp c) secret)).

Definition decode (secret tok : string) : option jwt_claims :=
  '(u, r1) ← read_Z tok;
  '(i, r2) ← read_Z r1;
  '(e, r3) ← read_Z r2;
  if String.eqb r3 secret then Some {| userId := u; iat := i; exp := e |}
  else None.

(** The payload of a token, whoever signed it. *)
Definition payload (tok : string) : option jwt_claims :=
  '(u, r1) ← read_Z tok;
  '(i, r2) ← read_Z r1;
  '(e, _) ← read_Z r2;
  Some {| userId := u; iat := i; exp := e |}.

Definition hash (salt password : string) : string :=
  password +:+ String "$"%char salt.

Definition compare (password hashed : string) : bool :=
  String.prefix (password +:+ "$") hashed.

Definition digit (c : ascii) : option Z :=
  let n := Ascii.nat_of_ascii c in
  if Nat.leb 48 n && Nat.leb n 57 then Some (Z.of_nat (n - 48)) else None.

(** The digits at the head of a list, their value and their number. *)
Fixpoint leading (l : list ascii) (acc : Z) (k : nat)
  : Z * nat * list ascii :=
  match l with
  | c :: rest =>
      match digit c with
      | Some d => leading rest (acc * 10 + d) (S k)
      | None => (acc, k, l)
      end
  | [] => (acc, k, l)
  end.

(** Exactly [k] digits. *)
Fixpoint number (k : nat) (l : list ascii) (acc : Z)
  : option (Z * list ascii) :=
  match k with
  | O => Some (acc, l)
  | S k' =>
      match l with
      | c :: rest => d ← digit c; number k' rest (acc * 10 + d)
      | [] => None
      end
  end.

Definition expect (c : ascii) (l : list ascii) : option (list ascii) :=
  match l with
  | c' :: rest => if Ascii.eqb c c' then Some rest else None
  | [] => None
  end.

Definition unit_ms (u : string) : option Z :=
  if bool_decide (u ∈ ["years"; "year"; "yrs"; "yr"; "y"]) then Some 31557600000
  else if bool_decide (u ∈ ["weeks"; "week"; "w"]) then Some 604800000
  else if bool_decide (u ∈ ["days"; "day"; "d"]) then Some 86400000
  else if bool_decide (u ∈ ["hours"; "hour"; "hrs"; "hr"; "h"]) then Some 3600000
  else if bool_decide (u ∈ ["minutes"; "minute"; "mins"; "min"; "m"]) then Some 60000
  else if bool_decide (u ∈ ["seconds"; "second"; "secs"; "sec"; "s"]) then Some 1000
  else if bool_decide (u ∈ ["milliseconds"; "millisecond"; "msecs"; "msec";
                             "ms"; ""]) then Some 1
  else None.

(** The [expiresIn] string as [jsonwebtoken] reads it, with [ms]: an amount,
    with a fraction or not, and a unit, milliseconds when there is none;
    the seconds it adds to [iat], rounded down.  The product is exact here,
    where the library computes it in floating point. *)
Definition span (s : string) : option Z :=
  if Nat.ltb 100 (String.length s) then None
  else
    let l := String.list_ascii_of_string s in
    let '(sign, l) := match l with
                      | c :: rest => if Ascii.eqb c "-" then (-1, rest) else (1, l)
                      | [] => (1, l)
                      end in
    let '(whole, kw, l) := leading l 0 0 in
    '(num, den, l) ← match l with
                     | c :: rest =>
                         if Ascii.eqb c "." then
                           let '(frac, kf, rest') := leading rest 0 0 in
                           match kf with
                           | O => None
                           | _ => Some (whole * 10 ^ Z.of_nat kf + frac,
                                        10 ^ Z.of_nat kf, rest')
                           end
                         else match kw with O => None | _ => Some (whole, 1, l) end
                     | [] => match kw with O => None | _ => Some (whole, 1, l) end
                     end;
    let unit := (fix spaces (l : list ascii) :=
                   match l with
                   | c :: rest => if Ascii.eqb c " " then spaces rest else l
                   | [] => []
                   end) l in
    u ← unit_ms (String.string_of_list_ascii (lower <$> unit));
    Some (sign * num * u / (den * 1000)).

(** Days from 1970-01-01 to a date of the proleptic Gregorian calendar. *)
Definition days_from_civil (y m d : Z) : Z :=
  let y := if m <=? 2 then y - 1 else y in
  let era := y / 400 in
  let yoe := y - era * 400 in
  let doy := (153 * (if 2 <? m then m - 3 else m + 9) + 2) / 5 + d - 1 in
  era * 146097 + (yoe * 365 + yoe / 4 - yoe / 100 + doy) - 719468.

(** The clock part of a date-time string, after [T]: milliseconds into the
    day, less the offset of the time zone.  A time with no zone is local
    time, which for this server is UTC. *)
Definition iso_clock (l : list ascii) : option Z :=
  '(h, l) ← number 2 l 0;
  l ← expect ":" l;
  '(mi, l) ← number 2 l 0;
  '(sec, ms, l) ← match l with
                  | c :: rest =>
                      if Ascii.eqb c ":" then
                        '(sec, rest) ← number 2 rest 0;
                        match rest with
                        | c' :: rest' =>
                            if Ascii.eqb c' "." then
                              let '(f, k, rest'') := leading rest' 0 0 in
                              match k with
                              | O => None
                              | 1%nat => Some (sec, f * 100, rest'')
                              | 2%nat => Some (sec, f * 10, rest'')
                              | _ => Some (sec, f / 10 ^ (Z.of_nat k - 3), rest'')
                              end
                            else Some (sec, 0, rest)
                        | [] => Some (sec, 0, rest)
                        end
                      else Some (0, 0, l)
                  | [] => Some (0, 0, l)
                  end;
  off ← match l with
        | [] => Some 0
        | c :: rest =>
            if Ascii.eqb c "Z" then match rest with [] => Some 0 | _ => None end
            else
              sign ← (if Ascii.eqb c "+" then Some 1
                      else if Ascii.eqb c "-" then Some (-1) else None);
              '(oh, rest) ← number 2 rest 0;
              rest ← expect ":" rest;
              '(om, rest) ← number 2 rest 0;
              match rest with
              | [] => if (oh <=? 23) && (om <=? 59)
                      then Some (sign * (oh * 60 + om) * 60000) else None
              | _ => None
              end
        end;
  if ((h <=? 23) && (mi <=? 59) && (sec <=? 59))
     || ((h =? 24) && (mi =? 0) && (sec =? 0) && (ms =? 0))
  then Some (((h * 60 + mi) * 60 + sec) * 1000 + ms - off)
  else None.

(** [Date.parse] on the date-time string format of the language:
    [YYYY], [YYYY-MM] or [YYYY-MM-DD], a year of six digits with its sign,
    and after [T] a time [HH:mm], [HH:mm:ss] or [HH:mm:ss.sss] with [Z] or
    an offset.  A day up to 31 is taken in any month, as the engine does.
    The other formats an engine may read count as invalid here. *)
Definition iso_date (s : string) : option Z :=
  let l := String.list_ascii_of_string s in
  '(y, l) ← match l with
            | c :: rest =>
                if Ascii.eqb c "+" then number 6 rest 0
                else if Ascii.eqb c "-" then
                  '(y, rest') ← number 6 rest 0;
                  if y =? 0 then None else Some (- y, rest')
                else number 4 l 0
            | [] => None
            end;
  '(m, l) ← match l with
            | c :: rest => if Ascii.eqb c "-" then number 2 rest 0 else Some (1, l)
            | [] => Some (1, l)
            end;
  '(d, l) ← match l with
            | c :: rest => if Ascii.eqb c "-" then number 2 rest 0 else Some (1, l)
            | [] => Some (1, l)
            end;
  clock ← match l with
          | [] => Some 0
          | c :: rest => if Ascii.eqb c "T" then iso_clock rest else None
          end;
  if (1 <=? m) && (m <=? 12) && (1 <=? d) && (d <=? 31)
  then Some (days_from_civil y m 1 * 86400000 + (d - 1) * 86400000 + clock)
  else None.

(** A time value is a date within 100 million days of the epoch. *)
Definition time_clip (t : Z) : option Z :=
  if Z.abs t <=? 8640000000000000 then Some t else None.

Definition date_of (v : jsval) : option Z :=
  match v with
  | JNum n => time_clip n
  | JDate t => time_clip t
  | JBool b => Some (if b then 1 else 0)
  | JStr s => t ← iso_date s; time_clip t
  | _ => None
  end.

#[export] Instance runtime : Runtime := {|
  bcrypt_hash := hash;
  bcrypt_compare := compare;
  jwt_encode := encode;
  jwt_decode := decode;
  timespan := span;
  toISODate := fun t => pretty (t / 86400000);
  new_Date := date_of
|}.

Definition cfg : env :=
  {| JWT_SECRET := Some "s3cret"; JWT_EXPIRES_IN := None;
     DAILY_SIGNUP_LIMIT := None |}.

Definition alice : user :=
  {| u_id := 1; u_email := "alice@example.com"; u_username := "alice";
     u_password := hash "salt1" "hunter22"; u_avatar := Some "avatar_1";
     u_isVerified := Some false; u_preferences := JObj ∅;
     u_createdAt := Some 1000; u_updatedAt := Some 1000 |}.

Definition bob : user :=
  {| u_id := 2; u_email := "bob@example.com"; u_username := "bob";
     u_password := hash "salt2" "correct horse"; u_avatar := Some "avatar_2";
     u_isVerified := Some true; u_preferences := JObj ∅;
     u_createdAt := Some 2000; u_updatedAt := Some 2000 |}.

Definition reset_token : token :=
  {| tk_id := 1; tk_userId := 1; tk_token := "r-0001"; tk_expiresAt := 3610000;
     tk_used := false; tk_createdAt := 10000 |}.

Definition verify_token : token :=
  {| tk_id := 1; tk_userId := 1; tk_token := "v-0001"; tk_expiresAt := 86401000;
     tk_used := false; tk_createdAt := 1000 |}.

Definition old_favorite : favorite :=
  {| fv_id := 1; fv_userId := 1; fv_animeId := "one-piece";
     fv_animeData := JObj {[ "id" := JStr "one-piece" ]}; fv_createdAt := 5000 |}.

Definition db (today : Z) : store :=
  {| users := {| rows := [alice; bob]; serial := 3 |};
     emailVerificationTokens := {| rows := [verify_token]; serial := 2 |};
     passwordResetTokens := {| rows := [reset_token]; serial := 2 |};
     favorites := {| rows := [old_favorite]; serial := 2 |};
     watchlist := {| rows := []; serial := 1 |};
     watchHistory := {| rows := []; serial := 1 |};
     dailySignups := {| rows := [{| ds_id := 1; ds_date := "0"; ds_count := today;
                                    ds_createdAt := 0 |}];
                        serial := 2 |} |}.

(** A world whose heap holds one request body at address 1. *)
Definition world_with (body : jsobj) (today : Z) : world :=
  {| w_heap := {[ 1%positive := body ]}; w_db := db today; w_log := [] |}.

(** A store with no rows at all. *)
Definition empty_table {R} : table R := {| rows := []; serial := 1 |}.

Definition fresh_world : world :=
  {| w_heap := ∅;
     w_db := {| users := empty_table; emailVerificationTokens := empty_table;
                passwordResetTokens := empty_table; favorites := empty_table;
                watchlist := empty_table; watchHistory := empty_table;
                dailySignups := empty_table |};
     w_log := [] |}.

Definition carol : userData :=
  {| email := "carol@example.com"; username := "carol";
     password := "tr0ub4dor"; avatar := None |}.

Definition naruto : jsval :=
  JObj {[ "id" := JStr "naruto"; "title" := JStr "Naruto" ]}.

Definition bleach : jsval :=
  JObj {[ "animeId" := JNum 269; "title" := JStr "Bleach";
          "status" := JStr "completed" ]}.

Definition episode : jsval :=
  JObj {[ "animeId" := JStr "naruto"; "episodeId" := JStr "naruto-ep-1";
          "episodeNumber" := JNum 1; "progress" := JNum 600;
          "duration" := JNum 1420;
          "watchedAt" := JStr "2024-01-15T10:30:00.000Z" ]}.

#[export] Instance inspect : Inspect := {| jwt_payload := payload |}.

(** Name, message and stack of the errors that are not [new Error(msg)]. *)
Definition engine (e : error) : thrown :=
  match e with
  | Error msg =>
      {| err_name := "Error"; err_message := msg;
         err_stack := "Error: " +:+ msg +:+ " at authService.js" |}
  | TypeError =>
      {| err_name := "TypeError";
         err_message := "Cannot destructure property of undefined";
         err_stack := "TypeError at authService.js" |}
  | StoreError =>
      {| err_name := "NeonDbError"; err_message := "constraint violated";
         err_stack := "NeonDbError at index.js" |}
  end.

End Demo.

(** * Proofs *)

(** ** Running the monad *)

Lemma first_limit1 {R} (P : R -> bool) (l : list R) :
  first (take 1 (List.filter P l)) = List.find P l.
Proof.
  induction l as [|a l IH]; simpl; [done|].
  destruct (P a); simpl; done.
Qed.

Lemma length_limit1 {R} (P : R -> bool) (l : list R) :
  (0 <? length (take 1 (List.filter P l)))%nat
  = match List.find P l with Some _ => true | None => false end.
Proof.
  induction l as [|a l IH]; simpl; [done|].
  destruct (P a); simpl; done.
Qed.

Lemma find_app_none {R} (P : R -> bool) (l l' : list R) :
  List.find P l = None -> List.find P (l ++ l') = List.find P l'.
Proof.
  induction l as [|a l IH]; simpl; [done|].
  destruct (P a); [done|]. exact IH.
Qed.

Lemma mapM_total {R} (P : R -> bool) (g : R -> R) (l : list R) :
  mapM (fun r => if P r then Some (g r) else Some r) l
  = Some ((fun r => if P r then g r else r) <$> l).
Proof.
  induction l as [|a l IH]; simpl; [done|].
  rewrite IH. destruct (P a); done.
Qed.

Lemma bind_ok {A B} (m : M A) (k : A -> M B) w b w' :
  bind m k w = (Ok b, w') ->
  exists a w1, m w = (Ok a, w1) /\ k a w1 = (Ok b, w').
Proof.
  unfold bind. destruct (m w) as [[a|e] w1]; [eauto | discriminate].
Qed.

(** ** Frames: what a computation leaves alone *)

Section Preserves.
Context (R : relation world) `{!PreOrder R}.

Lemma preserves_ret {A} (a : A) : preserves R (ret a).
Proof. intros w. simpl. reflexivity. Qed.

Lemma preserves_throw {A} (e : error) : preserves R (@throw A e).
Proof. intros w. simpl. reflexivity. Qed.

Lemma preserves_lift_opt {A} e (o : option A) : preserves R (lift_opt e o).
Proof. destruct o; [apply preserves_ret | apply preserves_throw]. Qed.

Lemma preserves_bind {A B} (m : M A) (k : A -> M B) :
  preserves R m -> (forall a, preserves R (k a)) -> preserves R (bind m k).
Proof.
  intros Hm Hk w. unfold bind. specialize (Hm w).
  destruct (m w) as [[a|e] w1]; simpl in *; [|done].
  etransitivity; [exact Hm | apply Hk].
Qed.

Lemma preserves_catch {A} (m : M A) (h : error -> M A) :
  preserves R m -> (forall e, preserves R (h e)) -> preserves R (catch m h).
Proof.
  intros Hm Hh w. unfold catch. specialize (Hm w).
  destruct (m w) as [[a|e] w1]; simpl in *; [done|].
  etransitivity; [exact Hm | apply Hh].
Qed.
End Preserves.

#[local] Instance same_table_preorder {T} (get : store -> T) :
  PreOrder (same_table get).
Proof.
  split; [intros w; reflexivity|].
  intros a b c Hab Hbc. unfold same_table in *. congruence.
Qed.

#[local] Instance same_db_preorder : PreOrder same_db.
Proof.
  split; [intros w; reflexivity|].
  intros a b c Hab Hbc. unfold same_db in *. congruence.
Qed.

#[local] Instance statements_only_preorder : PreOrder statements_only.
Proof.
  split.
  - intros w. split; [done|]. exists []. rewrite app_nil_r. done.
  - intros a b c [Hh1 (r1 & Hl1 & Hs1)] [Hh2 (r2 & Hl2 & Hs2)].
    split; [congruence|]. exists (r1 ++ r2). split.
    + rewrite Hl2, Hl1, app_assoc. done.
    + rewrite forallb_app, Hs1, Hs2. done.
Qed.

(** Each statement, run. *)

Section StatementFacts.
Context {R : Type} (name : tname) (get : store -> table R)
  (set : table R -> store -> store).

Lemma db_select_run (P : R -> bool) w :
  db_select name get P w
  = (Ok (List.filter P (rows (get (w_db w)))), logged (EvSelect name) w).
Proof. reflexivity. Qed.

Lemma db_select_limit1_run (P : R -> bool) w :
  db_select_limit1 name get P w
  = (Ok (take 1 (List.filter P (rows (get (w_db w))))), logged (EvSelect name) w).
Proof. reflexivity. Qed.

Lemma db_delete_run (P : R -> bool) w :
  db_delete name get set P w
  = (Ok tt,
     stored (set (delete_where P (get (w_db w))) (w_db w))
       (logged (EvDelete name) w)).
Proof. reflexivity. Qed.

Lemma db_update_total_run (P : R -> bool) (g : R -> R) w :
  db_update name get set unchecked P (Some (fun r => Some (g r))) w
  = (Ok (g <$> List.filter P (rows (get (w_db w)))),
     stored (set (update_where P g (get (w_db w))) (w_db w))
       (logged (EvUpdate name) w)).
Proof.
  unfold db_update, update_where, bind, emit, get_db. simpl.
  rewrite mapM_total. simpl. unfold put_db, ret. simpl. f_equal. f_equal.
  induction (rows (get (w_db w))) as [|a l IH]; [done|].
  cbn. destruct (P a); cbn; [f_equal|]; exact IH.
Qed.

Lemma db_insert_run check (mks : list (Z -> R)) w :
  db_insert name get set check (Some mks) w
  = let s' := set (insert_into (get (w_db w)) mks) (w_db w) in
    if check s' then
      (Ok (number_rows (serial (get (w_db w))) mks),
       stored s' (logged (EvInsert name) w))
    else (Throw StoreError, logged (EvInsert name) w).
Proof.
  unfold db_insert, insert_into, bind, emit, get_db. simpl.
  match goal with |- context [if ?c then _ else _] => destruct c end;
    reflexivity.
Qed.

(** Whatever a statement does, it does to its own table, and it adds one
    entry to the log. *)

Lemma db_insert_same_table {T} (get' : store -> T) check vs :
  (forall t s, get' (set t s) = get' s) ->
  preserves (same_table get') (db_insert name get set check vs).
Proof.
  intros Hind w. unfold db_insert, bind, emit, get_db. simpl.
  destruct vs as [mks|]; [|reflexivity].
  match goal with |- context [if ?c then _ else _] => destruct c end;
    simpl; [|reflexivity].
  unfold same_table. simpl. apply Hind.
Qed.

Lemma db_update_same_table {T} (get' : store -> T) check P f :
  (forall t s, get' (set t s) = get' s) ->
  preserves (same_table get') (db_update name get set check P f).
Proof.
  intros Hind w. unfold db_update, bind, emit, get_db. simpl.
  destruct f as [f|]; [|reflexivity].
  destruct (mapM _ _) as [rows'|]; [|reflexivity].
  match goal with |- context [if ?c then _ else _] => destruct c end;
    simpl; [|reflexivity].
  unfold same_table. simpl. apply Hind.
Qed.

Lemma db_delete_same_table {T} (get' : store -> T) P :
  (forall t s, get' (set t s) = get' s) ->
  preserves (same_table get') (db_delete name get set P).
Proof. intros Hind w. unfold same_table. simpl. apply Hind. Qed.

Lemma db_select_limit1_same_table {T} (get' : store -> T) P :
  preserves (same_table get') (db_select_limit1 name get P).
Proof. intros w. reflexivity. Qed.

Lemma db_select_same_table {T} (get' : store -> T) P :
  preserves (same_table get') (db_select name get P).
Proof. intros w. reflexivity. Qed.

Lemma db_select_limit1_statements P :
  preserves statements_only (db_select_limit1 name get P).
Proof. intros w. split; [done|]. exists [EvSelect name]. done. Qed.

Lemma db_select_statements P :
  preserves statements_only (db_select name get P).
Proof. intros w. split; [done|]. exists [EvSelect name]. done. Qed.

Lemma db_delete_statements P :
  preserves statements_only (db_delete name get set P).
Proof. intros w. split; [done|]. exists [EvDelete name]. done. Qed.

Lemma db_insert_statements check vs :
  preserves statements_only (db_insert name get set check vs).
Proof.
  intros w. unfold db_insert, bind, emit, get_db. simpl.
  destruct vs as [mks|]; [|split; [done|]; exists [EvInsert name]; done].
  match goal with |- context [if ?c then _ else _] => destruct c end;
    simpl; (split; [done|]); exists [EvInsert name]; done.
Qed.

Lemma db_update_statements check P f :
  preserves statements_only (db_update name get set check P f).
Proof.
  intros w. unfold db_update, bind, emit, get_db. simpl.
  destruct f as [f|]; [|split; [done|]; exists [EvUpdate name]; done].
  destruct (mapM _ _) as [rows'|];
    [|split; [done|]; exists [EvUpdate name]; done].
  match goal with |- context [if ?c then _ else _] => destruct c end;
    simpl; (split; [done|]); exists [EvUpdate name]; done.
Qed.
End StatementFacts.

(** ** What a computation returns *)

Lemma returns_ret {A} (P : A -> Prop) a : P a -> returns P (ret a).
Proof. intros H w. exact H. Qed.

Lemma returns_throw {A} (P : A -> Prop) e : returns P (throw e).
Proof. intros w. exact I. Qed.

Lemma returns_bind {A B} (P : B -> Prop) (m : M A) (k : A -> M B) :
  (forall a, returns P (k a)) -> returns P (bind m k).
Proof.
  intros Hk w. unfold bind. destruct (m w) as [[a|e] w1]; [apply Hk | exact I].
Qed.

(** ** Heap facts *)

Lemma obj_delete_run l k o w :
  w_heap w !! l = Some o ->
  obj_delete l k w
  = (Ok tt, {| w_heap := <[l := delete k o]> (w_heap w); w_db := w_db w;
               w_log := w_log w ++ [EvObjDelete l k] |}).
Proof. intros H. unfold obj_delete. rewrite H. reflexivity. Qed.

Lemma obj_read_statements l : preserves statements_only (obj_read l).
Proof. intros w. unfold obj_read. destruct (w_heap w !! l); reflexivity. Qed.

Lemma bind_run {A B} (m : M A) (k : A -> M B) w a w1 :
  m w = (Ok a, w1) -> bind m k w = k a w1.
Proof. intros H. unfold bind. rewrite H. reflexivity. Qed.

Section Claims.
Context `{rt : Runtime}.
Variable cfg : env.

(** C8: a login that fails because no user has the email and a login that
    fails because the password does not match the stored hash fail with the
    same value, [Error "Invalid credentials"]. *)
Theorem login_failure_indistinguishable
    (now1 now2 : Z) (email password : string) (w1 w2 : world) (u : user) :
  List.find (fun u => String.eqb (u_email u) email) (rows (users (w_db w1))) = None ->
  List.find (fun u => String.eqb (u_email u) email) (rows (users (w_db w2))) = Some u ->
  bcrypt_compare password (u_password u) = false ->
  (login cfg now1 email password w1).1 = Throw (Error "Invalid credentials") /\
  (login cfg now2 email password w2).1 = (login cfg now1 email password w1).1.
Proof.
  intros Hnone Hsome Hbad.
  assert (H1 : (login cfg now1 email password w1).1
               = Throw (Error "Invalid credentials")).
  { unfold login. rewrite (bind_run _ _ _ _ _ (db_select_limit1_run _ _ _ _)).
    rewrite first_limit1. simpl. rewrite Hnone. reflexivity. }
  split; [exact H1|]. rewrite H1.
  unfold login. rewrite (bind_run _ _ _ _ _ (db_select_limit1_run _ _ _ _)).
  rewrite first_limit1. simpl. rewrite Hsome, Hbad. reflexivity.
Qed.

(** C9: the stored row carries the password hash, and the user projection
    returned by [register], [login], [getUserById] and [updateProfile]
    has no [password] property. *)
Theorem user_projections_omit_password
    (now : Z) (salt tok : string) (data : userData) (email password : string)
    (uid : Z) (updates : positive) (w : world) :
  (forall u, user_obj u !! "password" = Some (JStr (u_password u))
             /\ without_password (user_obj u) !! "password" = None)
  /\ match (register cfg now salt tok data w).1 with
     | Ok r => reg_user r !! "password" = None
     | Throw _ => True
     end
  /\ match (login cfg now email password w).1 with
     | Ok r => login_user r !! "password" = None
     | Throw _ => True
     end
  /\ match (getUserById uid w).1 with
     | Ok user => user !! "password" = None
     | Throw _ => True
     end
  /\ match (updateProfile now uid updates w).1 with
     | Ok user => user !! "password" = None
     | Throw _ => True
     end.
Proof.
  assert (Hdel : forall o : jsobj, without_password o !! "password" = None)
    by (intros o; apply lookup_delete_eq).
  split; [intros u; split; [reflexivity | apply Hdel]|].
  split; [|split; [|split]].
  - apply (returns_bind (fun r => reg_user r !! "password" = None)).
    intros lc. destruct (negb (allowed lc)); [apply returns_throw|].
    apply returns_bind. intros e1.
    destruct (0 <? length e1)%nat; [apply returns_throw|].
    apply returns_bind. intros e2.
    destruct (0 <? length e2)%nat; [apply returns_throw|].
    repeat (apply returns_bind; intros ?).
    apply returns_ret. apply Hdel.
  - apply (returns_bind (fun r => login_user r !! "password" = None)).
    intros found. destruct (first found); [|apply returns_throw].
    cbv zeta.
    match goal with |- returns _ (if ?b then _ else _) => destruct b end;
      [apply returns_throw|].
    apply returns_bind. intros t. apply returns_ret. apply Hdel.
  - apply (returns_bind (fun user : jsobj => user !! "password" = None)).
    intros found. destruct (first found); [|apply returns_throw].
    apply returns_ret. apply Hdel.
  - apply (returns_bind (fun user : jsobj => user !! "password" = None)).
    intros ?. repeat (apply returns_bind; intros ?).
    apply returns_ret. apply Hdel.
Qed.

(** C10: [updateProfile] deletes [email] and [password] from the caller's
    own object, before any statement reaches the store, whether the call
    then returns or throws. *)
Theorem updateProfile_mutates_callers_patch
    (now uid : Z) (updates : positive) (patch : jsobj) (w : world) :
  w_heap w !! updates = Some patch ->
  let w' := (updateProfile now uid updates w).2 in
  w_heap w' = <[updates := delete "password" (delete "email" patch)]> (w_heap w)
  /\ (exists o, w_heap w' !! updates = Some o
                /\ o !! "email" = None /\ o !! "password" = None)
  /\ (exists rest,
        w_log w' = w_log w ++ [EvObjDelete updates "email";
                               EvObjDelete updates "password"] ++ rest
        /\ forallb is_statement rest = true).
Proof.
  intros Hpatch w'. subst w'. unfold updateProfile.
  rewrite (bind_run _ _ _ _ _ (obj_delete_run _ "email" _ _ Hpatch)).
  erewrite bind_run; [|apply obj_delete_run; simpl; apply lookup_insert_eq].
  simpl. rewrite insert_insert_eq.
  match goal with
  | |- context [bind (obj_read updates) ?k ?w2] =>
      assert (Hrest : statements_only w2 (bind (obj_read updates) k w2).2)
  end.
  { apply preserves_bind; [apply _ | apply obj_read_statements | intros o].
    apply preserves_bind; [apply _ | | intros _].
    - destruct (truthy _); [|apply preserves_ret; apply _].
      apply preserves_bind; [apply _ | apply preserves_lift_opt; apply _ | intros name].
      apply preserves_bind;
        [apply _ | apply db_select_limit1_statements | intros found].
      destruct (first found) as [existing|]; [|apply preserves_ret; apply _].
      match goal with |- preserves _ (if ?b then _ else _) => destruct b end;
        [apply preserves_throw | apply preserves_ret]; apply _.
    - apply preserves_bind; [apply _ | apply db_update_statements | intros upd].
      apply preserves_bind; [apply _ | apply preserves_lift_opt; apply _ | intros x].
      apply preserves_ret; apply _. }
  destruct Hrest as [Hheap (rest & Hlog & Hst)]. simpl in Hheap, Hlog.
  split; [exact Hheap|]. split.
  - eexists. rewrite Hheap. split; [apply lookup_insert_eq|].
    split; [|apply lookup_delete_eq].
    rewrite lookup_delete_ne by done. apply lookup_delete_eq.
  - exists rest. split; [|exact Hst]. rewrite Hlog, <- !app_assoc. reflexivity.
Qed.

(** C6 (the code departs from it): on a user id with no row,
    [updateProfile] raises the TypeError of destructuring [undefined], where
    [getUserById] on the same id raises [Error "User not found"]. *)
Theorem updateProfile_missing_user_TypeError :
  (updateProfile 20000 42 1 (Demo.world_with ∅ 5)).1 = Throw TypeError
  /\ (getUserById 42 (Demo.world_with ∅ 5)).1 = Throw (Error "User not found").
Proof. split; vm_compute; reflexivity. Qed.
End Claims.

(** ** Single-use tokens *)

Lemma unique_inj {R A} (f : R -> A) (l : list R) x y :
  NoDup (f <$> l) -> x ∈ l -> y ∈ l -> f x = f y -> x = y.
Proof.
  induction l as [|a l IH]; intros Hnd Hx Hy Hf.
  - inversion Hx.
  - rewrite fmap_cons in Hnd. apply NoDup_cons in Hnd as [Hnotin Hnd].
    apply elem_of_cons in Hx as [->|Hx]; apply elem_of_cons in Hy as [->|Hy].
    + reflexivity.
    + exfalso. apply Hnotin. rewrite Hf. apply list_elem_of_fmap. eauto.
    + exfalso. apply Hnotin. rewrite <- Hf. apply list_elem_of_fmap. eauto.
    + apply IH; assumption.
Qed.

Lemma find_unique {R A} (f : R -> A) (P : R -> bool) (l : list R) r :
  NoDup (f <$> l) -> r ∈ l -> P r = true ->
  (forall x, P x = true -> f x = f r) ->
  List.find P l = Some r.
Proof.
  intros Hnd Hr HP Hsame.
  induction l as [|a l IH]; [inversion Hr|].
  simpl. destruct (P a) eqn:Ha.
  - f_equal. eapply unique_inj; eauto. apply elem_of_cons. left. reflexivity.
  - rewrite fmap_cons in Hnd. apply NoDup_cons in Hnd as [_ Hnd].
    apply elem_of_cons in Hr as [->|Hr]; [congruence|]. apply IH; assumption.
Qed.

Lemma find_none {R} (P : R -> bool) (l : list R) :
  (forall x, x ∈ l -> P x = false) -> List.find P l = None.
Proof.
  induction l as [|a l IH]; intros H; [reflexivity|]. simpl.
  rewrite (H a) by (apply elem_of_cons; left; reflexivity).
  apply IH. intros x Hx. apply H. apply elem_of_cons. right. exact Hx.
Qed.

Lemma live_token_spec now tok t :
  live_token now tok t = true
  <-> tk_token t = tok /\ tk_used t = false /\ now < tk_expiresAt t.
Proof.
  unfold live_token. rewrite !andb_true_iff, negb_true_iff, Z.ltb_lt.
  rewrite String.eqb_eq. tauto.
Qed.

(** Once its row is marked used, a token string selects nothing. *)
Lemma consumed_not_live now now' tok (t : table token) r :
  unique_on tk_token t = true -> r ∈ rows t -> live_token now tok r = true ->
  List.find (live_token now' tok)
    (rows (update_where (fun x => tk_id x =? tk_id r) with_used t)) = None.
Proof.
  intros Hu Hr Hlive. apply bool_decide_eq_true in Hu.
  apply live_token_spec in Hlive as (Htok & _ & _).
  apply find_none. intros x' Hx'. simpl in Hx'.
  apply list_elem_of_fmap in Hx' as (x & -> & Hx).
  destruct (live_token now' tok (if tk_id x =? tk_id r then with_used x else x))
    eqn:Hl; [|reflexivity].
  apply live_token_spec in Hl as (Ht & Hused & _).
  assert (x = r) as ->.
  { eapply unique_inj; eauto. destruct (tk_id x =? tk_id r); simpl in Ht; congruence. }
  rewrite Z.eqb_refl in Hused. discriminate.
Qed.

Section TokenClaims.
Context `{rt : Runtime}.

#[local] Arguments update_where : simpl never.

Lemma find_live_unique now tok (t : table token) r :
  unique_on tk_token t = true -> r ∈ rows t -> live_token now tok r = true ->
  List.find (live_token now tok) (rows t) = Some r.
Proof.
  intros Hu Hr Hlive. apply bool_decide_eq_true in Hu.
  eapply (find_unique tk_token); eauto.
  intros x Hx. apply live_token_spec in Hx, Hlive.
  destruct Hx, Hlive. congruence.
Qed.

Lemma resetPassword_live_run now salt tok newPassword w r :
  List.find (live_token now tok) (rows (passwordResetTokens (w_db w))) = Some r ->
  resetPassword now salt tok newPassword w
  = (Ok (success "Password reset successful"),
     {| w_heap := w_heap w;
        w_db :=
          set_passwordResetTokens
            (update_where (fun t => tk_id t =? tk_id r) with_used
               (passwordResetTokens (w_db w)))
            (set_users
               (update_where (fun u => u_id u =? tk_userId r)
                  (with_password (bcrypt_hash salt newPassword) now)
                  (users (w_db w)))
               (w_db w));
        w_log := w_log w ++ [EvSelect PasswordResetTokens; EvUpdate Users;
                             EvUpdate PasswordResetTokens] |}).
Proof.
  intros Hfind. unfold resetPassword.
  rewrite (bind_run _ _ _ _ _ (db_select_limit1_run _ _ _ _)).
  rewrite first_limit1. simpl. rewrite Hfind.
  rewrite (bind_run _ _ _ _ _ (db_update_total_run _ _ _ _ _ _)).
  rewrite (bind_run _ _ _ _ _ (db_update_total_run _ _ _ _ _ _)).
  unfold ret, stored, logged. simpl. rewrite <- !app_assoc. reflexivity.
Qed.

Lemma resetPassword_dead_run now salt tok newPassword w :
  List.find (live_token now tok) (rows (passwordResetTokens (w_db w))) = None ->
  resetPassword now salt tok newPassword w
  = (Throw (Error "Invalid or expired reset token"),
     logged (EvSelect PasswordResetTokens) w).
Proof.
  intros Hfind. unfold resetPassword.
  rewrite (bind_run _ _ _ _ _ (db_select_limit1_run _ _ _ _)).
  rewrite first_limit1. simpl. rewrite Hfind. reflexivity.
Qed.

Lemma verifyEmail_live_run now tok w r :
  List.find (live_token now tok) (rows (emailVerificationTokens (w_db w))) = Some r ->
  verifyEmail now tok w
  = (Ok (success "Email verified successfully"),
     {| w_heap := w_heap w;
        w_db :=
          set_emailVerificationTokens
            (update_where (fun t => tk_id t =? tk_id r) with_used
               (emailVerificationTokens (w_db w)))
            (set_users
               (update_where (fun u => u_id u =? tk_userId r)
                  (with_isVerified now) (users (w_db w)))
               (w_db w));
        w_log := w_log w ++ [EvSelect EmailVerificationTokens; EvUpdate Users;
                             EvUpdate EmailVerificationTokens] |}).
Proof.
  intros Hfind. unfold verifyEmail.
  rewrite (bind_run _ _ _ _ _ (db_select_limit1_run _ _ _ _)).
  rewrite first_limit1. simpl. rewrite Hfind.
  rewrite (bind_run _ _ _ _ _ (db_update_total_run _ _ _ _ _ _)).
  rewrite (bind_run _ _ _ _ _ (db_update_total_run _ _ _ _ _ _)).
  unfold ret, stored, logged. simpl. rewrite <- !app_assoc. reflexivity.
Qed.

Lemma verifyEmail_dead_run now tok w :
  List.find (live_token now tok) (rows (emailVerificationTokens (w_db w))) = None ->
  verifyEmail now tok w
  = (Throw (Error "Invalid or expired verification token"),
     logged (EvSelect EmailVerificationTokens) w).
Proof.
  intros Hfind. unfold verifyEmail.
  rewrite (bind_run _ _ _ _ _ (db_select_limit1_run _ _ _ _)).
  rewrite first_limit1. simpl. rewrite Hfind. reflexivity.
Qed.


(** C5, as the code has it: consuming a live token twice in a row, the first
    call returns the success object (which names no user) and the second
    throws the invalid-or-expired error and leaves heap and store as they
    were; for [verifyEmail] and for [resetPassword]. *)
Theorem consume_twice_second_fails
    (now1 now2 : Z) (salt1 salt2 pw1 pw2 tok : string) (w : world) :
  (unique_on tk_token (emailVerificationTokens (w_db w)) = true ->
   forall r, r ∈ rows (emailVerificationTokens (w_db w)) ->
     live_token now1 tok r = true ->
     let '(o1, w1) := verifyEmail now1 tok w in
     let '(o2, w2) := verifyEmail now2 tok w1 in
     o1 = Ok (success "Email verified successfully")
     /\ o2 = Throw (Error "Invalid or expired verification token")
     /\ w_db w2 = w_db w1 /\ w_heap w2 = w_heap w1)
  /\ (unique_on tk_token (passwordResetTokens (w_db w)) = true ->
      forall r, r ∈ rows (passwordResetTokens (w_db w)) ->
        live_token now1 tok r = true ->
        let '(o1, w1) := resetPassword now1 salt1 tok pw1 w in
        let '(o2, w2) := resetPassword now2 salt2 tok pw2 w1 in
        o1 = Ok (success "Password reset successful")
        /\ o2 = Throw (Error "Invalid or expired reset token")
        /\ w_db w2 = w_db w1 /\ w_heap w2 = w_heap w1).
Proof.
  split; intros Hu r Hr Hlive.
  - rewrite (verifyEmail_live_run _ _ _ r)
      by (apply find_live_unique; assumption).
    rewrite verifyEmail_dead_run
      by (simpl; eapply consumed_not_live; eassumption).
    auto.
  - rewrite (resetPassword_live_run _ _ _ _ _ r)
      by (apply find_live_unique; assumption).
    rewrite resetPassword_dead_run
      by (simpl; eapply consumed_not_live; eassumption).
    auto.
Qed.
End TokenClaims.

(** ** Two requests carrying the same token *)

Section RaceClaims.
Context `{rt : Runtime}.

#[local] Arguments update_where : simpl never.

Lemma step_returned c r w : step c (Returned r) w = (Returned r, w).
Proof. destruct c; reflexivity. Qed.

Lemma run_alone_returned n c r w :
  run_alone n c (Returned r) w = (Returned r, w).
Proof.
  induction n as [|n IH]; [reflexivity|]. simpl.
  rewrite step_returned. exact IH.
Qed.

Lemma run_alone_add n m c p w :
  run_alone (n + m) c p w
  = let '(p', w') := run_alone n c p w in run_alone m c p' w'.
Proof.
  revert p w. induction n as [|n IH]; intros p w; [reflexivity|]. simpl.
  destruct (step c p w) as [p' w']. apply IH.
Qed.

Lemma interleave_first_alone n rest c1 c2 p1 p2 w :
  interleave (replicate n true ++ rest) c1 c2 p1 p2 w
  = let '(p1', w') := run_alone n c1 p1 w in interleave rest c1 c2 p1' p2 w'.
Proof.
  revert p1 w. induction n as [|n IH]; intros p1 w; [reflexivity|]. simpl.
  destruct (step c1 p1 w) as [p1' w']. apply IH.
Qed.

Lemma interleave_second_alone n c1 c2 p1 p2 w :
  interleave (replicate n false) c1 c2 p1 p2 w
  = let '(p2', w') := run_alone n c2 p2 w in (p1, p2', w').
Proof.
  revert p2 w. induction n as [|n IH]; intros p2 w; [reflexivity|]. simpl.
  destruct (step c2 p2 w) as [p2' w']. apply IH.
Qed.

Lemma step_reset_called_live now salt tok pw w r :
  List.find (live_token now tok) (rows (passwordResetTokens (w_db w))) = Some r ->
  step (ResetPassword now salt tok pw) Called w
  = (Found r, logged (EvSelect PasswordResetTokens) w).
Proof.
  intros H. simpl. unfold settle.
  rewrite (bind_run _ _ _ _ _ (db_select_limit1_run _ _ _ _)).
  rewrite first_limit1. simpl. rewrite H. reflexivity.
Qed.

Lemma step_reset_called_dead now salt tok pw w :
  List.find (live_token now tok) (rows (passwordResetTokens (w_db w))) = None ->
  step (ResetPassword now salt tok pw) Called w
  = (Returned (Throw (Error "Invalid or expired reset token")),
     logged (EvSelect PasswordResetTokens) w).
Proof.
  intros H. simpl. unfold settle.
  rewrite (bind_run _ _ _ _ _ (db_select_limit1_run _ _ _ _)).
  rewrite first_limit1. simpl. rewrite H. reflexivity.
Qed.

Lemma step_reset_found now salt tok pw w r :
  step (ResetPassword now salt tok pw) (Found r) w
  = (Hashed r (bcrypt_hash salt pw), w).
Proof. reflexivity. Qed.

Lemma step_reset_hashed now salt tok pw w r h :
  step (ResetPassword now salt tok pw) (Hashed r h) w
  = (UserUpdated r,
     stored (set_users (update_where (fun u => u_id u =? tk_userId r)
                          (with_password h now) (users (w_db w))) (w_db w))
       (logged (EvUpdate Users) w)).
Proof.
  simpl. unfold settle.
  rewrite (bind_run _ _ _ _ _ (db_update_total_run _ _ _ _ _ _)). reflexivity.
Qed.

Lemma step_reset_updated now salt tok pw w r :
  step (ResetPassword now salt tok pw) (UserUpdated r) w
  = (Returned (Ok (success "Password reset successful")),
     stored (set_passwordResetTokens
               (update_where (fun t => tk_id t =? tk_id r) with_used
                  (passwordResetTokens (w_db w))) (w_db w))
       (logged (EvUpdate PasswordResetTokens) w)).
Proof.
  simpl. unfold settle.
  rewrite (bind_run _ _ _ _ _ (db_update_total_run _ _ _ _ _ _)). reflexivity.
Qed.

Lemma step_verify_called_live now tok w r :
  List.find (live_token now tok) (rows (emailVerificationTokens (w_db w))) = Some r ->
  step (VerifyEmail now tok) Called w
  = (Found r, logged (EvSelect EmailVerificationTokens) w).
Proof.
  intros H. simpl. unfold settle.
  rewrite (bind_run _ _ _ _ _ (db_select_limit1_run _ _ _ _)).
  rewrite first_limit1. simpl. rewrite H. reflexivity.
Qed.

Lemma step_verify_called_dead now tok w :
  List.find (live_token now tok) (rows (emailVerificationTokens (w_db w))) = None ->
  step (VerifyEmail now tok) Called w
  = (Returned (Throw (Error "Invalid or expired verification token")),
     logged (EvSelect EmailVerificationTokens) w).
Proof.
  intros H. simpl. unfold settle.
  rewrite (bind_run _ _ _ _ _ (db_select_limit1_run _ _ _ _)).
  rewrite first_limit1. simpl. rewrite H. reflexivity.
Qed.

Lemma step_verify_found now tok w r :
  step (VerifyEmail now tok) (Found r) w
  = (UserUpdated r,
     stored (set_users (update_where (fun u => u_id u =? tk_userId r)
                          (with_isVerified now) (users (w_db w))) (w_db w))
       (logged (EvUpdate Users) w)).
Proof.
  simpl. unfold settle.
  rewrite (bind_run _ _ _ _ _ (db_update_total_run _ _ _ _ _ _)). reflexivity.
Qed.

Lemma step_verify_updated now tok w r :
  step (VerifyEmail now tok) (UserUpdated r) w
  = (Returned (Ok (success "Email verified successfully")),
     stored (set_emailVerificationTokens
               (update_where (fun t => tk_id t =? tk_id r) with_used
                  (emailVerificationTokens (w_db w))) (w_db w))
       (logged (EvUpdate EmailVerificationTokens) w)).
Proof.
  simpl. unfold settle.
  rewrite (bind_run _ _ _ _ _ (db_update_total_run _ _ _ _ _ _)). reflexivity.
Qed.

(** The machine run alone is the method. *)
Lemma run_alone_resetPassword now salt tok pw w :
  run_alone 4 (ResetPassword now salt tok pw) Called w
  = (Returned (resetPassword now salt tok pw w).1,
     (resetPassword now salt tok pw w).2).
Proof.
  destruct (List.find (live_token now tok)
              (rows (passwordResetTokens (w_db w)))) as [r|] eqn:Hfind.
  - rewrite (resetPassword_live_run _ _ _ _ _ r Hfind).
    cbn [run_alone]. rewrite (step_reset_called_live _ _ _ _ _ r Hfind).
    rewrite step_reset_found, step_reset_hashed, step_reset_updated.
    unfold stored, logged. simpl. rewrite <- !app_assoc. reflexivity.
  - rewrite (resetPassword_dead_run _ _ _ _ _ Hfind).
    cbn [run_alone]. rewrite (step_reset_called_dead _ _ _ _ _ Hfind).
    rewrite !step_returned. reflexivity.
Qed.

Lemma run_alone_verifyEmail now tok w :
  run_alone 3 (VerifyEmail now tok) Called w
  = (Returned (verifyEmail now tok w).1, (verifyEmail now tok w).2).
Proof.
  destruct (List.find (live_token now tok)
              (rows (emailVerificationTokens (w_db w)))) as [r|] eqn:Hfind.
  - rewrite (verifyEmail_live_run _ _ _ r Hfind).
    cbn [run_alone]. rewrite (step_verify_called_live _ _ _ r Hfind).
    rewrite step_verify_found, step_verify_updated.
    unfold stored, logged. simpl. rewrite <- !app_assoc. reflexivity.
  - rewrite (verifyEmail_dead_run _ _ _ Hfind).
    cbn [run_alone]. rewrite (step_verify_called_dead _ _ _ Hfind).
    rewrite !step_returned. reflexivity.
Qed.
(** C2, as the code has it: of two calls of the same method with the same
    live token, the second fails when it starts after the first has
    returned; but the update that marks the token used is keyed by the row
    id alone, so when both calls select before either writes, both
    succeed. *)
Theorem same_token_twice_safe_in_sequence_not_interleaved
    (c1 c2 : consumer) (w : world) (r : token) (n m : nat) :
  same_method c1 c2 = true ->
  consumer_token c2 = consumer_token c1 ->
  unique_on tk_token (consumed_table c1 (w_db w)) = true ->
  r ∈ rows (consumed_table c1 (w_db w)) ->
  live_token (consumer_now c1) (consumer_token c1) r = true ->
  live_token (consumer_now c2) (consumer_token c1) r = true ->
  (let '(p1, p2, _) :=
     interleave (replicate (4 + n) true ++ replicate m false)
       c1 c2 Called Called w in
   succeeded p1 = true /\ succeeded p2 = false)
  /\ (let '(p1, p2, _) := interleave both_select_first c1 c2 Called Called w in
      succeeded p1 = true /\ succeeded p2 = true).
Proof.
  intros Hsame Htok Hu Hr Hlive1 Hlive2.
  destruct c1 as [now1 salt1 tok pw1 | now1 tok],
           c2 as [now2 salt2 tok2 pw2 | now2 tok2];
    try discriminate Hsame; simpl in Htok, Hu, Hr, Hlive1, Hlive2; subst tok2.
  - pose proof (find_live_unique _ _ _ _ Hu Hr Hlive1) as Hf1.
    pose proof (find_live_unique _ _ _ _ Hu Hr Hlive2) as Hf2.
    split.
    + rewrite interleave_first_alone, run_alone_add, run_alone_resetPassword.
      rewrite (resetPassword_live_run _ _ _ _ _ r Hf1). cbn [fst snd].
      rewrite run_alone_returned, interleave_second_alone.
      destruct m as [|m]; [done|]. cbn [run_alone].
      rewrite step_reset_called_dead
        by (simpl; eapply consumed_not_live; eassumption).
      rewrite run_alone_returned. done.
    + unfold both_select_first. cbn [interleave].
      rewrite (step_reset_called_live _ _ _ _ _ r Hf1).
      rewrite (step_reset_called_live _ _ _ _ _ r) by exact Hf2.
      rewrite !step_reset_found, !step_reset_hashed, !step_reset_updated.
      rewrite step_reset_found, step_reset_hashed, step_reset_updated.
      done.
  - pose proof (find_live_unique _ _ _ _ Hu Hr Hlive1) as Hf1.
    pose proof (find_live_unique _ _ _ _ Hu Hr Hlive2) as Hf2.
    split.
    + replace (4 + n)%nat with (3 + (1 + n))%nat by lia.
      rewrite interleave_first_alone, run_alone_add, run_alone_verifyEmail.
      rewrite (verifyEmail_live_run _ _ _ r Hf1). cbn [fst snd].
      rewrite run_alone_returned, interleave_second_alone.
      destruct m as [|m]; [done|]. cbn [run_alone].
      rewrite step_verify_called_dead
        by (simpl; eapply consumed_not_live; eassumption).
      rewrite run_alone_returned. done.
    + unfold both_select_first. cbn [interleave].
      rewrite (step_verify_called_live _ _ _ r Hf1).
      rewrite (step_verify_called_live _ _ _ r) by exact Hf2.
      rewrite !step_verify_found, !step_verify_updated, !step_returned.
      rewrite step_verify_found, step_verify_updated, step_returned.
      done.
Qed.
End RaceClaims.

(** ** The daily signup counter *)

Lemma find_fmap_stable {R} (P : R -> bool) (g : R -> R) (l : list R) :
  (forall x, P (g x) = P x) -> List.find P (g <$> l) = g <$> List.find P l.
Proof.
  intros Hg. induction l as [|a l IH]; [reflexivity|].
  rewrite fmap_cons. simpl. rewrite Hg. destruct (P a); [reflexivity | exact IH].
Qed.

Lemma find_none_elem {R} (P : R -> bool) (l : list R) x :
  List.find P l = None -> x ∈ l -> P x = false.
Proof.
  intros H Hx. apply (List.find_none P l H). apply list_elem_of_In. exact Hx.
Qed.

Lemma NoDup_snoc_fresh (l : list Z) (n : Z) :
  NoDup l -> (forall x, x ∈ l -> x < n) -> NoDup (l ++ [n]).
Proof.
  intros Hnd Hlt. apply NoDup_app. split; [exact Hnd|]. split.
  - intros x Hx Hn. apply list_elem_of_singleton in Hn. subst.
    specialize (Hlt _ Hx). lia.
  - apply NoDup_singleton.
Qed.

Section SignupClaims.
Context `{rt : Runtime}.
Variable cfg : env.

Lemma signups_on_unfold now s :
  signups_on now s
  = match List.find (todays now) (rows (dailySignups s)) with
    | Some r => ds_count r
    | None => 0
    end.
Proof. reflexivity. Qed.

(** Appending today's first row to a consistent counter table. *)
Lemma first_row_of_the_day now (s : store) (c : Z) :
  dailySignups_wf s = true ->
  List.find (todays now) (rows (dailySignups s)) = None ->
  let s' := set_dailySignups
              (insert_into (dailySignups s)
                 [fun id => {| ds_id := id; ds_date := toISODate now;
                               ds_count := c; ds_createdAt := now |}]) s in
  dailySignups_ok s' = true /\ dailySignups_wf s' = true
  /\ signups_on now s' = c.
Proof.
  intros Hwf Hnone s'.
  unfold dailySignups_wf, dailySignups_ok, unique_on, fresh_serial in Hwf.
  rewrite !andb_true_iff, !bool_decide_eq_true, forallb_forall in Hwf.
  destruct Hwf as [[Hids Hdates] Hfresh].
  assert (Hok : dailySignups_ok s' = true).
  { unfold dailySignups_ok, unique_on. subst s'. unfold insert_into. simpl.
    rewrite andb_true_iff, !bool_decide_eq_true, !fmap_app. simpl. split.
    - apply NoDup_snoc_fresh; [exact Hids|].
      intros x Hx. apply list_elem_of_fmap in Hx as (r & -> & Hr).
      apply list_elem_of_In in Hr. specialize (Hfresh _ Hr). lia.
    - apply NoDup_app. split; [exact Hdates|]. split; [|apply NoDup_singleton].
      intros d Hd Hd'. apply list_elem_of_singleton in Hd'. subst d.
      apply list_elem_of_fmap in Hd as (r & Hr & Hin).
      pose proof (find_none_elem _ _ _ Hnone Hin) as Hf.
      unfold todays in Hf. rewrite <- Hr, String.eqb_refl in Hf. discriminate. }
  split; [exact Hok|]. split.
  - unfold dailySignups_wf. rewrite Hok. simpl.
    unfold fresh_serial. subst s'. unfold insert_into. simpl. rewrite forallb_app. simpl.
    rewrite andb_true_iff. split.
    + apply forallb_forall. intros x Hx. specialize (Hfresh _ Hx).
      apply Z.ltb_lt. apply Z.ltb_lt in Hfresh. lia.
    + rewrite andb_true_r. apply Z.ltb_lt. lia.
  - rewrite signups_on_unfold. subst s'. unfold insert_into. simpl.
    rewrite (find_app_none _ _ _ Hnone). simpl.
    unfold todays at 1. simpl. rewrite String.eqb_refl. reflexivity.
Qed.

Lemma checkDailySignupLimit_found now w r :
  List.find (todays now) (rows (dailySignups (w_db w))) = Some r ->
  checkDailySignupLimit cfg now w
  = (Ok (let limit := parseInt (env_or (DAILY_SIGNUP_LIMIT cfg) "300") in
         if js_ge (ds_count r) limit then
           {| allowed := false; count := ds_count r; limit := limit;
              message :=
                Some "Daily signup limit reached. Please try again tomorrow." |}
         else
           {| allowed := true; count := ds_count r; limit := limit;
              message := None |}),
     logged (EvSelect DailySignups) w).
Proof.
  intros Hfind. unfold checkDailySignupLimit, catch.
  rewrite (bind_run _ _ _ _ _ (db_select_limit1_run _ _ _ _)).
  rewrite first_limit1. simpl. fold (todays now). rewrite Hfind.
  destruct (js_ge _ _); reflexivity.
Qed.

Lemma checkDailySignupLimit_fresh_day now w :
  List.find (todays now) (rows (dailySignups (w_db w))) = None ->
  exists w1,
    checkDailySignupLimit cfg now w
    = (Ok {| allowed := true; count := 0;
             limit := parseInt (env_or (DAILY_SIGNUP_LIMIT cfg) "300");
             message := None |}, w1)
    /\ w_heap w1 = w_heap w
    /\ (w_db w1 = w_db w
        \/ dailySignups_ok (w_db w1) = true /\
           w_db w1 = set_dailySignups
                      (insert_into (dailySignups (w_db w))
                         [fun id => {| ds_id := id; ds_date := toISODate now;
                                       ds_count := 0; ds_createdAt := now |}])
                      (w_db w)).
Proof.
  intros Hfind. unfold checkDailySignupLimit, catch.
  rewrite (bind_run _ _ _ _ _ (db_select_limit1_run _ _ _ _)).
  rewrite first_limit1. simpl. fold (todays now). rewrite Hfind.
  unfold bind at 1. rewrite db_insert_run. cbv zeta.
  match goal with |- context [if ?c then _ else _] => destruct c eqn:Hok end;
    eexists; (split; [reflexivity|]); (split; [reflexivity|]).
  - right. split; [exact Hok | reflexivity].
  - left. reflexivity.
Qed.

(** The check never throws, and leaves the day's count and the consistency
    of the counter table as they were. *)
Lemma checkDailySignupLimit_keeps_count now w :
  exists lc w1,
    checkDailySignupLimit cfg now w = (Ok lc, w1)
    /\ signups_on now (w_db w1) = signups_on now (w_db w)
    /\ (dailySignups_wf (w_db w) = true -> dailySignups_wf (w_db w1) = true).
Proof.
  destruct (List.find (todays now) (rows (dailySignups (w_db w))))
    as [r|] eqn:Hfind.
  - eexists _, _. split; [apply (checkDailySignupLimit_found _ _ r Hfind)|].
    split; [reflexivity | auto].
  - destruct (checkDailySignupLimit_fresh_day now w Hfind)
      as (w1 & Hrun & _ & [Hsame | [Hok Hnew]]).
    + eexists _, _. split; [exact Hrun|]. rewrite Hsame. auto.
    + eexists _, _. split; [exact Hrun|]. rewrite Hnew.
      split.
      * rewrite (signups_on_unfold now (w_db w)), Hfind.
        rewrite signups_on_unfold. unfold insert_into. simpl.
        rewrite (find_app_none _ _ _ Hfind). simpl.
        unfold todays at 1. simpl. rewrite String.eqb_refl. reflexivity.
      * intros Hwf. apply (first_row_of_the_day now (w_db w) 0 Hwf Hfind).
Qed.

Lemma incrementSignupCount_adds_one now w :
  dailySignups_wf (w_db w) = true ->
  exists w1,
    incrementSignupCount now w = (Ok tt, w1)
    /\ signups_on now (w_db w1) = signups_on now (w_db w) + 1
    /\ dailySignups_wf (w_db w1) = true.
Proof.
  intros Hwf. unfold incrementSignupCount, catch.
  rewrite (bind_run _ _ _ _ _ (db_select_limit1_run _ _ _ _)).
  rewrite first_limit1. simpl. fold (todays now).
  destruct (List.find (todays now) (rows (dailySignups (w_db w))))
    as [r|] eqn:Hfind.
  - rewrite (bind_run _ _ _ _ _ (db_update_total_run _ _ _ _ _ _)).
    eexists. split; [reflexivity|]. simpl. split.
    + rewrite !signups_on_unfold. simpl.
      rewrite find_fmap_stable
        by (intros x; destruct (ds_id x =? ds_id r); reflexivity).
      rewrite Hfind. simpl. rewrite Z.eqb_refl. reflexivity.
    + revert Hwf. unfold dailySignups_wf, dailySignups_ok, unique_on, fresh_serial.
      simpl. rewrite !andb_true_iff, !bool_decide_eq_true, !forallb_forall.
      rewrite <- !list_fmap_compose.
      intros [[Hids Hdates] Hfresh]. split; [split|].
      * erewrite list_fmap_ext; [exact Hids|].
        intros i x _. simpl. destruct (ds_id x =? ds_id r); reflexivity.
      * erewrite list_fmap_ext; [exact Hdates|].
        intros i x _. simpl. destruct (ds_id x =? ds_id r); reflexivity.
      * intros x' Hx'. apply list_elem_of_In, list_elem_of_fmap in Hx'
          as (x & -> & Hx). apply list_elem_of_In in Hx.
        specialize (Hfresh _ Hx). destruct (ds_id x =? ds_id r); exact Hfresh.
  - destruct (first_row_of_the_day now (w_db w) 1 Hwf Hfind)
      as (Hok & Hwf' & Hcount).
    unfold bind at 1. rewrite db_insert_run. cbv zeta.
    cbn [w_db logged]. rewrite Hok.
    eexists. split; [reflexivity|]. cbn [w_db stored snd].
    rewrite (signups_on_unfold now (w_db w)), Hfind. auto.
Qed.
Lemma preserves_at (R : relation world) {A} (m : M A) w o w' :
  preserves R m -> m w = (o, w') -> R w w'.
Proof. intros Hp Hm. specialize (Hp w). rewrite Hm in Hp. exact Hp. Qed.

Lemma generateJWT_same_db now uid : preserves same_db (generateJWT cfg now uid).
Proof.
  intros w. unfold generateJWT.
  destruct (JWT_SECRET cfg) as [[|c s]|]; try reflexivity.
  destruct (timespan _); reflexivity.
Qed.

Lemma signups_on_same_table now s s' :
  dailySignups s' = dailySignups s -> signups_on now s' = signups_on now s.
Proof. intros H. rewrite !signups_on_unfold, H. reflexivity. Qed.

Lemma dailySignups_wf_same_table s s' :
  dailySignups s' = dailySignups s -> dailySignups_wf s' = dailySignups_wf s.
Proof.
  intros H. unfold dailySignups_wf, dailySignups_ok. rewrite H. reflexivity.
Qed.

(** A registration that succeeds counts once. *)
Lemma register_counts_once now salt tok data w r w' :
  dailySignups_wf (w_db w) = true ->
  register cfg now salt tok data w = (Ok r, w') ->
  signups_on now (w_db w') = signups_on now (w_db w) + 1
  /\ dailySignups_wf (w_db w') = true.
Proof.
  intros Hwf H. unfold register in H.
  apply bind_ok in H as (lc & w1 & Hcheck & H).
  destruct (checkDailySignupLimit_keeps_count now w) as (lc' & w1' & Hc & Hn1 & Hwf1).
  rewrite Hc in Hcheck. injection Hcheck as -> ->.
  specialize (Hwf1 Hwf).
  destruct (negb (allowed lc)); [discriminate|].
  apply bind_ok in H as (e1 & w2 & Hs1 & H).
  destruct (0 <? length e1)%nat; [discriminate|].
  apply bind_ok in H as (e2 & w3 & Hs2 & H).
  destruct (0 <? length e2)%nat; [discriminate|].
  cbv zeta in H.
  apply bind_ok in H as (ins & w4 & Hins & H).
  apply bind_ok in H as (newUser & w5 & Hlift & H).
  apply bind_ok in H as (ins2 & w6 & Htok & H).
  apply bind_ok in H as (u & w7 & Hinc & H).
  apply bind_ok in H as (jwt & w8 & Hjwt & H).
  injection H as _ <-.
  assert (Hds : dailySignups (w_db w6) = dailySignups (w_db w1)).
  { apply (preserves_at _ _ _ _ _ (db_select_limit1_same_table _ _ dailySignups _)) in Hs1.
    apply (preserves_at _ _ _ _ _ (db_select_limit1_same_table _ _ dailySignups _)) in Hs2.
    apply (preserves_at (same_table dailySignups)) in Hins;
      [|apply db_insert_same_table; reflexivity].
    apply (preserves_at (same_table dailySignups)) in Hlift;
      [|apply preserves_lift_opt; apply _].
    apply (preserves_at (same_table dailySignups)) in Htok;
      [|apply db_insert_same_table; reflexivity].
    unfold same_table in *. congruence. }
  rewrite <- (dailySignups_wf_same_table _ _ Hds) in Hwf1.
  destruct (incrementSignupCount_adds_one now w6 Hwf1) as (w7' & Hi & Hn7 & Hwf7).
  rewrite Hi in Hinc. injection Hinc as _ ->.
  apply (preserves_at _ _ _ _ _ (generateJWT_same_db _ _)) in Hjwt.
  unfold same_db in Hjwt. rewrite Hjwt.
  split; [|exact Hwf7].
  rewrite Hn7, (signups_on_same_table _ _ _ Hds), Hn1. reflexivity.
Qed.

Lemma check_allows_below_limit now w :
  parseInt (env_or (DAILY_SIGNUP_LIMIT cfg) "300") = Some 300 ->
  signups_on now (w_db w) < 300 ->
  exists lc, (checkDailySignupLimit cfg now w).1 = Ok lc /\ allowed lc = true.
Proof.
  intros Hlimit Hlt. rewrite signups_on_unfold in Hlt.
  destruct (List.find (todays now) (rows (dailySignups (w_db w))))
    as [r|] eqn:Hfind.
  - rewrite (checkDailySignupLimit_found now w r Hfind), Hlimit. simpl.
    destruct (300 <=? ds_count r) eqn:Hge; [lia|]. eexists; split; reflexivity.
  - destruct (checkDailySignupLimit_fresh_day now w Hfind) as (w1 & -> & _).
    eexists; split; reflexivity.
Qed.

Lemma check_denies_at_limit now w :
  parseInt (env_or (DAILY_SIGNUP_LIMIT cfg) "300") = Some 300 ->
  300 <= signups_on now (w_db w) ->
  exists lc, (checkDailySignupLimit cfg now w).1 = Ok lc /\ allowed lc = false.
Proof.
  intros Hlimit Hge. rewrite signups_on_unfold in Hge.
  destruct (List.find (todays now) (rows (dailySignups (w_db w))))
    as [r|] eqn:Hfind; [|lia].
  rewrite (checkDailySignupLimit_found now w r Hfind), Hlimit. simpl.
  destruct (300 <=? ds_count r) eqn:Hge'; [|lia]. eexists; split; reflexivity.
Qed.

Lemma signups_on_same_day now now' s :
  toISODate now' = toISODate now -> signups_on now' s = signups_on now s.
Proof.
  intros Hday. rewrite !signups_on_unfold. unfold todays.
  rewrite Hday. reflexivity.
Qed.

(** Registrations of one day that all succeed count once each. *)
Lemma register_all_counts now rs w w' :
  Forall (fun r => toISODate (reg_at r) = toISODate now) rs ->
  dailySignups_wf (w_db w) = true ->
  register_all cfg rs w = Some w' ->
  signups_on now (w_db w') = signups_on now (w_db w) + Z.of_nat (length rs)
  /\ dailySignups_wf (w_db w') = true.
Proof.
  intros Hday. revert w. induction Hday as [|r rs Hr _ IH]; intros w Hwf Hall.
  - injection Hall as <-. split; [simpl; lia | exact Hwf].
  - cbn [register_all] in Hall.
    destruct (register cfg (reg_at r) (reg_salt r) (reg_verification r)
                (reg_data r) w) as [[res|e] w1] eqn:Hrun; [|discriminate].
    destruct (register_counts_once _ _ _ _ _ _ _ Hwf Hrun) as [Hone Hwf1].
    destruct (IH w1 Hwf1 Hall) as [Hrest Hwf'].
    split; [|exact Hwf'].
    rewrite Hrest, <- (signups_on_same_day now (reg_at r) (w_db w1) Hr), Hone.
    rewrite (signups_on_same_day now (reg_at r) (w_db w) Hr).
    cbn [length]. lia.
Qed.

(** C4: with the limit configured as 300, the check allows while the day's
    count is below 300 and denies once it has reached 300; a registration
    that succeeds raises the day's count by exactly one; instants of one
    UTC day share the count; so on a day that starts at zero the check
    after 299 successful registrations (the 300th reservation) allows, and
    after 300 of them (the 301st) denies. *)
Theorem daily_limit_allows_300th_denies_301st (now : Z) (w : world) :
  parseInt (env_or (DAILY_SIGNUP_LIMIT cfg) "300") = Some 300 ->
  dailySignups_wf (w_db w) = true ->
  (signups_on now (w_db w) < 300 ->
   exists lc, (checkDailySignupLimit cfg now w).1 = Ok lc /\ allowed lc = true)
  /\ (300 <= signups_on now (w_db w) ->
      exists lc, (checkDailySignupLimit cfg now w).1 = Ok lc
                 /\ allowed lc = false)
  /\ (forall salt tok data r w',
        register cfg now salt tok data w = (Ok r, w') ->
        signups_on now (w_db w') = signups_on now (w_db w) + 1
        /\ dailySignups_wf (w_db w') = true)
  /\ (forall now', toISODate now' = toISODate now ->
        signups_on now' (w_db w) = signups_on now (w_db w))
  /\ (forall rs w',
        Forall (fun r => toISODate (reg_at r) = toISODate now) rs ->
        signups_on now (w_db w) = 0 ->
        register_all cfg rs w = Some w' ->
        (length rs = 299%nat ->
         exists lc, (checkDailySignupLimit cfg now w').1 = Ok lc
                    /\ allowed lc = true)
        /\ (length rs = 300%nat ->
            exists lc, (checkDailySignupLimit cfg now w').1 = Ok lc
                       /\ allowed lc = false)).
Proof.
  intros Hlimit Hwf. split; [|split; [|split; [|split]]].
  - apply check_allows_below_limit. exact Hlimit.
  - apply check_denies_at_limit. exact Hlimit.
  - intros salt tok data r w' H. eapply register_counts_once; eassumption.
  - intros now' Hday. apply signups_on_same_day. exact Hday.
  - intros rs w' Hday Hzero Hall.
    destruct (register_all_counts now rs w w' Hday Hwf Hall) as [Hcount _].
    rewrite Hzero in Hcount. split; intros Hlen; rewrite Hlen in Hcount.
    + apply check_allows_below_limit; [exact Hlimit | lia].
    + apply check_denies_at_limit; [exact Hlimit | lia].
Qed.
End SignupClaims.

(** ** Register, then log in *)

Ltac frame_table :=
  repeat first
    [ apply preserves_ret; apply _
    | apply preserves_throw; apply _
    | apply preserves_lift_opt; apply _
    | apply db_select_limit1_same_table
    | apply db_select_same_table
    | apply db_insert_same_table; reflexivity
    | apply db_update_same_table; reflexivity
    | apply db_delete_same_table; reflexivity
    | apply preserves_bind; [apply _ | | intros ?]
    | apply preserves_catch; [apply _ | | intros ?]
    | match goal with
      | |- preserves _ (match ?x with _ => _ end) => destruct x
      end ].

Section RegisterClaims.
Context `{laws : RuntimeLaws}.
Variable cfg : env.

Lemma checkDailySignupLimit_same_users now :
  preserves (same_table users) (checkDailySignupLimit cfg now).
Proof. unfold checkDailySignupLimit. frame_table. Qed.

Lemma incrementSignupCount_same_users now :
  preserves (same_table users) (incrementSignupCount now).
Proof. unfold incrementSignupCount. frame_table. Qed.

Lemma generateJWT_ok now uid w jwt w' :
  generateJWT cfg now uid w = (Ok jwt, w') ->
  exists secret ttl,
    JWT_SECRET cfg = Some secret /\ secret <> ""
    /\ timespan (env_or (JWT_EXPIRES_IN cfg) "7d") = Some ttl
    /\ jwt = jwt_encode secret
               {| userId := uid; iat := now / 1000; exp := now / 1000 + ttl |}
    /\ w' = w.
Proof.
  unfold generateJWT. destruct (JWT_SECRET cfg) as [[|c s]|]; try discriminate.
  destruct (timespan _) as [ttl|]; [|discriminate].
  intros H. injection H as <- <-. exists (String c s), ttl. done.
Qed.

Lemma generateJWT_run now uid w secret ttl :
  JWT_SECRET cfg = Some secret -> secret <> "" ->
  timespan (env_or (JWT_EXPIRES_IN cfg) "7d") = Some ttl ->
  generateJWT cfg now uid w
  = (Ok (jwt_encode secret
           {| userId := uid; iat := now / 1000; exp := now / 1000 + ttl |}), w).
Proof.
  intros Hs Hne Ht. unfold generateJWT. rewrite Hs.
  destruct secret as [|c s]; [done|]. rewrite Ht. reflexivity.
Qed.

Lemma verifyToken_encoded t secret claims :
  JWT_SECRET cfg = Some secret -> secret <> "" ->
  t / 1000 < exp claims ->
  verifyToken cfg t (jwt_encode secret claims) = Ok claims.
Proof.
  intros Hs Hne Hlt. unfold verifyToken. rewrite Hs.
  destruct secret as [|c s]; [done|]. rewrite jwt_decode_encode.
  destruct (exp claims <=? t / 1000) eqn:Hle; [lia | reflexivity].
Qed.

Lemma user_projection_id u :
  without_password (user_obj u) !! "id" = Some (JNum (u_id u)).
Proof.
  unfold without_password. rewrite lookup_delete_ne by done.
  unfold user_obj. simpl. apply lookup_insert_eq.
Qed.

(** What a successful [register] leaves behind. *)
Lemma register_ok now salt tok data w r w' :
  register cfg now salt tok data w = (Ok r, w') ->
  exists newUser secret ttl,
    List.find (fun u => String.eqb (u_email u) (email data))
      (rows (users (w_db w))) = None
    /\ rows (users (w_db w')) = rows (users (w_db w)) ++ [newUser]
    /\ u_email newUser = email data
    /\ u_username newUser = username data
    /\ u_password newUser = bcrypt_hash salt (password data)
    /\ reg_user r = without_password (user_obj newUser)
    /\ JWT_SECRET cfg = Some secret /\ secret <> ""
    /\ timespan (env_or (JWT_EXPIRES_IN cfg) "7d") = Some ttl
    /\ reg_token r
       = jwt_encode secret {| userId := u_id newUser; iat := now / 1000;
                              exp := now / 1000 + ttl |}.
Proof.
  intros H. unfold register in H.
  apply bind_ok in H as (lc & w1 & Hcheck & H).
  destruct (negb (allowed lc)); [discriminate|].
  apply bind_ok in H as (e1 & w2 & Hs1 & H).
  rewrite db_select_limit1_run in Hs1. injection Hs1 as <- <-.
  rewrite length_limit1 in H.
  destruct (List.find _ _) as [|] eqn:Hnone in H; [discriminate|].
  apply bind_ok in H as (e2 & w3 & Hs2 & H).
  rewrite db_select_limit1_run in Hs2. injection Hs2 as <- <-.
  destruct (0 <? length _)%nat in H; [discriminate|].
  cbv zeta in H.
  apply bind_ok in H as (ins & w4 & Hins & H).
  rewrite db_insert_run in Hins. cbv zeta in Hins.
  destruct (users_ok _) in Hins; [|discriminate].
  injection Hins as <- <-.
  apply bind_ok in H as (newUser & w5 & Hlift & H).
  simpl in Hlift. injection Hlift as <- <-.
  apply bind_ok in H as (ins2 & w6 & Htok & H).
  apply bind_ok in H as (u & w7 & Hinc & H).
  apply bind_ok in H as (jwt & w8 & Hjwt & H).
  injection H as <- <-.
  apply generateJWT_ok in Hjwt as (secret & ttl & Hsec & Hne & Httl & -> & ->).
  apply (preserves_at _ _ _ _ _ (checkDailySignupLimit_same_users _)) in Hcheck.
  apply (preserves_at (same_table users)) in Htok;
    [|apply db_insert_same_table; reflexivity].
  apply (preserves_at _ _ _ _ _ (incrementSignupCount_same_users _)) in Hinc.
  unfold same_table in *. simpl in *. rewrite Hcheck in *.
  eexists _, secret, ttl.
  split; [exact Hnone|].
  split; [rewrite Hinc, Htok; reflexivity|].
  simpl. repeat split; try reflexivity; assumption.
Qed.

(** C3: after a [register] that succeeds, [login] with the same email and
    password succeeds at any later instant, and verifying either bearer
    token before it expires yields the id of the user [register] created. *)
Theorem register_then_login_round_trips
    (now : Z) (salt tok : string) (data : userData) (w w1 : world)
    (r : registered) :
  register cfg now salt tok data w = (Ok r, w1) ->
  exists uid ttl,
    timespan (env_or (JWT_EXPIRES_IN cfg) "7d") = Some ttl
    /\ reg_user r !! "id" = Some (JNum uid)
    /\ (exists u, rows (users (w_db w1)) = rows (users (w_db w)) ++ [u]
                  /\ u_id u = uid /\ u_email u = email data
                  /\ u_username u = username data)
    /\ (forall t, t / 1000 < now / 1000 + ttl ->
          exists c, verifyToken cfg t (reg_token r) = Ok c /\ userId c = uid)
    /\ (forall now2, exists r2 w2,
          login cfg now2 (email data) (password data) w1 = (Ok r2, w2)
          /\ login_user r2 !! "id" = Some (JNum uid)
          /\ (forall t, t / 1000 < now2 / 1000 + ttl ->
                exists c, verifyToken cfg t (login_token r2) = Ok c
                          /\ userId c = uid)).
Proof.
  intros H.
  destruct (register_ok _ _ _ _ _ _ _ H)
    as (u & secret & ttl & Hnone & Hrows & Hemail & Hname & Hpw & Huser
        & Hsec & Hne & Httl & Htoken).
  exists (u_id u), ttl. split; [exact Httl|].
  split; [rewrite Huser; apply user_projection_id|].
  split; [exists u; auto|].
  split.
  - intros t Ht. eexists. rewrite Htoken. split.
    + apply verifyToken_encoded; [exact Hsec | exact Hne | exact Ht].
    + reflexivity.
  - intros now2. unfold login.
    rewrite (bind_run _ _ _ _ _ (db_select_limit1_run _ _ _ _)).
    rewrite first_limit1. cbn [w_db logged]. rewrite Hrows.
    rewrite (find_app_none _ _ _ Hnone). simpl.
    rewrite Hemail, String.eqb_refl, Hpw, bcrypt_compare_hash. simpl.
    rewrite (bind_run _ _ _ _ _ (generateJWT_run _ _ _ _ _ Hsec Hne Httl)).
    eexists _, _. split; [reflexivity|]. simpl.
    split; [apply user_projection_id|].
    intros t Ht. eexists. split.
    + apply verifyToken_encoded; [exact Hsec | exact Hne | exact Ht].
    + reflexivity.
Qed.
End RegisterClaims.

(** ** Sync: one collection replaced by the submitted list *)


Lemma NoDup_fmap_filter {R A} (f : R -> A) (P : R -> bool) (l : list R) :
  NoDup (f <$> l) -> NoDup (f <$> List.filter P l).
Proof.
  induction l as [|a l IH]; [done|]. rewrite fmap_cons. intros Hnd.
  apply NoDup_cons in Hnd as [Hnotin Hnd]. simpl.
  destruct (P a); [|auto]. rewrite fmap_cons. apply NoDup_cons. split; [|auto].
  intros Hin. apply Hnotin. apply list_elem_of_fmap in Hin as (x & -> & Hx).
  apply list_elem_of_fmap. exists x. split; [done|].
  apply list_elem_of_In in Hx. apply filter_In in Hx as [Hx _].
  apply list_elem_of_In. exact Hx.
Qed.







Section Collection.
Context {R V : Type} (name : tname) (get : store -> table R)
  (set : table R -> store -> store) (check : store -> bool)
  (id owner : R -> Z) (values : jsval -> option V)
  (encode : V -> option (Z -> R)) (uid : Z).
Hypothesis get_set : forall t s, get (set t s) = t.
Hypothesis set_get : forall s, set (get s) s = s.
Hypothesis set_set : forall t t' s, set t (set t' s) = set t s.
Hypothesis users_set : forall t s, users (set t s) = users s.
Hypothesis check_spec :
  forall s, check s = unique_on id (get s) && references_users owner (get s) s.
Hypothesis encode_spec :
  forall v mk, encode v = Some mk -> forall k, id (mk k) = k /\ owner (mk k) = uid.




End Collection.

Section SyncClaims.
Context `{rt : Runtime}.







(** *** JSON carries JSON data unchanged *)






(** *** Well-typed entries are taken by their table *)










Lemma fetchUserData_run uid w :
  fetchUserData uid w
  = (Ok {| snap_favorites :=
             fv_animeData <$> owned_rows fv_userId uid (favorites (w_db w));
           snap_watchlist :=
             (fun i => JObj (<["status" := JStr (wl_status i)]>
                               (js_spread (wl_animeData i))))
               <$> owned_rows wl_userId uid (watchlist (w_db w));
           snap_watchHistory :=
             (fun h => JObj (watchHistory_obj h))
               <$> owned_rows wh_userId uid (watchHistory (w_db w)) |},
     logged (EvSelect WatchHistory)
       (logged (EvSelect Watchlist) (logged (EvSelect Favorites) w))).
Proof. reflexivity. Qed.

End SyncClaims.

(** ** Profile updates: what C6 says and the code also does *)

Lemma raises_ret {A} (P : error -> Prop) (a : A) : raises P (ret a).
Proof. intros w. exact I. Qed.

Lemma raises_throw {A} (P : error -> Prop) e : P e -> raises P (@throw A e).
Proof. intros H w. exact H. Qed.

Lemma raises_lift_opt {A} (P : error -> Prop) e (o : option A) :
  P e -> raises P (lift_opt e o).
Proof. intros H. destruct o; [apply raises_ret | apply raises_throw, H]. Qed.

Lemma raises_bind {A B} (P : error -> Prop) (m : M A) (k : A -> M B) :
  raises P m -> (forall a, raises P (k a)) -> raises P (bind m k).
Proof.
  intros Hm Hk w. unfold bind. specialize (Hm w).
  destruct (m w) as [[a|e] w1]; [apply Hk | exact Hm].
Qed.

Lemma obj_delete_raises P l k : P TypeError -> raises P (obj_delete l k).
Proof.
  intros H w. unfold obj_delete. destruct (w_heap w !! l); [exact I | exact H].
Qed.

Lemma obj_read_raises P l : P TypeError -> raises P (obj_read l).
Proof.
  intros H w. unfold obj_read. destruct (w_heap w !! l); [exact I | exact H].
Qed.

Lemma db_select_limit1_raises {R} P name (get : store -> table R) Q :
  raises P (db_select_limit1 name get Q).
Proof. intros w. exact I. Qed.

Lemma db_update_raises {R} P name (get : store -> table R) set check Q f :
  P StoreError -> raises P (db_update name get set check Q f).
Proof.
  intros H w. unfold db_update, bind, emit, get_db. simpl.
  destruct f as [f|]; [|exact H].
  destruct (mapM _ _) as [rows'|]; [|exact H].
  match goal with |- context [if ?c then _ else _] => destruct c end;
    [exact I | exact H].
Qed.

(** On no input at all does [updateProfile] fail with the error its
    siblings raise for a missing user. *)
Lemma updateProfile_never_not_found now uid updates :
  raises (fun e => e <> Error "User not found") (updateProfile now uid updates).
Proof.
  unfold updateProfile.
  apply raises_bind; [apply obj_delete_raises; discriminate | intros _].
  apply raises_bind; [apply obj_delete_raises; discriminate | intros _].
  apply raises_bind; [apply obj_read_raises; discriminate | intros patch].
  apply raises_bind; [|intros _].
  - destruct (truthy _); [|apply raises_ret].
    apply raises_bind; [apply raises_lift_opt; discriminate | intros name].
    apply raises_bind; [apply db_select_limit1_raises | intros found].
    destruct (first found) as [existing|]; [|apply raises_ret].
    match goal with |- raises _ (if ?b then _ else _) => destruct b end;
      [apply raises_throw; discriminate | apply raises_ret].
  - apply raises_bind; [apply db_update_raises; discriminate | intros upd].
    apply raises_bind; [apply raises_lift_opt; discriminate | intros user].
    apply raises_ret.
Qed.

Lemma encode_user_set_keeps (m : jsobj) us :
  m !! "email" = None -> m !! "password" = None ->
  encode_user_set m = Some us ->
  us_email us = Keep /\ us_password us = Keep.
Proof.
  intros He Hp Henc. unfold encode_user_set in Henc.
  rewrite He, Hp in Henc. cbn [set_with] in Henc.
  repeat match type of Henc with
         | context [set_with ?f ?o] =>
             destruct (set_with f o); simpl in Henc; [|discriminate]
         end.
  injection Henc as <-. split; reflexivity.
Qed.

Lemma apply_user_set_keeps us u u' :
  us_email us = Keep -> us_password us = Keep ->
  apply_user_set us u = Some u' ->
  u_email u' = u_email u /\ u_password u' = u_password u.
Proof.
  intros He Hp H. unfold apply_user_set in H. rewrite He, Hp in H.
  destruct (assign_notnull (us_id us) (u_id u)); [|discriminate].
  simpl in H.
  destruct (assign_notnull (us_username us) (u_username u)); [|discriminate].
  simpl in H. injection H as <-. split; reflexivity.
Qed.

Lemma db_update_users_keeps_credentials check P (m : jsobj) :
  m !! "email" = None -> m !! "password" = None ->
  preserves (same_table credentials)
    (db_update Users users set_users check P
       (apply_user_set <$> encode_user_set m)).
Proof.
  intros He Hp w. unfold db_update, bind, emit, get_db. simpl.
  destruct (encode_user_set m) as [us|] eqn:Henc; simpl; [|reflexivity].
  destruct (encode_user_set_keeps m us He Hp Henc) as [Hke Hkp].
  destruct (mapM _ _) as [rows'|] eqn:Hm; [|reflexivity].
  match goal with |- context [if ?c then _ else _] => destruct c end;
    simpl; [|reflexivity].
  unfold same_table, credentials. simpl.
  apply mapM_Some in Hm.
  induction Hm as [|u u' l l' Hu _ IH]; [reflexivity|].
  rewrite !fmap_cons, IH. f_equal.
  destruct (P u).
  - destruct (apply_user_set_keeps us u u' Hke Hkp Hu) as [-> ->]. reflexivity.
  - injection Hu as <-. reflexivity.
Qed.

Lemma obj_read_run l o w : w_heap w !! l = Some o -> obj_read l w = (Ok o, w).
Proof. intros H. unfold obj_read. rewrite H. reflexivity. Qed.

(** The second half of C6: whatever the patch holds under [email] and
    [password], no stored email or password hash changes. *)
Lemma updateProfile_keeps_credentials now uid updates w :
  credentials (w_db (updateProfile now uid updates w).2) = credentials (w_db w).
Proof.
  destruct (w_heap w !! updates) as [patch|] eqn:Hpatch.
  - unfold updateProfile.
    rewrite (bind_run _ _ _ _ _ (obj_delete_run _ "email" _ _ Hpatch)).
    erewrite bind_run; [|apply obj_delete_run; simpl; apply lookup_insert_eq].
    erewrite bind_run; [|apply obj_read_run; simpl; apply lookup_insert_eq].
    match goal with
    | |- credentials (w_db (?m ?w2).2) = _ =>
        assert (Hrest : same_table credentials w2 (m w2).2)
    end.
    { apply preserves_bind; [apply _ | | intros _].
      - frame_table.
      - apply preserves_bind; [apply _ | | intros upd].
        + apply db_update_users_keeps_credentials.
          * rewrite lookup_insert_ne by done. rewrite lookup_delete_ne by done.
            apply lookup_delete_eq.
          * rewrite lookup_insert_ne by done. apply lookup_delete_eq.
        + frame_table. }
    exact Hrest.
  - unfold updateProfile, bind, obj_delete. rewrite Hpatch. reflexivity.
Qed.

(** * More of the service *)

Lemma find_some_elem {R} (P : R -> bool) (l : list R) x :
  List.find P l = Some x -> x ∈ l /\ P x = true.
Proof.
  intros H. apply List.find_some in H as [Hin HP].
  split; [apply list_elem_of_In; exact Hin | exact HP].
Qed.

Section PasswordFlows.
Context `{laws : RuntimeLaws}.
Variable cfg : env.

#[local] Arguments update_where : simpl never.
#[local] Arguments insert_into : simpl never.

Lemma login_run_ok now email password w u secret ttl :
  JWT_SECRET cfg = Some secret -> secret <> "" ->
  timespan (env_or (JWT_EXPIRES_IN cfg) "7d") = Some ttl ->
  List.find (fun u => String.eqb (u_email u) email) (rows (users (w_db w)))
  = Some u ->
  bcrypt_compare password (u_password u) = true ->
  login cfg now email password w
  = (Ok {| login_user := without_password (user_obj u);
           login_token :=
             jwt_encode secret {| userId := u_id u; iat := now / 1000;
                                  exp := now / 1000 + ttl |} |},
     logged (EvSelect Users) w).
Proof.
  intros Hs Hne Ht Hfind Hpw. unfold login.
  rewrite (bind_run _ _ _ _ _ (db_select_limit1_run _ _ _ _)).
  rewrite first_limit1. simpl. rewrite Hfind, Hpw. simpl.
  rewrite (bind_run _ _ _ _ _ (generateJWT_run _ _ _ _ _ _ Hs Hne Ht)).
  reflexivity.
Qed.

Lemma changePassword_run_ok now salt uid current new w user :
  List.find (fun u => u_id u =? uid) (rows (users (w_db w))) = Some user ->
  bcrypt_compare current (u_password user) = true ->
  changePassword now salt uid current new w
  = (Ok (success "Password changed successfully"),
     stored (set_users
               (update_where (fun u => u_id u =? uid)
                  (with_password (bcrypt_hash salt new) now) (users (w_db w)))
               (w_db w))
       (logged (EvUpdate Users) (logged (EvSelect Users) w))).
Proof.
  intros Hfind Hpw. unfold changePassword.
  rewrite (bind_run _ _ _ _ _ (db_select_limit1_run _ _ _ _)).
  rewrite first_limit1. simpl. rewrite Hfind, Hpw. simpl.
  rewrite (bind_run _ _ _ _ _ (db_update_total_run _ _ _ _ _ _)).
  reflexivity.
Qed.

(** X1: after a password change that succeeds, the user logs in with the
    new password. *)
Theorem changePassword_then_login
    (now : Z) (salt : string) (uid : Z) (current new : string) (w : world)
    (user : user) :
  jwt_ready cfg ->
  unique_on u_email (users (w_db w)) = true ->
  List.find (fun u => u_id u =? uid) (rows (users (w_db w))) = Some user ->
  bcrypt_compare current (u_password user) = true ->
  exists w1,
    changePassword now salt uid current new w
    = (Ok (success "Password changed successfully"), w1)
    /\ forall now2, exists r w2,
         login cfg now2 (u_email user) new w1 = (Ok r, w2)
         /\ login_user r !! "id" = Some (JNum uid)
         /\ login_user r !! "email" = Some (JStr (u_email user)).
Proof.
  intros (secret & ttl & Hs & Hne & Ht) Hu Hfind Hpw.
  eexists. split; [exact (changePassword_run_ok _ _ _ _ _ _ user Hfind Hpw)|].
  intros now2.
  apply find_some_elem in Hfind as Huser. destruct Huser as [Hin Hid].
  apply Z.eqb_eq in Hid. subst uid.
  assert (Hmail : List.find (fun u => String.eqb (u_email u) (u_email user))
                    (rows (users (w_db w))) = Some user).
  { apply bool_decide_eq_true in Hu.
    apply (find_unique u_email); [exact Hu | exact Hin | apply String.eqb_refl |].
    intros x Hx. apply String.eqb_eq in Hx. exact Hx. }
  eexists _, _. split.
  - eapply login_run_ok; [exact Hs | exact Hne | exact Ht | | ].
    + cbn [w_db stored logged users set_users]. unfold update_where.
      cbn [rows]. rewrite find_fmap_stable
        by (intros x; destruct (u_id x =? u_id user); reflexivity).
      rewrite Hmail. reflexivity.
    + simpl. rewrite Z.eqb_refl. simpl. apply bcrypt_compare_hash.
  - simpl. rewrite Z.eqb_refl. simpl. split.
    + exact (user_projection_id (with_password _ _ user)).
    + unfold without_password. rewrite lookup_delete_ne by done.
      unfold user_obj. simpl. rewrite lookup_insert_ne by done.
      apply lookup_insert_eq.
Qed.

Lemma changePassword_run_missing now salt uid current new w :
  List.find (fun u => u_id u =? uid) (rows (users (w_db w))) = None ->
  changePassword now salt uid current new w
  = (Throw (Error "User not found"), logged (EvSelect Users) w).
Proof.
  intros Hfind. unfold changePassword.
  rewrite (bind_run _ _ _ _ _ (db_select_limit1_run _ _ _ _)).
  rewrite first_limit1. simpl. rewrite Hfind. reflexivity.
Qed.

Lemma changePassword_run_wrong now salt uid current new w user :
  List.find (fun u => u_id u =? uid) (rows (users (w_db w))) = Some user ->
  bcrypt_compare current (u_password user) = false ->
  changePassword now salt uid current new w
  = (Throw (Error "Current password is incorrect"), logged (EvSelect Users) w).
Proof.
  intros Hfind Hpw. unfold changePassword.
  rewrite (bind_run _ _ _ _ _ (db_select_limit1_run _ _ _ _)).
  rewrite first_limit1. simpl. rewrite Hfind, Hpw. reflexivity.
Qed.

(** X2: for a user id that the id column can hold and passwords that are
    strings, a password change that is refused by the service itself, not by
    the store, has changed nothing: it is refused either because no user
    has the id, with [Error "User not found"], or because the current
    password does not match the stored hash, with
    [Error "Current password is incorrect"], and heap and store are as they
    were. *)
Theorem changePassword_fails_cleanly
    (now : Z) (salt : string) (uid : Z) (current new : string) (w : world)
    (e : error) :
  int4 uid = true ->
  (changePassword now salt uid current new w).1 = Throw e ->
  e <> StoreError ->
  ((e = Error "User not found"
    /\ List.find (fun u => u_id u =? uid) (rows (users (w_db w))) = None)
   \/ (e = Error "Current password is incorrect"
       /\ exists user,
            List.find (fun u => u_id u =? uid) (rows (users (w_db w)))
            = Some user
            /\ bcrypt_compare current (u_password user) = false))
  /\ w_db (changePassword now salt uid current new w).2 = w_db w
  /\ w_heap (changePassword now salt uid current new w).2 = w_heap w.
Proof.
  intros _.
  destruct (List.find (fun u => u_id u =? uid) (rows (users (w_db w))))
    as [user|] eqn:Hfind.
  - destruct (bcrypt_compare current (u_password user)) eqn:Hpw.
    + rewrite (changePassword_run_ok _ _ _ _ _ _ user Hfind Hpw). discriminate.
    + rewrite (changePassword_run_wrong _ _ _ _ _ _ user Hfind Hpw).
      intros H _. injection H as <-. split; [|split; reflexivity].
      right. split; [reflexivity|]. exists user. split; [reflexivity | exact Hpw].
  - rewrite (changePassword_run_missing _ _ _ _ _ _ Hfind).
    intros H _. injection H as <-. split; [|split; reflexivity].
    left. split; reflexivity.
Qed.

Lemma requestPasswordReset_unknown now tok email w :
  List.find (fun u => String.eqb (u_email u) email) (rows (users (w_db w)))
  = None ->
  requestPasswordReset now tok email w
  = (Ok {| rr_success := true;
           rr_message := "If an account exists, a reset link will be sent.";
           rr_resetToken := None; rr_userId := None |},
     logged (EvSelect Users) w).
Proof.
  intros Hfind. unfold requestPasswordReset.
  rewrite (bind_run _ _ _ _ _ (db_select_limit1_run _ _ _ _)).
  rewrite first_limit1. simpl. rewrite Hfind. reflexivity.
Qed.

Lemma requestPasswordReset_known now tok email w user :
  List.find (fun u => String.eqb (u_email u) email) (rows (users (w_db w)))
  = Some user ->
  requestPasswordReset now tok email w
  = let s' := set_passwordResetTokens
                (insert_into (passwordResetTokens (w_db w))
                   [issued (u_id user) tok (now + 60 * 60 * 1000) now])
                (w_db w) in
    if passwordResetTokens_ok s' then
      (Ok {| rr_success := true;
             rr_message := "If an account exists, a reset link will be sent.";
             rr_resetToken := Some tok; rr_userId := Some (u_id user) |},
       stored s' (logged (EvInsert PasswordResetTokens)
                    (logged (EvSelect Users) w)))
    else (Throw StoreError,
          logged (EvInsert PasswordResetTokens) (logged (EvSelect Users) w)).
Proof.
  intros Hfind. unfold requestPasswordReset.
  rewrite (bind_run _ _ _ _ _ (db_select_limit1_run _ _ _ _)).
  rewrite first_limit1. simpl. rewrite Hfind.
  unfold bind at 1. rewrite db_insert_run. cbv zeta.
  unfold issued. cbn [w_db logged].
  destruct (passwordResetTokens_ok _); reflexivity.
Qed.

(** X3: whatever the email, a reset request that returns carries the same
    [success] and [message]; it carries a token exactly when a user has the
    email, and for an unknown email it leaves the store as it was. *)
Theorem requestPasswordReset_uniform
    (now1 now2 : Z) (tok1 tok2 email1 email2 : string) (w1 w2 w1' w2' : world)
    (r1 r2 : resetRequested) :
  requestPasswordReset now1 tok1 email1 w1 = (Ok r1, w1') ->
  requestPasswordReset now2 tok2 email2 w2 = (Ok r2, w2') ->
  rr_success r1 = rr_success r2 /\ rr_message r1 = rr_message r2
  /\ (rr_resetToken r1 = None
      <-> List.find (fun u => String.eqb (u_email u) email1)
            (rows (users (w_db w1))) = None)
  /\ (rr_resetToken r1 = None -> w_db w1' = w_db w1).
Proof.
  assert (Hshape : forall now tok email w r w',
            requestPasswordReset now tok email w = (Ok r, w') ->
            rr_success r = true
            /\ rr_message r = "If an account exists, a reset link will be sent."
            /\ (rr_resetToken r = None
                <-> List.find (fun u => String.eqb (u_email u) email)
                      (rows (users (w_db w))) = None)
            /\ (rr_resetToken r = None -> w_db w' = w_db w)).
  { intros now tok email w r w' H.
    destruct (List.find (fun u => String.eqb (u_email u) email)
                (rows (users (w_db w)))) as [user|] eqn:Hfind.
    - rewrite (requestPasswordReset_known _ _ _ _ user Hfind) in H.
      cbv zeta in H. destruct (passwordResetTokens_ok _) in H; [|discriminate].
      injection H as <- <-. simpl. repeat split; try discriminate.
    - rewrite (requestPasswordReset_unknown _ _ _ _ Hfind) in H.
      injection H as <- <-. simpl. repeat split; reflexivity. }
  intros H1 H2.
  destruct (Hshape _ _ _ _ _ _ H1) as (Hs1 & Hm1 & Ht1 & Hd1).
  destruct (Hshape _ _ _ _ _ _ H2) as (Hs2 & Hm2 & _ & _).
  rewrite Hs1, Hs2, Hm1, Hm2. auto.
Qed.

Lemma tokens_ok_unique (t : table token) (a : bool) :
  unique_on tk_id t && unique_on tk_token t && a = true ->
  unique_on tk_token t = true.
Proof. rewrite !andb_true_iff. tauto. Qed.

(** X4: the reset token a request returns is good for one hour: before
    that, [resetPassword] accepts it and the user then logs in with the new
    password; from one hour on it is refused, and the store is left as it
    was. *)
Theorem reset_token_good_for_one_hour
    (now : Z) (tok email : string) (w w1 : world) (r : resetRequested)
    (issuedTok : string) :
  jwt_ready cfg ->
  requestPasswordReset now tok email w = (Ok r, w1) ->
  rr_resetToken r = Some issuedTok ->
  (forall now2 salt newPassword, now2 < now + 3600000 ->
     exists w2,
       resetPassword now2 salt issuedTok newPassword w1
       = (Ok (success "Password reset successful"), w2)
       /\ forall now3, exists r3 w3,
            login cfg now3 email newPassword w2 = (Ok r3, w3)
            /\ Some (login_user r3 !! "id") = (Some ∘ JNum) <$> rr_userId r)
  /\ (forall now2 salt newPassword, now + 3600000 <= now2 ->
        resetPassword now2 salt issuedTok newPassword w1
        = (Throw (Error "Invalid or expired reset token"),
           logged (EvSelect PasswordResetTokens) w1)).
Proof.
  intros (secret & ttl & Hs & Hne & Ht) Hrun Htok.
  destruct (List.find (fun u => String.eqb (u_email u) email)
              (rows (users (w_db w)))) as [user|] eqn:Hfind.
  2:{ rewrite (requestPasswordReset_unknown _ _ _ _ Hfind) in Hrun.
      injection Hrun as <- <-. discriminate Htok. }
  rewrite (requestPasswordReset_known _ _ _ _ user Hfind) in Hrun.
  cbv zeta in Hrun.
  destruct (passwordResetTokens_ok _) eqn:Hok in Hrun; [|discriminate].
  injection Hrun as <- <-. simpl in Htok. injection Htok as <-.
  apply tokens_ok_unique in Hok.
  set (new := issued (u_id user) tok (now + 60 * 60 * 1000) now
                (serial (passwordResetTokens (w_db w)))).
  assert (Hin : new ∈ rows (insert_into (passwordResetTokens (w_db w))
                              [issued (u_id user) tok (now + 60 * 60 * 1000) now])).
  { unfold insert_into. simpl. apply elem_of_app. right.
    apply list_elem_of_singleton. reflexivity. }
  split.
  - intros now2 salt newPassword Hlt.
    assert (Hlive : live_token now2 tok new = true).
    { apply live_token_spec. simpl. repeat split; lia. }
    eexists. split.
    + apply (resetPassword_live_run _ _ _ _ _ new).
      apply find_live_unique; [exact Hok | exact Hin | exact Hlive].
    + intros now3. eexists _, _. split.
      * eapply login_run_ok; [exact Hs | exact Hne | exact Ht | |].
        -- cbn [w_db stored logged users set_users set_passwordResetTokens
                passwordResetTokens]. unfold update_where. cbn [rows].
           rewrite find_fmap_stable
             by (intros x; destruct (u_id x =? _); reflexivity).
           rewrite Hfind. reflexivity.
        -- simpl. rewrite Z.eqb_refl. simpl. apply bcrypt_compare_hash.
      * simpl. rewrite Z.eqb_refl. simpl. f_equal.
  - intros now2 salt newPassword Hge.
    apply resetPassword_dead_run. apply find_none. intros x Hx.
    destruct (live_token now2 tok x) eqn:Hl; [|reflexivity].
    apply live_token_spec in Hl as (Ht' & _ & Hexp).
    assert (x = new) as ->.
    { apply bool_decide_eq_true in Hok.
      eapply (unique_inj tk_token); [exact Hok | exact Hx | exact Hin |].
      rewrite Ht'. reflexivity. }
    simpl in Hexp. lia.
Qed.
End PasswordFlows.

(** ** Email verification *)

Lemma user_projection_isVerified u :
  without_password (user_obj u) !! "isVerified"
  = Some (nullable JBool (u_isVerified u)).
Proof.
  unfold without_password. rewrite lookup_delete_ne by done.
  unfold user_obj. simpl. rewrite !lookup_insert_ne by done.
  apply lookup_insert_eq.
Qed.

Lemma find_app_last {R} (P : R -> bool) (l : list R) (n : R) :
  P n = true -> exists x, List.find P (l ++ [n]) = Some x /\ P x = true.
Proof.
  intros Hn. destruct (List.find P (l ++ [n])) as [x|] eqn:Hfind.
  - exists x. split; [reflexivity|]. exact (proj2 (find_some_elem _ _ _ Hfind)).
  - rewrite (find_none_elem _ _ n Hfind) in Hn; [discriminate|].
    apply elem_of_app. right. apply list_elem_of_singleton. reflexivity.
Qed.

Section RegisterStore.
Context `{rt : Runtime}.
Variable cfg : env.

Lemma checkDailySignupLimit_same_tokens now :
  preserves (same_table emailVerificationTokens) (checkDailySignupLimit cfg now).
Proof. unfold checkDailySignupLimit. frame_table. Qed.

Lemma incrementSignupCount_same_tokens now :
  preserves (same_table emailVerificationTokens) (incrementSignupCount now).
Proof. unfold incrementSignupCount. frame_table. Qed.

(** The rows a successful [register] adds. *)
Lemma register_ok_store now salt tok data w r w' :
  register cfg now salt tok data w = (Ok r, w') ->
  exists newUser,
    rows (users (w_db w')) = rows (users (w_db w)) ++ [newUser]
    /\ u_isVerified newUser = Some false
    /\ reg_user r = without_password (user_obj newUser)
    /\ reg_verificationToken r = tok
    /\ emailVerificationTokens (w_db w')
       = insert_into (emailVerificationTokens (w_db w))
           [issued (u_id newUser) tok (now + 24 * 60 * 60 * 1000) now]
    /\ unique_on tk_token (emailVerificationTokens (w_db w')) = true.
Proof.
  intros H. unfold register in H.
  apply bind_ok in H as (lc & w1 & Hcheck & H).
  destruct (negb (allowed lc)); [discriminate|].
  apply bind_ok in H as (e1 & w2 & Hs1 & H).
  rewrite db_select_limit1_run in Hs1. injection Hs1 as <- <-.
  rewrite length_limit1 in H.
  destruct (List.find _ _) as [|] eqn:Hnone in H; [discriminate|].
  apply bind_ok in H as (e2 & w3 & Hs2 & H).
  rewrite db_select_limit1_run in Hs2. injection Hs2 as <- <-.
  destruct (0 <? length _)%nat in H; [discriminate|].
  cbv zeta in H.
  apply bind_ok in H as (ins & w4 & Hins & H).
  rewrite db_insert_run in Hins. cbv zeta in Hins.
  destruct (users_ok _) in Hins; [|discriminate].
  injection Hins as <- <-.
  apply bind_ok in H as (newUser & w5 & Hlift & H).
  simpl in Hlift. injection Hlift as <- <-.
  apply bind_ok in H as (ins2 & w6 & Htok & H).
  rewrite db_insert_run in Htok. cbv zeta in Htok.
  destruct (emailVerificationTokens_ok _) eqn:Hok in Htok; [|discriminate].
  injection Htok as <- <-.
  apply bind_ok in H as (u & w7 & Hinc & H).
  apply bind_ok in H as (jwt & w8 & Hjwt & H).
  injection H as <- <-.
  pose proof (preserves_at _ _ _ _ _ (generateJWT_same_db cfg _ _) Hjwt) as Hj.
  pose proof (preserves_at _ _ _ _ _ (checkDailySignupLimit_same_users cfg _) Hcheck)
    as Hcu.
  pose proof (preserves_at _ _ _ _ _ (checkDailySignupLimit_same_tokens _) Hcheck)
    as Hct.
  pose proof (preserves_at _ _ _ _ _ (incrementSignupCount_same_users _) Hinc)
    as Hiu.
  pose proof (preserves_at _ _ _ _ _ (incrementSignupCount_same_tokens _) Hinc)
    as Hit.
  unfold same_table, same_db in *. rewrite Hj.
  apply andb_true_iff in Hok as [Hok _]. apply andb_true_iff in Hok as [_ Hok].
  simpl in *. rewrite Hcu, Hct in *.
  eexists. split; [rewrite Hiu; reflexivity|].
  split; [reflexivity|]. split; [reflexivity|]. split; [reflexivity|].
  rewrite Hit. split; [reflexivity | exact Hok].
Qed.
End RegisterStore.

Section VerificationFlows.
Context `{rt : Runtime}.
Variable cfg : env.

#[local] Arguments update_where : simpl never.
#[local] Arguments insert_into : simpl never.

Lemma getUserById_run uid w u :
  List.find (fun u => u_id u =? uid) (rows (users (w_db w))) = Some u ->
  getUserById uid w
  = (Ok (without_password (user_obj u)), logged (EvSelect Users) w).
Proof.
  intros Hfind. unfold getUserById.
  rewrite (bind_run _ _ _ _ _ (db_select_limit1_run _ _ _ _)).
  rewrite first_limit1. simpl. rewrite Hfind. reflexivity.
Qed.

Lemma getUserById_run_missing uid w :
  List.find (fun u => u_id u =? uid) (rows (users (w_db w))) = None ->
  getUserById uid w
  = (Throw (Error "User not found"), logged (EvSelect Users) w).
Proof.
  intros Hfind. unfold getUserById.
  rewrite (bind_run _ _ _ _ _ (db_select_limit1_run _ _ _ _)).
  rewrite first_limit1. simpl. rewrite Hfind. reflexivity.
Qed.

Lemma resendVerificationEmail_run_missing now tok uid w :
  List.find (fun u => u_id u =? uid) (rows (users (w_db w))) = None ->
  resendVerificationEmail now tok uid w
  = (Throw (Error "User not found"), logged (EvSelect Users) w).
Proof.
  intros Hfind. unfold resendVerificationEmail.
  rewrite (bind_run _ _ _ _ _ (db_select_limit1_run _ _ _ _)).
  rewrite first_limit1. simpl. rewrite Hfind. reflexivity.
Qed.

Lemma resendVerificationEmail_run_verified now tok uid w user :
  List.find (fun u => u_id u =? uid) (rows (users (w_db w))) = Some user ->
  default false (u_isVerified user) = true ->
  resendVerificationEmail now tok uid w
  = (Throw (Error "Email already verified"), logged (EvSelect Users) w).
Proof.
  intros Hfind Hv. unfold resendVerificationEmail.
  rewrite (bind_run _ _ _ _ _ (db_select_limit1_run _ _ _ _)).
  rewrite first_limit1. simpl. rewrite Hfind, Hv. reflexivity.
Qed.

Lemma resendVerificationEmail_run_unverified now tok uid w user :
  List.find (fun u => u_id u =? uid) (rows (users (w_db w))) = Some user ->
  default false (u_isVerified user) = false ->
  exists w0,
    w_heap w0 = w_heap w
    /\ w_db w0
       = set_emailVerificationTokens
           (update_where (fun t => tk_userId t =? uid) with_used
              (emailVerificationTokens (w_db w)))
           (w_db w)
    /\ resendVerificationEmail now tok uid w
       = let s' := set_emailVerificationTokens
                     (insert_into
                        (update_where (fun t => tk_userId t =? uid) with_used
                           (emailVerificationTokens (w_db w)))
                        [issued uid tok (now + 24 * 60 * 60 * 1000) now])
                     (w_db w) in
         if emailVerificationTokens_ok s' then
           (Ok (success "Verification email sent", tok), stored s' w0)
         else (Throw StoreError, w0).
Proof.
  intros Hfind Hv. unfold resendVerificationEmail.
  rewrite (bind_run _ _ _ _ _ (db_select_limit1_run _ _ _ _)).
  rewrite first_limit1. simpl. rewrite Hfind, Hv.
  rewrite (bind_run _ _ _ _ _ (db_update_total_run _ _ _ _ _ _)).
  unfold bind at 1. rewrite db_insert_run. cbv zeta.
  eexists. split; [|split]; cycle 2.
  - unfold issued. cbn [w_db logged stored].
    destruct (emailVerificationTokens_ok _); reflexivity.
  - reflexivity.
  - reflexivity.
Qed.

(** X5: a resend that succeeds returns the token it was given, leaves every
    token the user held before unusable, and issues one that [verifyEmail]
    accepts for twenty-four hours, after which every user row with that id
    is verified. *)
Theorem resendVerificationEmail_supersedes
    (now : Z) (tok : string) (uid : Z) (w w1 : world) (res : jsobj * string) :
  resendVerificationEmail now tok uid w = (Ok res, w1) ->
  res = (success "Verification email sent", tok)
  /\ (forall old, old ∈ rows (emailVerificationTokens (w_db w)) ->
        tk_userId old = uid ->
        forall now2,
          verifyEmail now2 (tk_token old) w1
          = (Throw (Error "Invalid or expired verification token"),
             logged (EvSelect EmailVerificationTokens) w1))
  /\ (forall now2, now2 < now + 86400000 ->
        exists w2,
          verifyEmail now2 tok w1
          = (Ok (success "Email verified successfully"), w2)
          /\ forall u, u ∈ rows (users (w_db w2)) -> u_id u = uid ->
               u_isVerified u = Some true).
Proof.
  intros Hrun.
  destruct (List.find (fun u => u_id u =? uid) (rows (users (w_db w))))
    as [user|] eqn:Hfind.
  2:{ rewrite (resendVerificationEmail_run_missing _ _ _ _ Hfind) in Hrun.
      discriminate. }
  destruct (default false (u_isVerified user)) eqn:Hv.
  { rewrite (resendVerificationEmail_run_verified _ _ _ _ user Hfind Hv) in Hrun.
    discriminate. }
  destruct (resendVerificationEmail_run_unverified now tok _ _ user Hfind Hv)
    as (w0 & Hheap & Hdb & Heq).
  rewrite Heq in Hrun. cbv zeta in Hrun.
  destruct (emailVerificationTokens_ok _) eqn:Hok in Hrun; [|discriminate].
  injection Hrun as <- <-. apply tokens_ok_unique in Hok.
  cbn [w_db stored emailVerificationTokens set_emailVerificationTokens] in Hok.
  set (new := issued uid tok (now + 24 * 60 * 60 * 1000) now
                (serial (emailVerificationTokens (w_db w)))).
  set (t1 := insert_into
               (update_where (fun t => tk_userId t =? uid) with_used
                  (emailVerificationTokens (w_db w)))
               [issued uid tok (now + 24 * 60 * 60 * 1000) now]) in *.
  assert (Hrows : rows t1
                  = ((fun t => if tk_userId t =? uid then with_used t else t)
                       <$> rows (emailVerificationTokens (w_db w))) ++ [new])
    by reflexivity.
  assert (Hin : new ∈ rows t1).
  { rewrite Hrows. apply elem_of_app. right.
    apply list_elem_of_singleton. reflexivity. }
  split; [reflexivity|]. split.
  - intros old Hold Howner now2. apply verifyEmail_dead_run.
    cbn [w_db stored emailVerificationTokens set_emailVerificationTokens].
    apply find_none. intros x Hx.
    destruct (live_token now2 (tk_token old) x) eqn:Hl; [|reflexivity].
    apply live_token_spec in Hl as (Ht & Hused & _).
    assert (Hold' : with_used old ∈ rows t1).
    { rewrite Hrows. apply elem_of_app. left. apply list_elem_of_fmap.
      exists old. rewrite Howner, Z.eqb_refl. split; [reflexivity | exact Hold]. }
    assert (x = with_used old) as ->.
    { apply bool_decide_eq_true in Hok.
      eapply (unique_inj tk_token); [exact Hok | exact Hx | exact Hold' |].
      rewrite Ht. reflexivity. }
    discriminate Hused.
  - intros now2 Hlt.
    assert (Hlive : live_token now2 tok new = true).
    { apply live_token_spec. simpl. repeat split; lia. }
    eexists. split.
    + apply (verifyEmail_live_run _ _ _ new).
      cbn [w_db stored emailVerificationTokens set_emailVerificationTokens].
      apply find_live_unique; [exact Hok | exact Hin | exact Hlive].
    + intros u Hu Hid.
      cbn [w_db stored users set_users set_emailVerificationTokens] in Hu.
      unfold update_where in Hu. cbn [rows] in Hu.
      apply list_elem_of_fmap in Hu as (x & -> & _).
      change (tk_userId new) with uid in *.
      destruct (u_id x =? uid) eqn:Hx; [reflexivity|].
      apply Z.eqb_neq in Hx. contradiction.
Qed.

(** X6: a resend that is refused by the service itself changes nothing: it
    is refused either because no user has the id, with
    [Error "User not found"], or because the user is verified already, with
    [Error "Email already verified"]. *)
Theorem resendVerificationEmail_refusals
    (now : Z) (tok : string) (uid : Z) (w : world) (e : error) :
  (resendVerificationEmail now tok uid w).1 = Throw e ->
  e <> StoreError ->
  ((e = Error "User not found"
    /\ List.find (fun u => u_id u =? uid) (rows (users (w_db w))) = None)
   \/ (e = Error "Email already verified"
       /\ exists user,
            List.find (fun u => u_id u =? uid) (rows (users (w_db w)))
            = Some user
            /\ u_isVerified user = Some true))
  /\ w_db (resendVerificationEmail now tok uid w).2 = w_db w
  /\ w_heap (resendVerificationEmail now tok uid w).2 = w_heap w.
Proof.
  destruct (List.find (fun u => u_id u =? uid) (rows (users (w_db w))))
    as [user|] eqn:Hfind.
  - destruct (default false (u_isVerified user)) eqn:Hv.
    + rewrite (resendVerificationEmail_run_verified _ _ _ _ user Hfind Hv).
      intros H _. injection H as <-. split; [|split; reflexivity].
      right. split; [reflexivity|]. exists user. split; [reflexivity|].
      destruct (u_isVerified user) as [[|]|]; try discriminate. reflexivity.
    + destruct (resendVerificationEmail_run_unverified now tok _ _ user Hfind Hv)
        as (w0 & _ & _ & ->).
      cbv zeta. destruct (emailVerificationTokens_ok _).
      * discriminate.
      * intros H Hne. injection H as <-. contradiction.
  - rewrite (resendVerificationEmail_run_missing _ _ _ _ Hfind).
    intros H _. injection H as <-. split; [|split; reflexivity].
    left. split; reflexivity.
Qed.

(** X7: the verification token [register] returns is good for twenty-four
    hours: the new user starts unverified; before the deadline [verifyEmail]
    accepts the token, [getUserById] then shows the user verified and a
    resend is refused with [Error "Email already verified"]; from the
    deadline on the token is refused. *)
Theorem register_then_verifyEmail
    (now : Z) (salt tok : string) (data : userData) (w w1 : world)
    (r : registered) :
  register cfg now salt tok data w = (Ok r, w1) ->
  exists uid,
    reg_user r !! "id" = Some (JNum uid)
    /\ reg_user r !! "isVerified" = Some (JBool false)
    /\ (forall now2, now2 < now + 86400000 ->
          exists w2,
            verifyEmail now2 (reg_verificationToken r) w1
            = (Ok (success "Email verified successfully"), w2)
            /\ (exists o w3, getUserById uid w2 = (Ok o, w3)
                             /\ o !! "isVerified" = Some (JBool true))
            /\ (forall now3 tok3,
                  (resendVerificationEmail now3 tok3 uid w2).1
                  = Throw (Error "Email already verified")))
    /\ (forall now2, now + 86400000 <= now2 ->
          verifyEmail now2 (reg_verificationToken r) w1
          = (Throw (Error "Invalid or expired verification token"),
             logged (EvSelect EmailVerificationTokens) w1)).
Proof.
  intros H.
  destruct (register_ok_store _ _ _ _ _ _ _ _ H)
    as (newUser & Hrows & Hunv & Huser & Htok & Htab & Huniq).
  exists (u_id newUser). rewrite Huser, Htok.
  split; [apply user_projection_id|].
  split; [rewrite user_projection_isVerified, Hunv; reflexivity|].
  set (new := issued (u_id newUser) tok (now + 24 * 60 * 60 * 1000) now
                (serial (emailVerificationTokens (w_db w)))).
  assert (Hin : new ∈ rows (emailVerificationTokens (w_db w1))).
  { rewrite Htab. unfold insert_into. cbn [rows]. apply elem_of_app. right.
    apply list_elem_of_singleton. reflexivity. }
  split.
  - intros now2 Hlt.
    assert (Hlive : live_token now2 tok new = true).
    { apply live_token_spec. simpl. repeat split; lia. }
    eexists. split.
    + apply (verifyEmail_live_run _ _ _ new).
      apply find_live_unique; [exact Huniq | exact Hin | exact Hlive].
    + assert (Hfind : exists x,
                List.find (fun u => u_id u =? u_id newUser)
                  (rows (update_where (fun u => u_id u =? tk_userId new)
                           (with_isVerified now2) (users (w_db w1))))
                = Some (with_isVerified now2 x)).
      { unfold update_where. cbn [rows].
        rewrite find_fmap_stable
          by (intros x; destruct (u_id x =? tk_userId new); reflexivity).
        rewrite Hrows.
        destruct (find_app_last (fun u => u_id u =? u_id newUser)
                    (rows (users (w_db w))) newUser (Z.eqb_refl _))
          as (x & -> & Hx).
        exists x. simpl. change (tk_userId new) with (u_id newUser).
        rewrite Hx. reflexivity. }
      destruct Hfind as (x & Hfind). split.
      * eexists _, _. split.
        -- apply getUserById_run. exact Hfind.
        -- rewrite user_projection_isVerified. reflexivity.
      * intros now3 tok3.
        erewrite resendVerificationEmail_run_verified;
          [reflexivity | exact Hfind | reflexivity].
  - intros now2 Hge. apply verifyEmail_dead_run. apply find_none. intros x Hx.
    destruct (live_token now2 tok x) eqn:Hl; [|reflexivity].
    apply live_token_spec in Hl as (Ht' & _ & Hexp).
    assert (x = new) as ->.
    { apply bool_decide_eq_true in Huniq.
      eapply (unique_inj tk_token); [exact Huniq | exact Hx | exact Hin |].
      rewrite Ht'. reflexivity. }
    simpl in Hexp. lia.
Qed.
End VerificationFlows.

(** ** Registration refused, and registration that fails late *)

Lemma bind_throw {A B} (m : M A) (k : A -> M B) w e w' :
  bind m k w = (Throw e, w') ->
  m w = (Throw e, w')
  \/ exists a w1, m w = (Ok a, w1) /\ k a w1 = (Throw e, w').
Proof.
  unfold bind. destruct (m w) as [[a|e0] w1]; intros H.
  - right. eauto.
  - left. injection H as -> ->. reflexivity.
Qed.

Section SignupRejections.
Context `{rt : Runtime}.
Variable cfg : env.

Lemma checkDailySignupLimit_run now w :
  exists lc w1,
    checkDailySignupLimit cfg now w = (Ok lc, w1)
    /\ allowed lc = negb (over_limit cfg now (w_db w))
    /\ message lc
       = (if over_limit cfg now (w_db w)
          then Some "Daily signup limit reached. Please try again tomorrow."
          else None)
    /\ (over_limit cfg now (w_db w) = true ->
        w1 = logged (EvSelect DailySignups) w)
    /\ users (w_db w1) = users (w_db w)
    /\ emailVerificationTokens (w_db w1) = emailVerificationTokens (w_db w)
    /\ w_heap w1 = w_heap w.
Proof.
  unfold over_limit.
  change (fun r : dailySignup => String.eqb (ds_date r) (toISODate now))
    with (todays now).
  destruct (List.find (todays now) (rows (dailySignups (w_db w))))
    as [r|] eqn:Hfind.
  - eexists _, _. split; [apply (checkDailySignupLimit_found _ _ _ r Hfind)|].
    cbv zeta. destruct (js_ge _ _); simpl; repeat split; discriminate.
  - destruct (checkDailySignupLimit_fresh_day cfg now w Hfind)
      as (w1 & Hrun & Hheap & [Hsame | [Hok Hnew]]);
      eexists _, _; (split; [exact Hrun|]); simpl.
    + rewrite Hsame. repeat split; try discriminate. exact Hheap.
    + rewrite Hnew. repeat split; try discriminate. exact Hheap.
Qed.

Lemma incrementSignupCount_returns now w :
  exists w1, incrementSignupCount now w = (Ok tt, w1).
Proof.
  unfold incrementSignupCount, catch.
  match goal with
  | |- context [bind ?m ?k w] => destruct (bind m k w) as [[[]|e] w1]
  end; eexists; reflexivity.
Qed.

(** X8: [register] refuses in the order of its checks and before it has
    written a user or a token: on a day whose counter has reached the limit
    with the limit message, whatever the data; below the limit, for an
    email that is taken with [Error "User already exists with this email"];
    and for a free email and a taken username with
    [Error "Username already taken"]. *)
Theorem register_rejections
    (now : Z) (salt tok : string) (data : userData) (w : world) :
  (over_limit cfg now (w_db w) = true ->
     register cfg now salt tok data w
     = (Throw (Error "Daily signup limit reached. Please try again tomorrow."),
        logged (EvSelect DailySignups) w))
  /\ (over_limit cfg now (w_db w) = false ->
      forall taken,
        List.find (fun u => String.eqb (u_email u) (email data))
          (rows (users (w_db w))) = Some taken ->
        (register cfg now salt tok data w).1
        = Throw (Error "User already exists with this email")
        /\ users (w_db (register cfg now salt tok data w).2) = users (w_db w)
        /\ emailVerificationTokens (w_db (register cfg now salt tok data w).2)
           = emailVerificationTokens (w_db w))
  /\ (over_limit cfg now (w_db w) = false ->
      List.find (fun u => String.eqb (u_email u) (email data))
        (rows (users (w_db w))) = None ->
      forall taken,
        List.find (fun u => String.eqb (u_username u) (username data))
          (rows (users (w_db w))) = Some taken ->
        (register cfg now salt tok data w).1
        = Throw (Error "Username already taken")
        /\ users (w_db (register cfg now salt tok data w).2) = users (w_db w)
        /\ emailVerificationTokens (w_db (register cfg now salt tok data w).2)
           = emailVerificationTokens (w_db w)).
Proof.
  destruct (checkDailySignupLimit_run now w)
    as (lc & w1 & Hrun & Hall & Hmsg & Hw1 & Hu & Ht & _).
  unfold register. rewrite (bind_run _ _ _ _ _ Hrun), Hall.
  split; [|split].
  - intros Hover. rewrite Hover in *. simpl. rewrite Hmsg, (Hw1 eq_refl).
    reflexivity.
  - intros Hover taken Hfind. rewrite Hover. simpl.
    rewrite (bind_run _ _ _ _ _ (db_select_limit1_run _ _ _ _)).
    rewrite length_limit1. rewrite Hu, Hfind. simpl. auto.
  - intros Hover Hnone taken Hfind. rewrite Hover. simpl.
    rewrite (bind_run _ _ _ _ _ (db_select_limit1_run _ _ _ _)).
    rewrite length_limit1. rewrite Hu, Hnone.
    rewrite (bind_run _ _ _ _ _ (db_select_limit1_run _ _ _ _)).
    rewrite length_limit1. cbn [w_db logged]. rewrite Hu, Hfind. simpl. auto.
Qed.

(** X9: [register] signs the bearer token last and undoes nothing: when it
    fails because [jwt.sign] has no secret, the user row is stored already,
    so that no later [register] of the same data can succeed. *)
Theorem register_fails_late_without_secret
    (now : Z) (salt tok : string) (data : userData) (w w' : world) :
  register cfg now salt tok data w
  = (Throw (Error "secretOrPrivateKey must have a value"), w') ->
  exists newUser,
    rows (users (w_db w')) = rows (users (w_db w)) ++ [newUser]
    /\ u_email newUser = email data /\ u_username newUser = username data
    /\ forall cfg2 now2 salt2 tok2,
         exists e2, (register cfg2 now2 salt2 tok2 data w').1 = Throw e2.
Proof.
  intros H.
  assert (Hstored : exists newUser,
            rows (users (w_db w')) = rows (users (w_db w)) ++ [newUser]
            /\ u_email newUser = email data
            /\ u_username newUser = username data).
  { unfold register in H.
    destruct (checkDailySignupLimit_run now w)
      as (lc & w1 & Hrun & Hall & Hmsg & _ & Hu & _ & _).
    rewrite (bind_run _ _ _ _ _ Hrun), Hall in H.
    destruct (over_limit cfg now (w_db w)); simpl in H.
    { rewrite Hmsg in H. discriminate. }
    rewrite (bind_run _ _ _ _ _ (db_select_limit1_run _ _ _ _)) in H.
    rewrite length_limit1 in H.
    destruct (List.find _ _) in H; [discriminate|].
    rewrite (bind_run _ _ _ _ _ (db_select_limit1_run _ _ _ _)) in H.
    rewrite length_limit1 in H.
    destruct (List.find _ _) in H; [discriminate|].
    cbv zeta in H.
    apply bind_throw in H as [H | (ins & w4 & Hins & H)].
    { rewrite db_insert_run in H. cbv zeta in H.
      destruct (users_ok _) in H; discriminate. }
    rewrite db_insert_run in Hins. cbv zeta in Hins.
    destruct (users_ok _) in Hins; [|discriminate].
    injection Hins as <- <-.
    apply bind_throw in H as [H | (newUser & w5 & Hlift & H)];
      [discriminate|].
    simpl in Hlift. injection Hlift as <- <-.
    apply bind_throw in H as [H | (ins2 & w6 & Htok & H)].
    { rewrite db_insert_run in H. cbv zeta in H.
      destruct (emailVerificationTokens_ok _) in H; discriminate. }
    apply bind_throw in H as [H | (u & w7 & Hinc & H)].
    { destruct (incrementSignupCount_returns now w6) as (w7 & Hinc).
      rewrite Hinc in H. discriminate. }
    apply bind_throw in H as [H | (jwt & w8 & Hjwt & H)]; [|discriminate].
    pose proof (preserves_at _ _ _ _ _ (generateJWT_same_db cfg _ _) H) as Hj.
    apply (preserves_at (same_table users)) in Htok;
      [|apply db_insert_same_table; reflexivity].
    apply (preserves_at _ _ _ _ _ (incrementSignupCount_same_users _)) in Hinc.
    unfold same_table, same_db in *. simpl in *.
    eexists. rewrite Hj, Hinc, Htok, Hu. repeat split; reflexivity. }
  destruct Hstored as (newUser & Hrows & Hemail & Hname).
  exists newUser. repeat split; try assumption.
  intros cfg2 now2 salt2 tok2.
  destruct (register cfg2 now2 salt2 tok2 data w') as [[r2|e2] w2] eqn:Hrun2;
    [|exists e2; reflexivity].
  exfalso. apply register_ok_store in Hrun2 as Hstore.
  unfold register in Hrun2.
  apply bind_ok in Hrun2 as (lc & w1 & Hcheck & Hrun2).
  destruct (negb (allowed lc)); [discriminate|].
  apply bind_ok in Hrun2 as (e1 & w3 & Hs1 & Hrun2).
  rewrite db_select_limit1_run in Hs1. injection Hs1 as <- <-.
  rewrite length_limit1 in Hrun2.
  destruct (List.find _ _) as [|] eqn:Hnone in Hrun2; [discriminate|].
  apply (preserves_at _ _ _ _ _ (checkDailySignupLimit_same_users cfg2 _))
    in Hcheck.
  unfold same_table in Hcheck. cbn [w_db logged] in Hnone.
  rewrite Hcheck, Hrows in Hnone.
  assert (Hin : newUser ∈ rows (users (w_db w)) ++ [newUser]).
  { apply elem_of_app. right. apply list_elem_of_singleton. reflexivity. }
  pose proof (find_none_elem _ _ _ Hnone Hin) as Hf. simpl in Hf.
  rewrite Hemail, String.eqb_refl in Hf. discriminate.
Qed.
End SignupRejections.

(** ** Deleting an account *)

Lemma gone_spec (uid : Z) (l : list user) (user : user) (x : Z) :
  List.find (fun u => u_id u =? uid) l = Some user ->
  bool_decide (x ∈ u_id <$> List.filter (fun u => u_id u =? uid) l)
  = (x =? uid).
Proof.
  intros Hfind. apply find_some_elem in Hfind as [Hin Hid].
  destruct (x =? uid) eqn:Hx.
  - apply bool_decide_eq_true. apply Z.eqb_eq in Hx, Hid. subst x.
    apply list_elem_of_fmap. exists user. split; [symmetry; exact Hid|].
    apply list_elem_of_In, filter_In. split.
    + apply list_elem_of_In. exact Hin.
    + apply Z.eqb_eq. exact Hid.
  - apply bool_decide_eq_false. intros Hmem.
    apply list_elem_of_fmap in Hmem as (y & -> & Hy).
    apply list_elem_of_In, filter_In in Hy as [_ Hy]. congruence.
Qed.

Lemma references_after_cascade {R} (f : R -> Z) (t : table R) (s s' : store)
    (uid : Z) :
  users s' = delete_where (fun u => u_id u =? uid) (users s) ->
  references_users f t s = true ->
  references_users f (delete_where (fun r => f r =? uid) t) s' = true.
Proof.
  intros Hu Href. unfold references_users in *. rewrite Hu.
  rewrite forallb_forall in *. intros r Hr. simpl in Hr.
  apply filter_In in Hr as [Hr Hne]. specialize (Href r Hr).
  apply bool_decide_eq_true in Href. apply bool_decide_eq_true.
  apply list_elem_of_fmap in Href as (u & Hid & Hin).
  apply list_elem_of_fmap. exists u. split; [exact Hid|]. simpl.
  apply list_elem_of_In, filter_In. split.
  - apply list_elem_of_In. exact Hin.
  - rewrite <- Hid. exact Hne.
Qed.

Lemma unique_on_delete_where {R A} `{EqDecision A} (f : R -> A) (P : R -> bool)
    (t : table R) :
  unique_on f t = true -> unique_on f (delete_where P t) = true.
Proof.
  unfold unique_on. rewrite !bool_decide_eq_true. simpl.
  apply NoDup_fmap_filter.
Qed.

Section AccountDeletion.
Context `{rt : Runtime}.

Lemma deleteAccount_run_missing uid password w :
  List.find (fun u => u_id u =? uid) (rows (users (w_db w))) = None ->
  deleteAccount uid password w
  = (Throw (Error "User not found"), logged (EvSelect Users) w).
Proof.
  intros Hfind. unfold deleteAccount.
  rewrite (bind_run _ _ _ _ _ (db_select_limit1_run _ _ _ _)).
  rewrite first_limit1. simpl. rewrite Hfind. reflexivity.
Qed.

Lemma deleteAccount_run_wrong uid password w user :
  List.find (fun u => u_id u =? uid) (rows (users (w_db w))) = Some user ->
  bcrypt_compare password (u_password user) = false ->
  deleteAccount uid password w
  = (Throw (Error "Invalid password"), logged (EvSelect Users) w).
Proof.
  intros Hfind Hpw. unfold deleteAccount.
  rewrite (bind_run _ _ _ _ _ (db_select_limit1_run _ _ _ _)).
  rewrite first_limit1. simpl. rewrite Hfind, Hpw. reflexivity.
Qed.

Lemma deleteAccount_run_ok uid password w user :
  List.find (fun u => u_id u =? uid) (rows (users (w_db w))) = Some user ->
  bcrypt_compare password (u_password user) = true ->
  exists w1,
    deleteAccount uid password w
    = (Ok (success "Account deleted successfully"), w1)
    /\ w_heap w1 = w_heap w
    /\ users (w_db w1) = delete_where (fun u => u_id u =? uid) (users (w_db w))
    /\ emailVerificationTokens (w_db w1)
       = delete_where (fun t => tk_userId t =? uid)
           (emailVerificationTokens (w_db w))
    /\ passwordResetTokens (w_db w1)
       = delete_where (fun t => tk_userId t =? uid)
           (passwordResetTokens (w_db w))
    /\ favorites (w_db w1)
       = delete_where (fun r => fv_userId r =? uid) (favorites (w_db w))
    /\ watchlist (w_db w1)
       = delete_where (fun r => wl_userId r =? uid) (watchlist (w_db w))
    /\ watchHistory (w_db w1)
       = delete_where (fun r => wh_userId r =? uid) (watchHistory (w_db w))
    /\ dailySignups (w_db w1) = dailySignups (w_db w).
Proof.
  intros Hfind Hpw. unfold deleteAccount.
  rewrite (bind_run _ _ _ _ _ (db_select_limit1_run _ _ _ _)).
  rewrite first_limit1. simpl. rewrite Hfind, Hpw. simpl.
  eexists. split; [reflexivity|]. simpl.
  split; [reflexivity|]. split; [reflexivity|].
  repeat split; unfold delete_where; f_equal; apply List.filter_ext;
    intros r; rewrite (gone_spec _ _ _ _ Hfind); reflexivity.
Qed.

(** X10: for a user id that the id column can hold and a password that is
    a string, a [deleteAccount] that is refused by the service itself, not
    by the store, has deleted nothing: it is refused either because no user
    has the id, with [Error "User not found"], or because the password does
    not match the stored hash, with [Error "Invalid password"], and heap
    and store are as they were. *)
Theorem deleteAccount_fails_cleanly
    (uid : Z) (password : string) (w : world) (e : error) :
  int4 uid = true ->
  (deleteAccount uid password w).1 = Throw e ->
  e <> StoreError ->
  ((e = Error "User not found"
    /\ List.find (fun u => u_id u =? uid) (rows (users (w_db w))) = None)
   \/ (e = Error "Invalid password"
       /\ exists user,
            List.find (fun u => u_id u =? uid) (rows (users (w_db w)))
            = Some user
            /\ bcrypt_compare password (u_password user) = false))
  /\ w_db (deleteAccount uid password w).2 = w_db w
  /\ w_heap (deleteAccount uid password w).2 = w_heap w.
Proof.
  intros _.
  destruct (List.find (fun u => u_id u =? uid) (rows (users (w_db w))))
    as [user|] eqn:Hfind.
  - destruct (bcrypt_compare password (u_password user)) eqn:Hpw.
    + destruct (deleteAccount_run_ok _ _ _ user Hfind Hpw) as (w1 & -> & _).
      discriminate.
    + rewrite (deleteAccount_run_wrong _ _ _ user Hfind Hpw).
      intros H _. injection H as <-. split; [|split; reflexivity].
      right. split; [reflexivity|]. exists user. split; [reflexivity | exact Hpw].
  - rewrite (deleteAccount_run_missing _ _ _ Hfind).
    intros H _. injection H as <-. split; [|split; reflexivity].
    left. split; reflexivity.
Qed.

(** X11: a [deleteAccount] with the right password removes the user and,
    by the cascade of the schema, every token, favorite, watchlist item and
    history entry the user owns, and nothing else; the constraints of the
    store still hold; [getUserById] no longer finds the user and, emails
    being unique, nobody logs in with the user's email. *)
Theorem deleteAccount_cascades
    (uid : Z) (password : string) (w : world) (user : user) :
  List.find (fun u => u_id u =? uid) (rows (users (w_db w))) = Some user ->
  bcrypt_compare password (u_password user) = true ->
  exists w1,
    deleteAccount uid password w
    = (Ok (success "Account deleted successfully"), w1)
    /\ users (w_db w1) = delete_where (fun u => u_id u =? uid) (users (w_db w))
    /\ emailVerificationTokens (w_db w1)
       = delete_where (fun t => tk_userId t =? uid)
           (emailVerificationTokens (w_db w))
    /\ passwordResetTokens (w_db w1)
       = delete_where (fun t => tk_userId t =? uid)
           (passwordResetTokens (w_db w))
    /\ favorites (w_db w1)
       = delete_where (fun r => fv_userId r =? uid) (favorites (w_db w))
    /\ watchlist (w_db w1)
       = delete_where (fun r => wl_userId r =? uid) (watchlist (w_db w))
    /\ watchHistory (w_db w1)
       = delete_where (fun r => wh_userId r =? uid) (watchHistory (w_db w))
    /\ dailySignups (w_db w1) = dailySignups (w_db w)
    /\ (store_ok (w_db w) = true -> store_ok (w_db w1) = true)
    /\ (getUserById uid w1).1 = Throw (Error "User not found")
    /\ (unique_on u_email (users (w_db w)) = true ->
        forall cfg now pw,
          (login cfg now (u_email user) pw w1).1
          = Throw (Error "Invalid credentials")).
Proof.
  intros Hfind Hpw.
  destruct (deleteAccount_run_ok _ _ _ user Hfind Hpw)
    as (w1 & Hrun & _ & Hu & Hev & Hpr & Hfv & Hwl & Hwh & Hds).
  exists w1. split; [exact Hrun|].
  do 7 (split; [assumption|]). split; [|split].
  - unfold store_ok, users_ok, emailVerificationTokens_ok,
      passwordResetTokens_ok, favorites_ok, watchlist_ok, watchHistory_ok,
      dailySignups_ok.
    rewrite Hev, Hpr, Hfv, Hwl, Hwh, Hds. rewrite !andb_true_iff.
    intros Hok. decompose [and] Hok. clear Hok. rewrite Hu.
    repeat split;
      first [ apply unique_on_delete_where; assumption
            | apply (references_after_cascade _ _ (w_db w)); assumption
            | assumption ].
  - unfold getUserById.
    rewrite (bind_run _ _ _ _ _ (db_select_limit1_run _ _ _ _)).
    rewrite first_limit1. rewrite Hu. simpl.
    rewrite find_none; [reflexivity|].
    intros x Hx. apply list_elem_of_In, filter_In in Hx as [_ Hx].
    apply negb_true_iff in Hx. exact Hx.
  - intros Huniq cfg now pw. unfold login.
    rewrite (bind_run _ _ _ _ _ (db_select_limit1_run _ _ _ _)).
    rewrite first_limit1. rewrite Hu. simpl.
    rewrite find_none; [reflexivity|].
    intros x Hx. apply list_elem_of_In, filter_In in Hx as [Hx Hne].
    apply list_elem_of_In in Hx.
    destruct (String.eqb (u_email x) (u_email user)) eqn:He; [|reflexivity].
    apply String.eqb_eq in He. apply bool_decide_eq_true in Huniq.
    apply find_some_elem in Hfind as [Hin Hid].
    assert (x = user) as -> by (eapply (unique_inj u_email); eauto).
    rewrite Hid in Hne. discriminate.
Qed.
End AccountDeletion.

(** ** Bearer tokens: [jwt.js] and the authentication middleware *)

Lemma split_spaces_nonempty s : split_spaces s <> [].
Proof.
  destruct s as [|c s]; simpl; [discriminate|].
  destruct (Ascii.eqb c " "); [discriminate|].
  destruct (split_spaces s); discriminate.
Qed.

Lemma spaceless_cons c t :
  spaceless (String c t) = negb (Ascii.eqb c " ") && spaceless t.
Proof. reflexivity. Qed.

Lemma split_spaces_spaceless t : spaceless t = true -> split_spaces t = [t].
Proof.
  induction t as [|c t IH]; [reflexivity|].
  rewrite spaceless_cons. intros H. apply andb_true_iff in H as [Hc Ht].
  apply negb_true_iff in Hc. simpl. rewrite Hc, (IH Ht). reflexivity.
Qed.

Lemma split_spaces_cons a b :
  spaceless a = true ->
  split_spaces (a +:+ String " " b) = a :: split_spaces b.
Proof.
  induction a as [|c a IH]; [reflexivity|].
  rewrite spaceless_cons. intros H. apply andb_true_iff in H as [Hc Ha].
  apply negb_true_iff in Hc. simpl. rewrite Hc, (IH Ha). reflexivity.
Qed.

Lemma split_spaces_head s : forall a rest,
  split_spaces s = a :: rest ->
  spaceless a = true
  /\ ((rest = [] /\ s = a)
      \/ exists b, s = a +:+ String " " b /\ split_spaces b = rest).
Proof.
  induction s as [|c s IH]; intros a rest; simpl.
  - intros H. injection H as <- <-. split; [reflexivity | left; auto].
  - destruct (Ascii.eqb c " ") eqn:Hc.
    + intros H. injection H as <- <-. apply Ascii.eqb_eq in Hc. subst c.
      split; [reflexivity|]. right. exists s. split; reflexivity.
    + destruct (split_spaces s) as [|part parts] eqn:Hs.
      { exfalso. exact (split_spaces_nonempty s Hs). }
      intros H. injection H as <- <-.
      destruct (IH part parts eq_refl) as [Hp Hrest]. split.
      * rewrite spaceless_cons, Hc. exact Hp.
      * destruct Hrest as [[-> ->] | (b & -> & Hb)];
          [left; auto | right; exists b; auto].
Qed.

Lemma extractTokenFromHeader_bearer t :
  spaceless t = true ->
  extractTokenFromHeader (Some ("Bearer " +:+ t)) = Some t.
Proof.
  intros Ht. unfold extractTokenFromHeader.
  change ("Bearer " +:+ t) with (String "B" ("earer" +:+ String " " t)).
  change (String "B" ("earer" +:+ String " " t))
    with ("Bearer" +:+ String " " t) at 2.
  rewrite split_spaces_cons by reflexivity.
  rewrite (split_spaces_spaceless t Ht). reflexivity.
Qed.

Lemma extractTokenFromHeader_some h t :
  extractTokenFromHeader h = Some t ->
  h = Some ("Bearer " +:+ t) /\ spaceless t = true.
Proof.
  unfold extractTokenFromHeader. destruct h as [[|c s]|]; try discriminate.
  destruct (split_spaces (String c s)) as [|scheme [|tok [|x l]]] eqn:Hsplit;
    try discriminate.
  destruct (String.eqb scheme "Bearer") eqn:Hscheme; [|discriminate].
  intros H. injection H as <-. apply String.eqb_eq in Hscheme. subst scheme.
  apply split_spaces_head in Hsplit as [_ [[H _] | (b & Hs & Hb)]];
    [discriminate|].
  apply split_spaces_head in Hb as [Htok [[_ Hb] | (b' & _ & Hb')]].
  - subst b. rewrite Hs. split; [reflexivity | exact Htok].
  - exfalso. exact (split_spaces_nonempty b' Hb').
Qed.

(** X12: [extractTokenFromHeader] returns a token exactly for the headers
    made of [Bearer], one space and a token without a space; for every
    other header, and for a missing one, it returns [null]. *)
Theorem extractTokenFromHeader_spec (h : option string) (t : string) :
  extractTokenFromHeader h = Some t
  <-> h = Some ("Bearer " +:+ t) /\ spaceless t = true.
Proof.
  split.
  - apply extractTokenFromHeader_some.
  - intros [-> Ht]. apply extractTokenFromHeader_bearer. exact Ht.
Qed.

Section Bearer.
Context `{laws : RuntimeLaws}.
Context `{ins : Inspect} `{!InspectLaws ins}.
Variable cfg : env.
Variable engine : error -> thrown.

Lemma verifyToken_signed t secret claims :
  JWT_SECRET cfg = Some secret -> secret <> "" ->
  verifyToken cfg t (jwt_encode secret claims)
  = if t / 1000 <? exp claims then Ok claims
    else Throw (Error "Token has expired").
Proof.
  intros Hs Hne. unfold verifyToken. rewrite Hs.
  destruct secret as [|c s]; [done|]. rewrite jwt_decode_encode.
  destruct (exp claims <=? t / 1000) eqn:Hle;
    destruct (t / 1000 <? exp claims) eqn:Hlt; try reflexivity; lia.
Qed.

(** X13: a token [generateToken] returns is accepted by [verifyToken], with
    the user id it was made for, at every instant before its lifetime has
    passed and refused as expired from then on; with no lifetime given it is
    the token [generateJWT] of the service signs at that instant. *)
Theorem generateToken_verifyToken
    (now uid : Z) (expiresIn : option string) (tok : string) :
  generateToken cfg now uid expiresIn = Ok tok ->
  exists ttl,
    timespan (env_or expiresIn (env_or (JWT_EXPIRES_IN cfg) "7d")) = Some ttl
    /\ (forall t,
          verifyToken cfg t tok
          = if t / 1000 <? now / 1000 + ttl
            then Ok {| userId := uid; iat := now / 1000;
                       exp := now / 1000 + ttl |}
            else Throw (Error "Token has expired"))
    /\ (expiresIn = None -> forall w, generateJWT cfg now uid w = (Ok tok, w)).
Proof.
  unfold generateToken.
  destruct (JWT_SECRET cfg) as [secret|] eqn:Hs; [|discriminate].
  destruct secret as [|c s] eqn:Hsecret; [discriminate|].
  destruct (timespan _) as [ttl|] eqn:Ht; [|discriminate].
  intros H. injection H as <-. exists ttl. split; [reflexivity|]. split.
  - intros t. rewrite (verifyToken_signed t _ _ Hs) by discriminate.
    reflexivity.
  - intros -> w. simpl in Ht. apply generateJWT_run; [exact Hs | discriminate|].
    exact Ht.
Qed.

(** X14: on a token signed with the configured secret, at an instant that
    is not before the epoch, [isTokenExpired] says expired exactly when
    [verifyToken] refuses the token as expired. *)
Theorem isTokenExpired_agrees_with_verifyToken
    (t : Z) (secret : string) (claims : jwt_claims) :
  JWT_SECRET cfg = Some secret -> secret <> "" -> 0 <= t ->
  isTokenExpired t (jwt_encode secret claims) = true
  <-> verifyToken cfg t (jwt_encode secret claims)
      = Throw (Error "Token has expired").
Proof.
  intros Hs Hne Hnow. rewrite (verifyToken_signed t _ _ Hs Hne).
  unfold isTokenExpired, decodeToken. rewrite jwt_payload_encode.
  destruct (exp claims =? 0) eqn:Hz.
  - apply Z.eqb_eq in Hz. rewrite Hz.
    destruct (t / 1000 <? 0) eqn:Hlt; [|tauto].
    apply Z.ltb_lt in Hlt. assert (0 <= t / 1000) by (apply Z.div_pos; lia).
    lia.
  - destruct (t / 1000 <? exp claims) eqn:Hlt.
    + apply Z.ltb_lt in Hlt. split; [|discriminate].
      intros H. apply Z.leb_le in H.
      assert (exp claims <= t / 1000) by (apply Z.div_le_lower_bound; lia).
      lia.
    + apply Z.ltb_ge in Hlt. split; [reflexivity|]. intros _.
      apply Z.leb_le.
      pose proof (Z.mul_div_le t 1000 ltac:(lia)). nia.
Qed.

Lemma login_ok now email password w r w1 :
  login cfg now email password w = (Ok r, w1) ->
  exists user secret ttl,
    List.find (fun u => String.eqb (u_email u) email) (rows (users (w_db w)))
    = Some user
    /\ bcrypt_compare password (u_password user) = true
    /\ JWT_SECRET cfg = Some secret /\ secret <> ""
    /\ timespan (env_or (JWT_EXPIRES_IN cfg) "7d") = Some ttl
    /\ r = {| login_user := without_password (user_obj user);
              login_token :=
                jwt_encode secret {| userId := u_id user; iat := now / 1000;
                                     exp := now / 1000 + ttl |} |}
    /\ w1 = logged (EvSelect Users) w.
Proof.
  unfold login.
  rewrite (bind_run _ _ _ _ _ (db_select_limit1_run _ _ _ _)).
  rewrite first_limit1. cbn [w_db logged].
  destruct (List.find _ _) as [user|]; [|discriminate]. simpl.
  destruct (bcrypt_compare password (u_password user)) eqn:Hpw;
    [|discriminate]. simpl.
  intros H. apply bind_ok in H as (jwt & w2 & Hjwt & H).
  injection H as <- <-.
  apply generateJWT_ok in Hjwt as (secret & ttl & Hs & Hne & Ht & -> & ->).
  exists user, secret, ttl. auto 10.
Qed.

Lemma authenticate_run_verified now tok claims w :
  spaceless tok = true -> tok <> "" ->
  verifyToken cfg now tok = Ok claims ->
  authenticate cfg engine now (Some ("Bearer " +:+ tok)) w
  = (Ok (match List.find (fun u => u_id u =? userId claims)
                 (rows (users (w_db w))) with
         | Some user =>
             Next (Some (without_password (user_obj user), u_id user))
         | None => Responded 401 (failure "User not found")
         end),
     logged (EvSelect Users) w).
Proof.
  intros Hsp Hne Hv. unfold authenticate, catch.
  rewrite (extractTokenFromHeader_bearer _ Hsp).
  destruct tok as [|c tok]; [done|].
  unfold bind at 1, lift_outcome. rewrite Hv.
  rewrite (bind_run _ _ _ _ _ (db_select_limit1_run _ _ _ _)).
  rewrite first_limit1. cbn [w_db logged].
  destruct (List.find _ _); reflexivity.
Qed.

(** X15: [authenticate] never throws and never writes: it lets a request
    through only with the user found under the id of a bearer token that
    [verifyToken] accepts, and every refusal is a 401 with a
    [{ success: false, error }] body. *)
Theorem authenticate_sound (now : Z) (authorization : option string) (w : world) :
  exists h w',
    authenticate cfg engine now authorization w = (Ok h, w')
    /\ w_db w' = w_db w /\ w_heap w' = w_heap w
    /\ match h with
       | Next None => False
       | Next (Some (o, uid)) =>
           exists tok claims user,
             authorization = Some ("Bearer " +:+ tok)
             /\ verifyToken cfg now tok = Ok claims
             /\ userId claims = uid
             /\ user ∈ rows (users (w_db w)) /\ u_id user = uid
             /\ o = without_password (user_obj user)
       | Responded st b => st = 401 /\ exists msg, b = failure msg
       end.
Proof.
  unfold authenticate, catch.
  destruct (extractTokenFromHeader authorization) as [tok|] eqn:Hex.
  2:{ eexists _, _. split; [reflexivity|]. simpl. eauto. }
  apply extractTokenFromHeader_some in Hex as [-> Hsp].
  destruct tok as [|c tok].
  { eexists _, _. split; [reflexivity|]. simpl. eauto. }
  unfold bind at 1, lift_outcome.
  destruct (verifyToken cfg now (String c tok)) as [claims|e] eqn:Hv.
  2:{ eexists _, _. split; [reflexivity|]. simpl. eauto. }
  rewrite (bind_run _ _ _ _ _ (db_select_limit1_run _ _ _ _)).
  rewrite first_limit1. cbn [w_db logged].
  destruct (List.find _ _) as [user|] eqn:Hfind.
  2:{ eexists _, _. split; [reflexivity|]. simpl. eauto. }
  apply find_some_elem in Hfind as [Hin Hid]. apply Z.eqb_eq in Hid.
  eexists _, _. split; [reflexivity|]. simpl.
  split; [reflexivity|]. split; [reflexivity|].
  exists (String c tok), claims, user. auto 10.
Qed.

(** X16: the bearer token of a login opens [authenticate] until it expires:
    ids being unique, the request carries the user object the login
    returned and that user's id. *)
Theorem login_then_authenticate
    (now : Z) (email password : string) (w w1 : world) (r : loggedIn) :
  login cfg now email password w = (Ok r, w1) ->
  spaceless (login_token r) = true -> login_token r <> "" ->
  unique_on u_id (users (w_db w)) = true ->
  exists uid ttl,
    login_user r !! "id" = Some (JNum uid)
    /\ timespan (env_or (JWT_EXPIRES_IN cfg) "7d") = Some ttl
    /\ forall t, t / 1000 < now / 1000 + ttl ->
         authenticate cfg engine t (Some ("Bearer " +:+ login_token r)) w1
         = (Ok (Next (Some (login_user r, uid))), logged (EvSelect Users) w1).
Proof.
  intros Hlogin Hsp Hne Huniq.
  apply login_ok in Hlogin
    as (user & secret & ttl & Hfind & _ & Hs & Hsne & Ht & -> & ->).
  simpl in *. exists (u_id user), ttl.
  split; [apply user_projection_id|]. split; [exact Ht|].
  intros t Hlt.
  rewrite (authenticate_run_verified t _
             {| userId := u_id user; iat := now / 1000;
                exp := now / 1000 + ttl |} _ Hsp Hne).
  - cbn [w_db logged userId].
    apply find_some_elem in Hfind as [Hin _].
    apply bool_decide_eq_true in Huniq.
    rewrite (find_unique u_id _ _ user Huniq Hin (Z.eqb_refl _)).
    + reflexivity.
    + intros x Hx. apply Z.eqb_eq in Hx. exact Hx.
  - rewrite (verifyToken_signed t _ _ Hs Hsne). simpl.
    apply Z.ltb_lt in Hlt. rewrite Hlt. reflexivity.
Qed.

(** X17: [optionalAuth] never answers and never throws: it attaches a user
    exactly when [authenticate] would let the request through, the same
    user, and goes on without one otherwise. *)
Theorem optionalAuth_follows_authenticate
    (now : Z) (authorization : option string) (w : world) :
  optionalAuth cfg now authorization w
  = match authenticate cfg engine now authorization w with
    | (Ok (Next attached), w') => (Ok (Next attached), w')
    | (_, w') => (Ok (Next None), w')
    end.
Proof.
  unfold optionalAuth, authenticate, catch.
  destruct (extractTokenFromHeader authorization) as [[|c tok]|];
    try reflexivity.
  unfold bind at 1 3, lift_outcome.
  destruct (verifyToken cfg now (String c tok)) as [claims|e]; [|reflexivity].
  rewrite !(bind_run _ _ _ _ _ (db_select_limit1_run _ _ _ _)).
  destruct (first _); reflexivity.
Qed.

(** X18: once an account is deleted, a bearer token of its user that
    [verifyToken] still accepts no longer opens [authenticate]: the answer
    is 401 [User not found]. *)
Theorem deleteAccount_then_authenticate
    (uid : Z) (password : string) (w w1 : world) (o : jsobj)
    (now : Z) (tok : string) (claims : jwt_claims) :
  deleteAccount uid password w = (Ok o, w1) ->
  spaceless tok = true -> tok <> "" ->
  verifyToken cfg now tok = Ok claims -> userId claims = uid ->
  authenticate cfg engine now (Some ("Bearer " +:+ tok)) w1
  = (Ok (Responded 401 (failure "User not found")), logged (EvSelect Users) w1).
Proof.
  intros Hdel Hsp Hne Hv Hid.
  rewrite (authenticate_run_verified now tok claims w1 Hsp Hne Hv).
  destruct (List.find (fun u => u_id u =? uid) (rows (users (w_db w))))
    as [user|] eqn:Hfind.
  2:{ rewrite (deleteAccount_run_missing _ _ _ Hfind) in Hdel. discriminate. }
  destruct (bcrypt_compare password (u_password user)) eqn:Hpw.
  2:{ rewrite (deleteAccount_run_wrong _ _ _ user Hfind Hpw) in Hdel.
      discriminate. }
  destruct (deleteAccount_run_ok _ _ _ user Hfind Hpw)
    as (w1' & Hrun & _ & Hu & _).
  rewrite Hrun in Hdel. injection Hdel as _ <-.
  rewrite Hu, Hid. simpl. rewrite find_none; [reflexivity|].
  intros x Hx. apply list_elem_of_In, filter_In in Hx as [_ Hx].
  apply negb_true_iff in Hx. exact Hx.
Qed.
End Bearer.

(** ** What the client is answered *)

Lemma user_projection_email u :
  prop (without_password (user_obj u)) "email" = JStr (u_email u).
Proof.
  unfold prop, without_password. rewrite lookup_delete_ne by done.
  unfold user_obj. simpl. rewrite !lookup_insert_ne by done.
  rewrite lookup_insert_eq. reflexivity.
Qed.

Lemma user_projection_username u :
  prop (without_password (user_obj u)) "username" = JStr (u_username u).
Proof.
  unfold prop, without_password. rewrite lookup_delete_ne by done.
  unfold user_obj. simpl. rewrite !lookup_insert_ne by done.
  rewrite lookup_insert_eq. reflexivity.
Qed.

(** X19: in production [errorHandler] discloses nothing of an error but its
    kind: two errors of the same name, unless they are validation errors,
    are answered with the same status and the same body, whatever their
    messages and stacks, and the body has no [stack]. *)
Theorem errorHandler_production_hides (err err' : thrown) :
  err_name err = err_name err' ->
  err_name err <> "ValidationError" ->
  errorHandler (Some "production") err = errorHandler (Some "production") err'
  /\ (errorHandler (Some "production") err).2 !! "stack" = None
  /\ ((errorHandler (Some "production") err).1 = 500 ->
      (errorHandler (Some "production") err).2
      = failure "Internal server error").
Proof.
  intros Hn Hv. unfold errorHandler. rewrite <- Hn.
  destruct (String.eqb (err_name err) "ValidationError") eqn:H1.
  { apply String.eqb_eq in H1. contradiction. }
  rewrite (bool_decide_eq_true_2 (Some "production" = Some "production"))
    by reflexivity.
  rewrite (bool_decide_eq_false_2 (Some "production" = Some "development"))
    by discriminate.
  destruct (String.eqb (err_name err) "UnauthorizedError");
    [|destruct (String.eqb (err_name err) "ForbiddenError");
      [|destruct (negb (String.eqb (err_message err) ""));
        destruct (negb (String.eqb (err_message err') ""))]];
    simpl; repeat split; try reflexivity; discriminate.
Qed.

Section Responses.
Context `{laws : RuntimeLaws}.
Variable cfg : env.
Variable NODE_ENV : option string.
Variable engine : error -> thrown.

Lemma with_errorHandler_Error (m : M answered) w msg w' :
  m w = (Throw (Error msg), w') ->
  exists a,
    with_errorHandler NODE_ENV engine m w = (Ok a, w')
    /\ status a = 500 /\ mails a = []
    /\ body a !! "success" = Some (JBool false)
    /\ body a !! "error"
       = Some (JStr (if bool_decide (NODE_ENV = Some "production")
                        || String.eqb msg ""
                     then "Internal server error" else msg)).
Proof.
  intros Hm. unfold with_errorHandler, catch. rewrite Hm.
  unfold errorHandler, thrown_of. cbn [err_name err_message err_stack].
  change (String.eqb "Error" "ValidationError") with false.
  change (String.eqb "Error" "UnauthorizedError") with false.
  change (String.eqb "Error" "ForbiddenError") with false.
  cbv iota.
  destruct (String.eqb msg ""); cbn [negb]; cbv iota beta zeta;
    change (500 =? 500) with true; rewrite ?andb_true_r, ?orb_true_r, ?orb_false_r;
    destruct (bool_decide (NODE_ENV = Some "production"));
    destruct (bool_decide (NODE_ENV = Some "development"));
    eexists; (split; [reflexivity|]); cbn [status mails body];
    repeat split; try reflexivity;
    rewrite ?lookup_insert_ne by done; reflexivity.
Qed.

(** X20: with [errorHandler] behind the login route, wrong credentials are
    answered with status 500, not 401: the body says [Invalid credentials],
    or [Internal server error] in production, no mail is sent and the store
    is as it was. *)
Theorem bad_credentials_answered_500
    (now : Z) (email password : string) (w : world) :
  (List.find (fun u => String.eqb (u_email u) email) (rows (users (w_db w)))
   = None
   \/ exists u,
        List.find (fun u => String.eqb (u_email u) email)
          (rows (users (w_db w))) = Some u
        /\ bcrypt_compare password (u_password u) = false) ->
  exists a w',
    with_errorHandler NODE_ENV engine (route_login cfg now email password) w
    = (Ok a, w')
    /\ w_db w' = w_db w
    /\ status a = 500 /\ mails a = []
    /\ body a !! "success" = Some (JBool false)
    /\ body a !! "error"
       = Some (JStr (if bool_decide (NODE_ENV = Some "production")
                     then "Internal server error"
                     else "Invalid credentials")).
Proof.
  intros Hbad.
  assert (Hlogin : login cfg now email password w
                   = (Throw (Error "Invalid credentials"),
                      logged (EvSelect Users) w)).
  { unfold login.
    rewrite (bind_run _ _ _ _ _ (db_select_limit1_run _ _ _ _)).
    rewrite first_limit1. cbn [w_db logged].
    destruct Hbad as [-> | (u & -> & Hpw)]; [reflexivity|].
    simpl. rewrite Hpw. reflexivity. }
  destruct (with_errorHandler_Error (route_login cfg now email password) w
              "Invalid credentials" (logged (EvSelect Users) w))
    as (a & Hrun & Hst & Hmails & Hsucc & Herr).
  { unfold route_login, bind. rewrite Hlogin. reflexivity. }
  exists a, (logged (EvSelect Users) w).
  split; [exact Hrun|]. split; [reflexivity|].
  rewrite orb_false_r in Herr. auto.
Qed.

(** X21: the forgot-password route answers every request it answers with
    the same status and body; ids being unique, it hands a reset mail to
    the email service exactly when a user has the address, to that address,
    with the token it stored, and for an unknown address it leaves the
    store as it was. *)
Theorem forgot_password_route
    (now : Z) (tok email : string) (w w' : world) (a : answered) :
  route_forgot_password now tok email w = (Ok a, w') ->
  tok <> "" -> unique_on u_id (users (w_db w)) = true ->
  status a = 200
  /\ body a = success "If an account exists, a reset link will be sent."
  /\ match List.find (fun u => String.eqb (u_email u) email)
             (rows (users (w_db w))) with
     | None => mails a = [] /\ w_db w' = w_db w
     | Some user =>
         mails a = [PasswordResetEmail (JStr (u_email user))
                      (JStr (u_username user)) tok]
         /\ exists t, t ∈ rows (passwordResetTokens (w_db w'))
                      /\ tk_token t = tok /\ tk_userId t = u_id user
     end.
Proof.
  intros Hrun Hne Huniq. unfold route_forgot_password in Hrun.
  destruct (List.find (fun u => String.eqb (u_email u) email)
              (rows (users (w_db w)))) as [user|] eqn:Hfind.
  - unfold bind at 1 in Hrun.
    rewrite (requestPasswordReset_known _ _ _ _ user Hfind) in Hrun.
    cbv zeta in Hrun.
    destruct (passwordResetTokens_ok _) in Hrun; [|discriminate].
    cbn [rr_resetToken rr_userId rr_message] in Hrun.
    destruct (String.eqb tok "") eqn:Hempty in Hrun.
    { apply String.eqb_eq in Hempty. contradiction. }
    apply find_some_elem in Hfind as [Hin _].
    apply bool_decide_eq_true in Huniq.
    match type of Hrun with
    | _ ?W = _ =>
        assert (Hget : getUserById (u_id user) W
                       = (Ok (without_password (user_obj user)),
                          logged (EvSelect Users) W))
    end.
    { apply getUserById_run.
      cbn [w_db logged stored users set_passwordResetTokens].
      apply (find_unique u_id _ _ user Huniq Hin (Z.eqb_refl _)).
      intros x Hx. apply Z.eqb_eq in Hx. exact Hx. }
    unfold bind in Hrun. rewrite Hget in Hrun. unfold ret in Hrun.
    injection Hrun as <- <-. cbn [status body mails].
    rewrite user_projection_email, user_projection_username.
    split; [reflexivity|]. split; [reflexivity|]. split; [reflexivity|].
    eexists. split.
    + cbn [w_db logged stored passwordResetTokens set_passwordResetTokens].
      unfold insert_into. cbn [rows]. apply elem_of_app. right.
      apply list_elem_of_singleton. reflexivity.
    + split; reflexivity.
  - unfold bind at 1 in Hrun.
    rewrite (requestPasswordReset_unknown _ _ _ _ Hfind) in Hrun.
    injection Hrun as <- <-. repeat split; reflexivity.
Qed.

(** X22: the signup throttle fails open: when the configured limit does not
    parse as a number, and on a day that has no counter row yet, the check
    allows the registration, whatever the counts. *)
Theorem signup_limit_fails_open (now : Z) (w : world) :
  parseInt (env_or (DAILY_SIGNUP_LIMIT cfg) "300") = None
  \/ List.find (todays now) (rows (dailySignups (w_db w))) = None ->
  exists lc w1,
    checkDailySignupLimit cfg now w = (Ok lc, w1) /\ allowed lc = true
    /\ message lc = None.
Proof.
  intros Hopen.
  destruct (checkDailySignupLimit_run cfg now w)
    as (lc & w1 & Hrun & Hall & Hmsg & _).
  exists lc, w1. split; [exact Hrun|].
  assert (Hover : over_limit cfg now (w_db w) = false).
  { unfold over_limit.
    change (fun r : dailySignup => String.eqb (ds_date r) (toISODate now))
      with (todays now).
    destruct Hopen as [-> | ->]; [|reflexivity].
    destruct (List.find _ _); reflexivity. }
  rewrite Hover in Hall, Hmsg. auto.
Qed.

(** X23: [login], [getUserById] and [fetchUserData] only read: whatever
    they return, heap and store are as they were. *)
Theorem reads_keep_the_store
    (now : Z) (email password : string) (uid : Z) (w : world) :
  (w_db (login cfg now email password w).2 = w_db w
   /\ w_heap (login cfg now email password w).2 = w_heap w)
  /\ (w_db (getUserById uid w).2 = w_db w
      /\ w_heap (getUserById uid w).2 = w_heap w)
  /\ (w_db (fetchUserData uid w).2 = w_db w
      /\ w_heap (fetchUserData uid w).2 = w_heap w).
Proof.
  split; [|split].
  - unfold login.
    rewrite (bind_run _ _ _ _ _ (db_select_limit1_run _ _ _ _)).
    destruct (first _) as [user|]; [|split; reflexivity].
    cbv zeta. destruct (negb _); [split; reflexivity|].
    unfold bind, generateJWT.
    destruct (JWT_SECRET cfg) as [[|c s]|]; try (split; reflexivity).
    destruct (timespan _); split; reflexivity.
  - unfold getUserById.
    rewrite (bind_run _ _ _ _ _ (db_select_limit1_run _ _ _ _)).
    destruct (first _); split; reflexivity.
  - rewrite fetchUserData_run. split; reflexivity.
Qed.
End Responses.

(** ** Profile names and repeated reset requests *)

Lemma db_update_ok {R} name (get : store -> table R) set check P f w upd w' :
  db_update name get set check P (Some f) w = (Ok upd, w') ->
  exists rows',
    mapM (fun r => if P r then f r else Some r) (rows (get (w_db w)))
    = Some rows'
    /\ check (set {| rows := rows'; serial := serial (get (w_db w)) |} (w_db w))
       = true
    /\ w_db w' = set {| rows := rows'; serial := serial (get (w_db w)) |} (w_db w)
    /\ upd = omap (fun r => if P r then f r else None) (rows (get (w_db w))).
Proof.
  unfold db_update, bind, emit, get_db. simpl.
  destruct (mapM _ _) as [rows'|]; [|discriminate].
  match goal with |- context [if ?c then _ else _] => destruct c eqn:Hc end;
    [|discriminate].
  simpl. intros H. injection H as <- <-. exists rows'. auto.
Qed.

Lemma updated_row_stored {R} (P : R -> bool) (f : R -> option R)
    (l l' : list R) (x : R) :
  mapM (fun r => if P r then f r else Some r) l = Some l' ->
  x ∈ omap (fun r => if P r then f r else None) l ->
  x ∈ l' /\ exists r, r ∈ l /\ P r = true /\ f r = Some x.
Proof.
  intros Hm. apply mapM_Some in Hm.
  induction Hm as [|r r' l l' Hr _ IH]; simpl; [intros H; inversion H|].
  destruct (P r) eqn:HP.
  - rewrite Hr. intros H. apply elem_of_cons in H as [->|H].
    + split; [apply elem_of_cons; left; reflexivity|].
      exists r. split; [apply elem_of_cons; left; reflexivity | auto].
    + destruct (IH H) as (Hin & r0 & Hr0 & HP0 & Hf0).
      split; [apply elem_of_cons; right; exact Hin|].
      exists r0. split; [apply elem_of_cons; right; exact Hr0 | auto].
  - intros H. destruct (IH H) as (Hin & r0 & Hr0 & HP0 & Hf0).
    split; [apply elem_of_cons; right; exact Hin|].
    exists r0. split; [apply elem_of_cons; right; exact Hr0 | auto].
Qed.

Lemma encode_user_set_isVerified (m : jsobj) us (b : bool) :
  m !! "isVerified" = Some (JBool b) ->
  encode_user_set m = Some us -> us_isVerified us = SetTo b.
Proof.
  intros Hv Henc. unfold encode_user_set in Henc.
  rewrite Hv in Henc. cbn [set_with as_bool fmap option_fmap option_map] in Henc.
  repeat match type of Henc with
         | context [set_with ?f (m !! ?k)] =>
             destruct (set_with f (m !! k)); simpl in Henc; [|discriminate]
         end.
  injection Henc as <-. reflexivity.
Qed.

Section ProfileNames.
Context `{rt : Runtime}.

#[local] Arguments update_where : simpl never.
#[local] Arguments insert_into : simpl never.

(** X26: [updateProfile] strips [email] and [password] from the patch and
    nothing else: a patch that carries [isVerified: true] marks the user
    verified with no verification token, the returned object says so, and a
    resend for that user is then refused as already verified. *)
Theorem updateProfile_verifies_without_token
    (now uid : Z) (updates : positive) (w w' : world) (patch o : jsobj) :
  w_heap w !! updates = Some patch ->
  patch !! "isVerified" = Some (JBool true) ->
  updateProfile now uid updates w = (Ok o, w') ->
  o !! "isVerified" = Some (JBool true)
  /\ exists u,
       u ∈ rows (users (w_db w')) /\ o = without_password (user_obj u)
       /\ u_isVerified u = Some true
       /\ forall now2 tok,
            (resendVerificationEmail now2 tok (u_id u) w').1
            = Throw (Error "Email already verified").
Proof.
  intros Hpatch Hv Hrun. unfold updateProfile in Hrun.
  rewrite (bind_run _ _ _ _ _ (obj_delete_run _ "email" _ _ Hpatch)) in Hrun.
  erewrite bind_run in Hrun;
    [|apply obj_delete_run; simpl; apply lookup_insert_eq].
  erewrite bind_run in Hrun;
    [|apply obj_read_run; simpl; apply lookup_insert_eq].
  apply bind_ok in Hrun as (u0 & w3 & _ & Hrun).
  apply bind_ok in Hrun as (updated & w4 & Hupd & Hrun).
  apply bind_ok in Hrun as (updatedUser & w5 & Hlift & Hrun).
  injection Hrun as <- <-.
  destruct (first updated) as [x|] eqn:Hfirst; [|discriminate].
  injection Hlift as <- <-.
  destruct (encode_user_set _) as [us|] eqn:Henc in Hupd; [|discriminate].
  apply encode_user_set_isVerified with (b := true) in Henc.
  2:{ rewrite lookup_insert_ne by done. rewrite !lookup_delete_ne by done.
      exact Hv. }
  apply db_update_ok in Hupd as (rows' & Hm & Hok & Hdb & ->).
  assert (Hx : x ∈ omap (fun r => if u_id r =? uid then apply_user_set us r
                                  else None) (rows (users (w_db w3)))).
  { unfold first in Hfirst. apply head_Some_elem_of in Hfirst. exact Hfirst. }
  destruct (updated_row_stored _ _ _ _ _ Hm Hx) as (Hin & r & _ & _ & Hr).
  assert (Hver : u_isVerified x = Some true).
  { unfold apply_user_set in Hr. rewrite Henc in Hr.
    destruct (assign_notnull (us_id us) (u_id r)); [|discriminate].
    simpl in Hr.
    destruct (assign_notnull (us_email us) (u_email r)); [|discriminate].
    simpl in Hr.
    destruct (assign_notnull (us_username us) (u_username r)); [|discriminate].
    simpl in Hr.
    destruct (assign_notnull (us_password us) (u_password r)); [|discriminate].
    simpl in Hr. injection Hr as <-. reflexivity. }
  split; [rewrite user_projection_isVerified, Hver; reflexivity|].
  exists x. rewrite Hdb. cbn [users set_users rows].
  split; [exact Hin|]. split; [reflexivity|]. split; [exact Hver|].
  intros now2 tok.
  erewrite resendVerificationEmail_run_verified; [reflexivity | | ].
  - rewrite Hdb. cbn [users set_users rows].
    unfold users_set_ok, users_ok in Hok. rewrite !andb_true_iff in Hok.
    cbn [users set_users] in Hok.
    destruct Hok as [[[[[[[Hids _] _] _] _] _] _] _].
    apply bool_decide_eq_true in Hids. cbn [rows] in Hids.
    apply (find_unique u_id _ _ x Hids Hin (Z.eqb_refl _)).
    intros y Hy. apply Z.eqb_eq in Hy. exact Hy.
  - rewrite Hver. reflexivity.
Qed.

(** X24: [updateProfile] does not let a user take a name another user
    holds: it fails with [Error "Username already taken"] before it writes
    to the store. *)
Theorem updateProfile_refuses_taken_username
    (now uid : Z) (updates : positive) (w : world) (patch : jsobj)
    (name : string) (holder : user) :
  w_heap w !! updates = Some patch ->
  patch !! "username" = Some (JStr name) -> name <> "" ->
  List.find (fun u => String.eqb (u_username u) name) (rows (users (w_db w)))
  = Some holder ->
  u_id holder <> uid ->
  (updateProfile now uid updates w).1 = Throw (Error "Username already taken")
  /\ w_db (updateProfile now uid updates w).2 = w_db w.
Proof.
  intros Hpatch Hname Hne Hfind Hother.
  cut (exists w', updateProfile now uid updates w
                  = (Throw (Error "Username already taken"), w')
                  /\ w_db w' = w_db w).
  { intros (w' & -> & Hdb). split; [reflexivity | exact Hdb]. }
  unfold updateProfile.
  rewrite (bind_run _ _ _ _ _ (obj_delete_run _ "email" _ _ Hpatch)).
  erewrite bind_run; [|apply obj_delete_run; simpl; apply lookup_insert_eq].
  erewrite bind_run; [|apply obj_read_run; simpl; apply lookup_insert_eq].
  assert (Hprop : prop (delete "password" (delete "email" patch)) "username"
                  = JStr name).
  { unfold prop. rewrite !lookup_delete_ne by done. rewrite Hname.
    reflexivity. }
  rewrite Hprop. cbn [truthy as_text lift_opt].
  apply String.eqb_neq in Hne. rewrite Hne. cbn [negb].
  unfold bind at 1. unfold bind at 1. unfold lift_opt, ret at 1.
  unfold bind at 1. rewrite db_select_limit1_run, first_limit1.
  cbn [w_db logged]. rewrite Hfind.
  apply Z.eqb_neq in Hother. rewrite Hother.
  eexists. split; reflexivity.
Qed.
End ProfileNames.

Lemma unique_on_update_where {R A} `{EqDecision A} (f : R -> A) (P : R -> bool)
    (g : R -> R) (t : table R) :
  (forall r, f (g r) = f r) ->
  unique_on f t = true -> unique_on f (update_where P g t) = true.
Proof.
  intros Hg. unfold unique_on, update_where. simpl.
  rewrite !bool_decide_eq_true, <- list_fmap_compose.
  intros Hnd. erewrite list_fmap_ext; [exact Hnd|].
  intros i x _. simpl. destruct (P x); [apply Hg | reflexivity].
Qed.

Section ResetRequests.
Context `{rt : Runtime}.

#[local] Arguments update_where : simpl never.

(** X25: reset tokens do not revoke one another: after two reset requests
    for the same address, while both tokens are within their hour,
    [resetPassword] accepts the first token and then still accepts the
    second. *)
Theorem reset_requests_accumulate
    (now1 now2 : Z) (tok1 tok2 email : string) (w w1 w2 : world)
    (r1 r2 : resetRequested) :
  requestPasswordReset now1 tok1 email w = (Ok r1, w1) ->
  requestPasswordReset now2 tok2 email w1 = (Ok r2, w2) ->
  rr_resetToken r1 = Some tok1 -> rr_resetToken r2 = Some tok2 ->
  forall t t' salt salt' pw pw',
    t < now1 + 3600000 -> t' < now2 + 3600000 ->
    exists w3 w4,
      resetPassword t salt tok1 pw w2
      = (Ok (success "Password reset successful"), w3)
      /\ resetPassword t' salt' tok2 pw' w3
         = (Ok (success "Password reset successful"), w4).
Proof.
  intros Hrun1 Hrun2 Ht1 Ht2 t t' salt salt' pw pw' Hlt Hlt'.
  destruct (List.find (fun u => String.eqb (u_email u) email)
              (rows (users (w_db w)))) as [user|] eqn:Hfind.
  2:{ rewrite (requestPasswordReset_unknown _ _ _ _ Hfind) in Hrun1.
      injection Hrun1 as <- <-. discriminate Ht1. }
  rewrite (requestPasswordReset_known _ _ _ _ user Hfind) in Hrun1.
  cbv zeta in Hrun1.
  destruct (passwordResetTokens_ok _) in Hrun1; [|discriminate].
  injection Hrun1 as <- <-. clear Ht1.
  match type of Hrun2 with
  | requestPasswordReset _ _ _ ?W = _ =>
      assert (Hfind1 : List.find (fun u => String.eqb (u_email u) email)
                         (rows (users (w_db W))) = Some user)
        by exact Hfind
  end.
  rewrite (requestPasswordReset_known _ _ _ _ user Hfind1) in Hrun2.
  cbv zeta in Hrun2.
  destruct (passwordResetTokens_ok _) eqn:Hok in Hrun2; [|discriminate].
  injection Hrun2 as <- <-. clear Ht2.
  cbn [w_db stored logged passwordResetTokens set_passwordResetTokens] in *.
  set (t0 := passwordResetTokens (w_db w)) in *.
  set (row1 := issued (u_id user) tok1 (now1 + 60 * 60 * 1000) now1
                 (serial t0)).
  set (row2 := issued (u_id user) tok2 (now2 + 60 * 60 * 1000) now2
                 (serial t0 + 1)).
  set (tab := insert_into
                (insert_into t0
                   [issued (u_id user) tok1 (now1 + 60 * 60 * 1000) now1])
                [issued (u_id user) tok2 (now2 + 60 * 60 * 1000) now2]) in *.
  assert (Hrows : rows tab = (rows t0 ++ [row1]) ++ [row2]) by reflexivity.
  unfold passwordResetTokens_ok in Hok.
  cbn [passwordResetTokens set_passwordResetTokens] in Hok.
  apply andb_true_iff in Hok as [Hok _].
  apply andb_true_iff in Hok as [Hids Htoks].
  assert (Hin1 : row1 ∈ rows tab).
  { rewrite Hrows. apply elem_of_app. left. apply elem_of_app. right.
    apply list_elem_of_singleton. reflexivity. }
  assert (Hin2 : row2 ∈ rows tab).
  { rewrite Hrows. apply elem_of_app. right.
    apply list_elem_of_singleton. reflexivity. }
  assert (Hlive1 : live_token t tok1 row1 = true).
  { apply live_token_spec. simpl. repeat split; lia. }
  assert (Hlive2 : live_token t' tok2 row2 = true).
  { apply live_token_spec. simpl. repeat split; lia. }
  eexists _, _. split.
  - apply (resetPassword_live_run _ _ _ _ _ row1).
    cbn [w_db stored passwordResetTokens set_passwordResetTokens].
    apply find_live_unique; [exact Htoks | exact Hin1 | exact Hlive1].
  - apply (resetPassword_live_run _ _ _ _ _ row2).
    cbn [w_db passwordResetTokens set_passwordResetTokens].
    apply find_live_unique.
    + apply unique_on_update_where; [reflexivity | exact Htoks].
    + unfold update_where. cbn [rows]. apply list_elem_of_fmap.
      exists row2. split; [|exact Hin2].
      destruct (tk_id row2 =? tk_id row1) eqn:Hsame; [|reflexivity].
      simpl in Hsame. lia.
    + exact Hlive2.
Qed.
End ResetRequests.

(** ** The constraints of the schema are kept *)

#[local] Instance keeps_ok_preorder : PreOrder keeps_ok.
Proof.
  split; [intros w H; exact H|].
  intros a b c Hab Hbc H. apply Hbc, Hab, H.
Qed.

Lemma same_db_keeps_ok {A} (m : M A) :
  preserves same_db m -> preserves keeps_ok m.
Proof. intros H w Hok. rewrite (H w). exact Hok. Qed.

Lemma db_select_limit1_keeps_ok {R} name (get : store -> table R) P :
  preserves keeps_ok (db_select_limit1 name get P).
Proof. intros w H. exact H. Qed.

Lemma db_select_keeps_ok {R} name (get : store -> table R) P :
  preserves keeps_ok (db_select name get P).
Proof. intros w H. exact H. Qed.

Lemma obj_delete_keeps_ok l k : preserves keeps_ok (obj_delete l k).
Proof.
  intros w H. unfold obj_delete. destruct (w_heap w !! l); exact H.
Qed.

Lemma obj_read_keeps_ok l : preserves keeps_ok (obj_read l).
Proof.
  intros w H. unfold obj_read. destruct (w_heap w !! l); exact H.
Qed.

Lemma db_insert_keeps_ok {R} name (get : store -> table R) set check vs :
  (forall t s, check (set t s) = true -> store_ok s = true ->
               store_ok (set t s) = true) ->
  preserves keeps_ok (db_insert name get set check vs).
Proof.
  intros Hset w Hok. destruct vs as [mks|]; [|exact Hok].
  rewrite db_insert_run. cbv zeta.
  destruct (check _) eqn:Hc; [|exact Hok].
  cbn [snd w_db stored]. apply Hset; assumption.
Qed.

Lemma db_update_keeps_ok {R} name (get : store -> table R) set check P f :
  (forall t s, check (set t s) = true -> store_ok s = true ->
               store_ok (set t s) = true) ->
  preserves keeps_ok (db_update name get set check P f).
Proof.
  intros Hset w Hok. unfold db_update, bind, emit, get_db. simpl.
  destruct f as [f|]; [|exact Hok].
  destruct (mapM _ _) as [rows'|]; [|exact Hok].
  match goal with |- context [if ?c then _ else _] => destruct c eqn:Hc end;
    simpl; [|exact Hok].
  apply Hset; assumption.
Qed.

Lemma db_update_total_keeps_ok {R} name (get : store -> table R) set P g :
  (forall s, store_ok s = true ->
             store_ok (set (update_where P g (get s)) s) = true) ->
  preserves keeps_ok
    (db_update name get set unchecked P (Some (fun r => Some (g r)))).
Proof.
  intros H w Hok. rewrite db_update_total_run. cbn [snd w_db stored logged].
  apply H. exact Hok.
Qed.

Lemma db_delete_keeps_ok {R} name (get : store -> table R) set P :
  (forall s, store_ok s = true ->
             store_ok (set (delete_where P (get s)) s) = true) ->
  preserves keeps_ok (db_delete name get set P).
Proof.
  intros H w Hok. rewrite db_delete_run. cbn [snd w_db stored logged].
  apply H. exact Hok.
Qed.

Lemma references_users_ids {R} (f : R -> Z) (t : table R) (s s' : store) :
  (forall i, i ∈ u_id <$> rows (users s) -> i ∈ u_id <$> rows (users s')) ->
  references_users f t s = true -> references_users f t s' = true.
Proof.
  intros Hsub. unfold references_users. rewrite !forallb_forall.
  intros H r Hr. specialize (H r Hr).
  apply bool_decide_eq_true in H. apply bool_decide_eq_true. auto.
Qed.

Lemma references_update_where {R} (f : R -> Z) P g (t : table R) s :
  (forall r, f (g r) = f r) ->
  references_users f t s = true ->
  references_users f (update_where P g t) s = true.
Proof.
  intros Hg. unfold references_users, update_where. cbn [rows].
  rewrite !forallb_forall. intros H r' Hr'.
  apply list_elem_of_In, list_elem_of_fmap in Hr' as (r & -> & Hr).
  apply list_elem_of_In in Hr. specialize (H r Hr).
  destruct (P r); [rewrite Hg|]; exact H.
Qed.

Lemma references_filter {R} (f : R -> Z) Q (t : table R) n s :
  references_users f t s = true ->
  references_users f {| rows := List.filter Q (rows t); serial := n |} s = true.
Proof.
  unfold references_users. cbn [rows]. rewrite !forallb_forall.
  intros H r Hr. apply filter_In in Hr as [Hr _]. auto.
Qed.

Lemma unique_on_filter {R A} `{EqDecision A} (f : R -> A) Q (t : table R) n :
  unique_on f t = true ->
  unique_on f {| rows := List.filter Q (rows t); serial := n |} = true.
Proof.
  unfold unique_on. rewrite !bool_decide_eq_true. cbn [rows].
  apply NoDup_fmap_filter.
Qed.

Lemma references_cascade {R} (f : R -> Z) (t : table R) (s s' : store) P n :
  rows (users s') = List.filter (fun u => negb (P u)) (rows (users s)) ->
  references_users f t s = true ->
  references_users f
    {| rows := List.filter
                 (fun r => negb (bool_decide
                                   (f r ∈ u_id <$> List.filter P (rows (users s)))))
                 (rows t);
       serial := n |} s' = true.
Proof.
  intros Hu. unfold references_users. cbn [rows]. rewrite Hu.
  rewrite !forallb_forall. intros H r Hr.
  apply filter_In in Hr as [Hr Hkept]. specialize (H r Hr).
  apply bool_decide_eq_true in H. apply bool_decide_eq_true.
  apply negb_true_iff, bool_decide_eq_false in Hkept.
  apply list_elem_of_fmap in H as (u & Hid & Hin).
  apply list_elem_of_fmap. exists u. split; [exact Hid|].
  apply list_elem_of_In, filter_In. split; [apply list_elem_of_In; exact Hin|].
  destruct (P u) eqn:HP; [|reflexivity]. exfalso. apply Hkept.
  apply list_elem_of_fmap. exists u. split; [exact Hid|].
  apply list_elem_of_In, filter_In. split; [apply list_elem_of_In; exact Hin|].
  exact HP.
Qed.

(** A new version of [users] that is consistent and loses no id. *)
Lemma store_ok_more_users (s : store) (t' : table user) :
  users_ok (set_users t' s) = true ->
  (forall i, i ∈ u_id <$> rows (users s) -> i ∈ u_id <$> rows t') ->
  store_ok s = true -> store_ok (set_users t' s) = true.
Proof.
  intros Hu Hsub Hs.
  assert (Href : forall R (f : R -> Z) (t : table R),
            references_users f t s = true ->
            references_users f t (set_users t' s) = true).
  { intros R f t. apply references_users_ids. exact Hsub. }
  unfold store_ok in *. rewrite !andb_true_iff in *.
  destruct Hs as [[[[[[_ He] Hp] Hf] Hwl] Hwh] Hd].
  unfold emailVerificationTokens_ok, passwordResetTokens_ok, favorites_ok,
    watchlist_ok, watchHistory_ok, dailySignups_ok in *.
  cbn [users emailVerificationTokens passwordResetTokens favorites watchlist
       watchHistory dailySignups set_users] in *.
  rewrite !andb_true_iff in *.
  repeat split; try tauto; apply Href; tauto.
Qed.

Lemma store_ok_update_users P g (s : store) :
  (forall u, u_id (g u) = u_id u) -> (forall u, u_email (g u) = u_email u) ->
  (forall u, u_username (g u) = u_username u) ->
  store_ok s = true ->
  store_ok (set_users (update_where P g (users s)) s) = true.
Proof.
  intros Hid Hem Hun Hs. apply store_ok_more_users; [| |exact Hs].
  - unfold store_ok in Hs. rewrite !andb_true_iff in Hs.
    destruct Hs as [[[[[[Hu _] _] _] _] _] _].
    unfold users_ok in *. cbn [users set_users]. rewrite !andb_true_iff in *.
    repeat split; apply unique_on_update_where; tauto.
  - intros i Hi. unfold update_where. cbn [rows].
    rewrite <- list_fmap_compose.
    erewrite list_fmap_ext; [exact Hi|].
    intros j x _. simpl. destruct (P x); [apply Hid | reflexivity].
Qed.

(** A checked statement on a table that is not [users]: the check covers
    the table, and the other tables do not see the change. *)
Ltac ok_table :=
  let t := fresh "t" in
  let s := fresh "s" in
  let Hc := fresh "Hc" in
  let Hs := fresh "Hs" in
  intros t s Hc Hs; unfold store_ok in *; rewrite !andb_true_iff in *;
  destruct Hs as [[[[[[? ?] ?] ?] ?] ?] ?];
  repeat split; first [exact Hc | assumption].

Lemma store_ok_users_set (t : table user) (s : store) :
  users_set_ok (set_users t s) = true -> store_ok s = true ->
  store_ok (set_users t s) = true.
Proof.
  intros Hc Hs. unfold users_set_ok in Hc. unfold store_ok in *.
  rewrite !andb_true_iff in *.
  destruct Hc as [[[[[Hu Hre] Hrp] Hrf] Hrwl] Hrwh].
  destruct Hs as [[[[[[_ He] Hp] Hf] Hwl] Hwh] Hd].
  unfold emailVerificationTokens_ok, passwordResetTokens_ok, favorites_ok,
    watchlist_ok, watchHistory_ok in *.
  cbn [emailVerificationTokens passwordResetTokens favorites watchlist
       watchHistory set_users] in *.
  rewrite !andb_true_iff in *.
  repeat split; first [exact Hd | tauto].
Qed.

Lemma store_ok_used_verification P (s : store) :
  store_ok s = true ->
  store_ok (set_emailVerificationTokens
              (update_where P with_used (emailVerificationTokens s)) s) = true.
Proof.
  intros Hs. unfold store_ok in *. rewrite !andb_true_iff in *.
  destruct Hs as [[[[[[Hu He] Hp] Hf] Hwl] Hwh] Hd].
  repeat split; try assumption.
  unfold emailVerificationTokens_ok in *.
  cbn [emailVerificationTokens set_emailVerificationTokens].
  rewrite !andb_true_iff in *. destruct He as [[Hid Htok] Href].
  repeat split.
  - apply unique_on_update_where; [reflexivity | exact Hid].
  - apply unique_on_update_where; [reflexivity | exact Htok].
  - apply (references_users_ids _ _ s); [intros i Hi; exact Hi|].
    apply references_update_where; [reflexivity | exact Href].
Qed.

Lemma store_ok_used_reset P (s : store) :
  store_ok s = true ->
  store_ok (set_passwordResetTokens
              (update_where P with_used (passwordResetTokens s)) s) = true.
Proof.
  intros Hs. unfold store_ok in *. rewrite !andb_true_iff in *.
  destruct Hs as [[[[[[Hu He] Hp] Hf] Hwl] Hwh] Hd].
  repeat split; try assumption.
  unfold passwordResetTokens_ok in *.
  cbn [passwordResetTokens set_passwordResetTokens].
  rewrite !andb_true_iff in *. destruct Hp as [[Hid Htok] Href].
  repeat split.
  - apply unique_on_update_where; [reflexivity | exact Hid].
  - apply unique_on_update_where; [reflexivity | exact Htok].
  - apply (references_users_ids _ _ s); [intros i Hi; exact Hi|].
    apply references_update_where; [reflexivity | exact Href].
Qed.

Lemma store_ok_counted P g (s : store) :
  (forall r, ds_id (g r) = ds_id r) -> (forall r, ds_date (g r) = ds_date r) ->
  store_ok s = true ->
  store_ok (set_dailySignups (update_where P g (dailySignups s)) s) = true.
Proof.
  intros Hid Hdate Hs. unfold store_ok in *. rewrite !andb_true_iff in *.
  destruct Hs as [[[[[[Hu He] Hp] Hf] Hwl] Hwh] Hd].
  repeat split; try assumption.
  unfold dailySignups_ok in *. cbn [dailySignups set_dailySignups].
  rewrite !andb_true_iff in *. destruct Hd as [Hi Hda].
  split; apply unique_on_update_where; assumption.
Qed.

Lemma store_ok_delete_favorites P (s : store) :
  store_ok s = true ->
  store_ok (set_favorites (delete_where P (favorites s)) s) = true.
Proof.
  intros Hs. unfold store_ok in *. rewrite !andb_true_iff in *.
  destruct Hs as [[[[[[Hu He] Hp] Hf] Hwl] Hwh] Hd].
  repeat split; try assumption.
  unfold favorites_ok in *. cbn [favorites set_favorites].
  rewrite !andb_true_iff in *. destruct Hf as [Hid Href]. split.
  - apply unique_on_delete_where. exact Hid.
  - apply (references_users_ids _ _ s); [intros i Hi; exact Hi|].
    apply references_filter. exact Href.
Qed.

Lemma store_ok_delete_watchlist P (s : store) :
  store_ok s = true ->
  store_ok (set_watchlist (delete_where P (watchlist s)) s) = true.
Proof.
  intros Hs. unfold store_ok in *. rewrite !andb_true_iff in *.
  destruct Hs as [[[[[[Hu He] Hp] Hf] Hwl] Hwh] Hd].
  repeat split; try assumption.
  unfold watchlist_ok in *. cbn [watchlist set_watchlist].
  rewrite !andb_true_iff in *. destruct Hwl as [Hid Href]. split.
  - apply unique_on_delete_where. exact Hid.
  - apply (references_users_ids _ _ s); [intros i Hi; exact Hi|].
    apply references_filter. exact Href.
Qed.

Lemma store_ok_delete_watchHistory P (s : store) :
  store_ok s = true ->
  store_ok (set_watchHistory (delete_where P (watchHistory s)) s) = true.
Proof.
  intros Hs. unfold store_ok in *. rewrite !andb_true_iff in *.
  destruct Hs as [[[[[[Hu He] Hp] Hf] Hwl] Hwh] Hd].
  repeat split; try assumption.
  unfold watchHistory_ok in *. cbn [watchHistory set_watchHistory].
  rewrite !andb_true_iff in *. destruct Hwh as [Hid Href]. split.
  - apply unique_on_delete_where. exact Hid.
  - apply (references_users_ids _ _ s); [intros i Hi; exact Hi|].
    apply references_filter. exact Href.
Qed.

Lemma db_insert_users_keeps_ok vs :
  preserves keeps_ok (db_insert Users users set_users users_ok vs).
Proof.
  intros w Hok. destruct vs as [mks|]; [|exact Hok].
  rewrite db_insert_run. cbv zeta.
  destruct (users_ok _) eqn:Hc; [|exact Hok].
  cbn [snd w_db stored]. apply store_ok_more_users; [exact Hc| |exact Hok].
  intros i Hi. unfold insert_into. cbn [rows]. rewrite fmap_app.
  apply elem_of_app. left. exact Hi.
Qed.

Lemma db_delete_users_keeps_ok P : preserves keeps_ok (db_delete_users P).
Proof.
  intros w Hok. unfold db_delete_users, bind, emit, get_db, put_db. simpl.
  unfold keeps_ok in *. cbn [w_db] in *.
  unfold store_ok in *. rewrite !andb_true_iff in *.
  destruct Hok as [[[[[[Hu He] Hp] Hf] Hwl] Hwh] Hd].
  unfold users_ok, emailVerificationTokens_ok, passwordResetTokens_ok,
    favorites_ok, watchlist_ok, watchHistory_ok, dailySignups_ok in *.
  cbn [users emailVerificationTokens passwordResetTokens favorites watchlist
       watchHistory dailySignups] in *.
  rewrite !andb_true_iff in *.
  repeat split;
    first [ apply unique_on_filter; tauto
          | apply references_cascade; [reflexivity | tauto]
          | tauto ].
Qed.

Ltac frame_ok_step :=
  lazymatch goal with
  | |- preserves _ (ret _) => apply preserves_ret; apply _
  | |- preserves _ (throw _) => apply preserves_throw; apply _
  | |- preserves _ (lift_opt _ _) => apply preserves_lift_opt; apply _
  | |- preserves _ (db_select_limit1 _ _ _) => apply db_select_limit1_keeps_ok
  | |- preserves _ (db_select _ _ _) => apply db_select_keeps_ok
  | |- preserves _ (obj_delete _ _) => apply obj_delete_keeps_ok
  | |- preserves _ (obj_read _) => apply obj_read_keeps_ok
  | |- preserves _ (db_delete_users _) => apply db_delete_users_keeps_ok
  | |- preserves _ (db_insert Users _ _ _ _) => apply db_insert_users_keeps_ok
  | |- preserves _ (db_insert _ _ _ _ _) => apply db_insert_keeps_ok; ok_table
  | |- preserves _ (db_update Users _ _ unchecked _ _) =>
      apply db_update_total_keeps_ok; intros ? ?;
      apply store_ok_update_users;
      [reflexivity | reflexivity | reflexivity | assumption]
  | |- preserves _ (db_update Users _ _ users_set_ok _ _) =>
      apply db_update_keeps_ok; exact store_ok_users_set
  | |- preserves _ (db_update EmailVerificationTokens _ _ unchecked _ _) =>
      apply db_update_total_keeps_ok; apply store_ok_used_verification
  | |- preserves _ (db_update PasswordResetTokens _ _ unchecked _ _) =>
      apply db_update_total_keeps_ok; apply store_ok_used_reset
  | |- preserves _ (db_update DailySignups _ _ unchecked _ _) =>
      apply db_update_total_keeps_ok; intros ? ?;
      apply store_ok_counted; [reflexivity | reflexivity | assumption]
  | |- preserves _ (bind _ _) => apply preserves_bind; [apply _ | | intros ?]
  | |- preserves _ (catch _ _) => apply preserves_catch; [apply _ | | intros ?]
  | |- preserves _ (match ?x with _ => _ end) => destruct x
  end.

Ltac frame_ok := repeat frame_ok_step.

Section Constraints.
Context `{rt : Runtime}.
Variable cfg : env.

Lemma generateJWT_keeps_ok now uid : preserves keeps_ok (generateJWT cfg now uid).
Proof. apply same_db_keeps_ok, generateJWT_same_db. Qed.

Lemma sync_collection_keeps_ok {R V} name (get : store -> table R) set check
    owner (values : jsval -> option V) encode uid submitted :
  (forall t s, check (set t s) = true -> store_ok s = true ->
               store_ok (set t s) = true) ->
  (forall P s, store_ok s = true ->
               store_ok (set (delete_where P (get s)) s) = true) ->
  preserves keeps_ok
    (sync_collection name get set check owner values encode uid submitted).
Proof.
  intros Hins Hdel. unfold sync_collection.
  destruct (truthy submitted && isArray submitted); [|apply preserves_ret; apply _].
  apply preserves_bind; [apply _ | | intros ?].
  { apply db_delete_keeps_ok. apply Hdel. }
  apply preserves_bind; [apply _ | | intros ?]; [|apply preserves_ret; apply _].
  destruct (0 <? length _)%nat; [|apply preserves_ret; apply _].
  apply preserves_bind; [apply _ | | intros ?].
  { apply preserves_lift_opt. apply _. }
  apply preserves_bind; [apply _ | | intros ?]; [|apply preserves_ret; apply _].
  apply db_insert_keeps_ok. exact Hins.
Qed.

(** X27: no service method leaves the store in breach of the schema: from a
    store in which ids, emails, usernames, token strings and counter dates
    are unique and every owned row refers to an existing user, every call,
    whether it returns or throws, leads to such a store. *)
Theorem service_keeps_constraints :
  (forall now salt tok data,
      preserves keeps_ok (register cfg now salt tok data))
  /\ (forall now email password,
        preserves keeps_ok (login cfg now email password))
  /\ (forall uid, preserves keeps_ok (getUserById uid))
  /\ (forall now uid updates, preserves keeps_ok (updateProfile now uid updates))
  /\ (forall now salt uid current new,
        preserves keeps_ok (changePassword now salt uid current new))
  /\ (forall now tok email,
        preserves keeps_ok (requestPasswordReset now tok email))
  /\ (forall now salt tok newPassword,
        preserves keeps_ok (resetPassword now salt tok newPassword))
  /\ (forall now tok, preserves keeps_ok (verifyEmail now tok))
  /\ (forall now tok uid,
        preserves keeps_ok (resendVerificationEmail now tok uid))
  /\ (forall uid password, preserves keeps_ok (deleteAccount uid password))
  /\ (forall now uid syncData,
        preserves keeps_ok (syncUserData now uid syncData))
  /\ (forall uid, preserves keeps_ok (fetchUserData uid)).
Proof.
  repeat split; intros.
  - unfold register, checkDailySignupLimit, incrementSignupCount. cbv zeta.
    frame_ok. apply generateJWT_keeps_ok.
  - unfold login. cbv zeta. frame_ok. apply generateJWT_keeps_ok.
  - unfold getUserById. frame_ok.
  - unfold updateProfile. frame_ok.
  - unfold changePassword. cbv zeta. frame_ok.
  - unfold requestPasswordReset. cbv zeta. frame_ok.
  - unfold resetPassword. cbv zeta. frame_ok.
  - unfold verifyEmail. frame_ok.
  - unfold resendVerificationEmail. cbv zeta. frame_ok.
  - unfold deleteAccount. frame_ok.
  - unfold syncUserData.
    repeat (apply preserves_bind; [apply _ | | intros ?]);
      first [ apply preserves_ret; apply _
            | apply sync_collection_keeps_ok;
              first [ ok_table
                    | intros ? ?; apply store_ok_delete_favorites
                    | intros ? ?; apply store_ok_delete_watchlist
                    | intros ? ?; apply store_ok_delete_watchHistory ] ].
  - unfold fetchUserData. frame_ok.
Qed.
End Constraints.

(** ** The register and delete-account routes, and the throttle *)

Lemma only_counters (s s1 : store) :
  users s1 = users s ->
  emailVerificationTokens s1 = emailVerificationTokens s ->
  passwordResetTokens s1 = passwordResetTokens s ->
  favorites s1 = favorites s -> watchlist s1 = watchlist s ->
  watchHistory s1 = watchHistory s ->
  s1 = set_dailySignups (dailySignups s1) s.
Proof.
  destruct s1. simpl. intros -> -> -> -> -> ->. reflexivity.
Qed.

Section Routes.
Context `{rt : Runtime}.
Variable cfg : env.

(** X28: the delete-account route reads the user, deletes, and then hands
    the goodbye mail to the email service, addressed to the user it read:
    with the right password the answer is 200 and the user is gone; with a
    wrong one the error [Invalid password] goes to [next], and nothing is
    deleted. *)
Theorem delete_account_route
    (uid : Z) (password : string) (w : world) (user : user) :
  List.find (fun u => u_id u =? uid) (rows (users (w_db w))) = Some user ->
  (bcrypt_compare password (u_password user) = true ->
   exists w',
     route_delete_account uid password w
     = (Ok {| mails := [AccountDeletionEmail (JStr (u_email user))
                          (JStr (u_username user))];
              status := 200;
              body := success "Account deleted successfully" |}, w')
     /\ List.find (fun u => u_id u =? uid) (rows (users (w_db w'))) = None)
  /\ (bcrypt_compare password (u_password user) = false ->
      exists w',
        route_delete_account uid password w
        = (Throw (Error "Invalid password"), w')
        /\ w_db w' = w_db w).
Proof.
  intros Hfind. unfold route_delete_account.
  rewrite (bind_run _ _ _ _ _ (getUserById_run _ _ _ Hfind)).
  assert (Hfind' : List.find (fun u => u_id u =? uid)
                     (rows (users (w_db (logged (EvSelect Users) w))))
                   = Some user) by exact Hfind.
  split; intros Hpw.
  - destruct (deleteAccount_run_ok _ _ _ user Hfind' Hpw)
      as (w1 & Hrun & _ & Hu & _).
    rewrite (bind_run _ _ _ _ _ Hrun).
    rewrite user_projection_email, user_projection_username.
    eexists. split; [reflexivity|]. rewrite Hu. simpl.
    apply find_none. intros x Hx.
    apply list_elem_of_In, filter_In in Hx as [_ Hx].
    apply negb_true_iff in Hx. exact Hx.
  - unfold bind. rewrite (deleteAccount_run_wrong _ _ _ user Hfind' Hpw).
    eexists. split; reflexivity.
Qed.

(** X29: a register route that answers, answers 201 with the new user,
    password removed, and a bearer token, and hands the email service one
    verification mail, addressed to the registered email and username and
    carrying the token the service stored, unused, for twenty-four hours. *)
Theorem register_route
    (now : Z) (salt tok : string) (data : userData) (w w' : world)
    (a : answered) :
  route_register cfg now salt tok data w = (Ok a, w') ->
  status a = 201
  /\ mails a = [VerificationEmail (JStr (email data)) (JStr (username data)) tok]
  /\ (exists t, t ∈ rows (emailVerificationTokens (w_db w'))
                /\ tk_token t = tok /\ tk_used t = false
                /\ tk_expiresAt t = now + 86400000)
  /\ exists o jwt,
       body a !! "user" = Some (JObj o) /\ o !! "password" = None
       /\ o !! "email" = Some (JStr (email data))
       /\ body a !! "token" = Some (JStr jwt).
Proof.
  intros Hrun. unfold route_register in Hrun.
  apply bind_ok in Hrun as (r & w1 & Hreg & Hrun). injection Hrun as <- <-.
  destruct (register_ok _ _ _ _ _ _ _ _ Hreg)
    as (newUser & secret & ttl & _ & _ & Hemail & Hname & _ & Huser & _).
  destruct (register_ok_store _ _ _ _ _ _ _ _ Hreg)
    as (newUser' & _ & _ & _ & Htok & Htab & _).
  cbn [status mails body]. rewrite Huser, Htok.
  rewrite user_projection_email, user_projection_username, Hemail, Hname.
  split; [reflexivity|]. split; [reflexivity|]. split.
  - exists (issued (u_id newUser') tok (now + 24 * 60 * 60 * 1000) now
              (serial (emailVerificationTokens (w_db w)))).
    rewrite Htab. split; [|repeat split].
    unfold insert_into. cbn [rows]. apply elem_of_app. right.
    apply list_elem_of_singleton. reflexivity.
  - eexists _, _. split; [reflexivity|]. split; [|split].
    + apply lookup_delete_eq.
    + unfold without_password. rewrite lookup_delete_ne by done.
      unfold user_obj. simpl. rewrite lookup_insert_ne by done.
      rewrite lookup_insert_eq, Hemail. reflexivity.
    + reflexivity.
Qed.

(** X30: the signup throttle is best effort: [checkDailySignupLimit] and
    [incrementSignupCount] return whatever the store does with their
    statements, and the only table they can change is the counters'. *)
Theorem throttle_is_best_effort (now : Z) (w : world) :
  (exists lc w1,
      checkDailySignupLimit cfg now w = (Ok lc, w1)
      /\ w_heap w1 = w_heap w
      /\ w_db w1 = set_dailySignups (dailySignups (w_db w1)) (w_db w))
  /\ (exists w1,
        incrementSignupCount now w = (Ok tt, w1)
        /\ w_db w1 = set_dailySignups (dailySignups (w_db w1)) (w_db w)).
Proof.
  split.
  - destruct (checkDailySignupLimit_run cfg now w)
      as (lc & w1 & Hrun & _ & _ & _ & _ & _ & Hheap).
    exists lc, w1. split; [exact Hrun|]. split; [exact Hheap|].
    apply only_counters;
      match goal with
      | |- ?get (w_db w1) = _ =>
          assert (Hp : preserves (same_table get)
                         (checkDailySignupLimit cfg now))
            by (unfold checkDailySignupLimit; frame_table);
          exact (preserves_at _ _ _ _ _ Hp Hrun)
      end.
  - destruct (incrementSignupCount_returns now w) as (w1 & Hrun).
    exists w1. split; [exact Hrun|].
    apply only_counters;
      match goal with
      | |- ?get (w_db w1) = _ =>
          assert (Hp : preserves (same_table get) (incrementSignupCount now))
            by (unfold incrementSignupCount; frame_table);
          exact (preserves_at _ _ _ _ _ Hp Hrun)
      end.
Qed.
End Routes.

(** * The model run on examples *)

#[local] Existing Instance Demo.runtime.

(** The concrete runtime satisfies the laws. *)

Lemma demo_compare_hash salt password :
  Demo.compare password (Demo.hash salt password) = true.
Proof.
  unfold Demo.compare, Demo.hash.
  induction password as [|c p IH]; simpl.
  - destruct (ascii_dec "$" "$"); [|done]. destruct salt; reflexivity.
  - destruct (ascii_dec c c); [exact IH | done].
Qed.

Lemma demo_read_bits p rest :
  Demo.read_bits (Demo.bits p +:+ String "."%char rest) = Some (p, rest).
Proof.
  induction p as [p IH|p IH|]; simpl; [rewrite IH| rewrite IH|]; reflexivity.
Qed.

Lemma demo_read_Z z rest : Demo.read_Z (Demo.write_Z z rest) = Some (z, rest).
Proof.
  destruct z; simpl; [reflexivity| |]; rewrite demo_read_bits; reflexivity.
Qed.

Lemma demo_decode_encode secret claims :
  Demo.decode secret (Demo.encode secret claims) = Some claims.
Proof.
  unfold Demo.decode, Demo.encode. rewrite demo_read_Z. simpl.
  rewrite demo_read_Z. simpl. rewrite demo_read_Z. simpl.
  rewrite String.eqb_refl. destruct claims. reflexivity.
Qed.

#[local] Instance demo_laws : RuntimeLaws Demo.runtime.
Proof.
  split.
  - exact demo_compare_hash.
  - exact demo_decode_encode.
Qed.

(** C8 at work: no account under the email in one world, a wrong password in
    the other. *)
Lemma login_failure_indistinguishable_witness :
  (login (rt := Demo.runtime) Demo.cfg 5000 "alice@example.com" "wrong"
     Demo.fresh_world).1
  = Throw (Error "Invalid credentials")
  /\ (login (rt := Demo.runtime) Demo.cfg 6000 "alice@example.com" "wrong"
        (Demo.world_with ∅ 5)).1
     = (login (rt := Demo.runtime) Demo.cfg 5000 "alice@example.com" "wrong"
          Demo.fresh_world).1.
Proof.
  apply (login_failure_indistinguishable (rt := Demo.runtime) Demo.cfg
           5000 6000 "alice@example.com" "wrong" Demo.fresh_world
           (Demo.world_with ∅ 5) Demo.alice); vm_compute; reflexivity.
Defined.

(** C10 at work: a body carrying [email], [password] and [username]. *)
Lemma updateProfile_mutates_callers_patch_witness :
  let body : jsobj :=
    {[ "email" := JStr "mallory@example.com"; "password" := JStr "x";
       "username" := JStr "alice2" ]} in
  let w' := (updateProfile 20000 1 1 (Demo.world_with body 5)).2 in
  w_heap w'
  = <[1%positive := delete "password" (delete "email" body)]>
      (w_heap (Demo.world_with body 5))
  /\ (exists o, w_heap w' !! 1%positive = Some o
                /\ o !! "email" = None /\ o !! "password" = None)
  /\ (exists rest,
        w_log w' = w_log (Demo.world_with body 5)
                   ++ [EvObjDelete 1 "email"; EvObjDelete 1 "password"] ++ rest
        /\ forallb is_statement rest = true).
Proof.
  intros body.
  apply (updateProfile_mutates_callers_patch 20000 1 1 body
           (Demo.world_with body 5)).
  vm_compute. reflexivity.
Defined.



(** C5 at work on the live tokens of the demo store. *)
Lemma consume_twice_second_fails_witness :
  let w := Demo.world_with ∅ 5 in
  (let '(o1, w1) := verifyEmail 5000 "v-0001" w in
   let '(o2, w2) := verifyEmail 6000 "v-0001" w1 in
   o1 = Ok (success "Email verified successfully")
   /\ o2 = Throw (Error "Invalid or expired verification token")
   /\ w_db w2 = w_db w1 /\ w_heap w2 = w_heap w1)
  /\ (let '(o1, w1) := resetPassword (rt := Demo.runtime) 20000 "s1" "r-0001"
                         "pw1" w in
      let '(o2, w2) := resetPassword (rt := Demo.runtime) 20001 "s2" "r-0001"
                         "pw2" w1 in
      o1 = Ok (success "Password reset successful")
      /\ o2 = Throw (Error "Invalid or expired reset token")
      /\ w_db w2 = w_db w1 /\ w_heap w2 = w_heap w1).
Proof.
  intros w.
  pose proof (consume_twice_second_fails (rt := Demo.runtime)
                5000 6000 "s1" "s2" "pw1" "pw2" "v-0001" w) as [Hv _].
  pose proof (consume_twice_second_fails (rt := Demo.runtime)
                20000 20001 "s1" "s2" "pw1" "pw2" "r-0001" w) as [_ Hr].
  split.
  - apply (Hv ltac:(vm_compute; reflexivity) Demo.verify_token).
    + apply list_elem_of_In. simpl. left. reflexivity.
    + vm_compute. reflexivity.
  - apply (Hr ltac:(vm_compute; reflexivity) Demo.reset_token).
    + apply list_elem_of_In. simpl. left. reflexivity.
    + vm_compute. reflexivity.
Defined.

(** C5 as stated fails: the value the first call returns is the success
    object, which has no property holding the id of the token's owner
    (user 1). *)
Lemma verifyEmail_returns_no_user_id :
  (verifyEmail 5000 "v-0001" (Demo.world_with ∅ 5)).1
  = Ok (success "Email verified successfully")
  /\ tk_userId Demo.verify_token = 1
  /\ success "Email verified successfully" !! "userId" = None
  /\ forall k, success "Email verified successfully" !! k <> Some (JNum 1).
Proof.
  split; [vm_compute; reflexivity|]. split; [reflexivity|].
  split; [vm_compute; reflexivity|].
  intros k. unfold success. simpl.
  destruct (decide (k = "success")) as [->|Hs].
  - rewrite lookup_insert_eq. discriminate.
  - rewrite lookup_insert_ne by congruence.
    destruct (decide (k = "message")) as [->|Hm].
    + rewrite lookup_insert_eq. discriminate.
    + rewrite lookup_insert_ne by congruence. rewrite lookup_empty. discriminate.
Qed.

(** C2 at work on the live reset token of the demo store. *)
Lemma same_token_twice_safe_in_sequence_not_interleaved_witness :
  let c1 := ResetPassword 20000 "s1" "r-0001" "pw1" in
  let c2 := ResetPassword 20001 "s2" "r-0001" "pw2" in
  let w := Demo.world_with ∅ 5 in
  (let '(p1, p2, _) :=
     interleave (rt := Demo.runtime)
       (replicate (4 + 0) true ++ replicate 4 false) c1 c2 Called Called w in
   succeeded p1 = true /\ succeeded p2 = false)
  /\ (let '(p1, p2, _) :=
        interleave (rt := Demo.runtime) both_select_first c1 c2 Called Called w in
      succeeded p1 = true /\ succeeded p2 = true).
Proof.
  intros c1 c2 w.
  apply (same_token_twice_safe_in_sequence_not_interleaved (rt := Demo.runtime)
           c1 c2 w Demo.reset_token 0 4).
  - reflexivity.
  - reflexivity.
  - vm_compute. reflexivity.
  - apply list_elem_of_In. simpl. left. reflexivity.
  - vm_compute. reflexivity.
  - vm_compute. reflexivity.
Defined.

(** C2 as stated fails: two password resets with the same token, both of
    which select before either writes, both succeed. *)
Lemma same_token_concurrent_resets_both_succeed :
  let '(p1, p2, w') :=
    interleave (rt := Demo.runtime) both_select_first
      (ResetPassword 20000 "s1" "r-0001" "pw1")
      (ResetPassword 20001 "s2" "r-0001" "pw2")
      Called Called (Demo.world_with ∅ 5) in
  p1 = Returned (Ok (success "Password reset successful"))
  /\ p2 = Returned (Ok (success "Password reset successful"))
  /\ w_log w' = [EvSelect PasswordResetTokens; EvSelect PasswordResetTokens;
                 EvUpdate Users; EvUpdate PasswordResetTokens;
                 EvUpdate Users; EvUpdate PasswordResetTokens].
Proof. vm_compute. repeat split; reflexivity. Qed.

(** C4 at work: a day that has seen 299 signups, and one that has seen
    300. *)
Lemma daily_limit_allows_300th_denies_301st_witness :
  (exists lc, (checkDailySignupLimit (rt := Demo.runtime) Demo.cfg 5000
                 (Demo.world_with ∅ 299)).1 = Ok lc /\ allowed lc = true)
  /\ (exists lc, (checkDailySignupLimit (rt := Demo.runtime) Demo.cfg 5000
                    (Demo.world_with ∅ 300)).1 = Ok lc /\ allowed lc = false)
  /\ signups_on (rt := Demo.runtime) 5000
       (w_db (register (rt := Demo.runtime) Demo.cfg 5000 "salt3" "v-0002"
                Demo.carol (Demo.world_with ∅ 299)).2)
     = 300.
Proof.
  assert (Hlimit : parseInt (env_or (DAILY_SIGNUP_LIMIT Demo.cfg) "300")
                   = Some 300) by reflexivity.
  assert (Hwf299 : dailySignups_wf (w_db (Demo.world_with ∅ 299)) = true)
    by (vm_compute; reflexivity).
  assert (Hwf300 : dailySignups_wf (w_db (Demo.world_with ∅ 300)) = true)
    by (vm_compute; reflexivity).
  destruct (daily_limit_allows_300th_denies_301st (rt := Demo.runtime)
              Demo.cfg 5000 (Demo.world_with ∅ 299) Hlimit Hwf299)
    as (Hallow & _ & Hreg & _).
  destruct (daily_limit_allows_300th_denies_301st (rt := Demo.runtime)
              Demo.cfg 5000 (Demo.world_with ∅ 300) Hlimit Hwf300)
    as (_ & Hdeny & _ & _).
  split; [apply Hallow; vm_compute; reflexivity|].
  split; [apply Hdeny; vm_compute; discriminate|].
  destruct (register (rt := Demo.runtime) Demo.cfg 5000 "salt3" "v-0002"
              Demo.carol (Demo.world_with ∅ 299)) as [[r|e] w1] eqn:Hrun.
  - destruct (Hreg _ _ _ _ _ Hrun) as [Hcount _]. cbn [snd].
    rewrite Hcount. vm_compute. reflexivity.
  - vm_compute in Hrun. discriminate Hrun.
Defined.

(** C3 at work: Carol registers, logs in, and both tokens verify to her
    id. *)
Lemma register_then_login_round_trips_witness :
  let w := Demo.world_with ∅ 5 in
  match register (rt := Demo.runtime) Demo.cfg 5000 "salt3" "v-0002"
          Demo.carol w with
  | (Ok r, w1) =>
      exists uid ttl,
        timespan (env_or (JWT_EXPIRES_IN Demo.cfg) "7d") = Some ttl
        /\ reg_user r !! "id" = Some (JNum uid)
        /\ (exists u, rows (users (w_db w1)) = rows (users (w_db w)) ++ [u]
                      /\ u_id u = uid /\ u_email u = email Demo.carol
                      /\ u_username u = username Demo.carol)
        /\ (forall t, t / 1000 < 5000 / 1000 + ttl ->
              exists c, verifyToken (rt := Demo.runtime) Demo.cfg t (reg_token r)
                        = Ok c /\ userId c = uid)
        /\ (forall now2, exists r2 w2,
              login (rt := Demo.runtime) Demo.cfg now2 (email Demo.carol)
                (password Demo.carol) w1 = (Ok r2, w2)
              /\ login_user r2 !! "id" = Some (JNum uid)
              /\ (forall t, t / 1000 < now2 / 1000 + ttl ->
                    exists c, verifyToken (rt := Demo.runtime) Demo.cfg t
                                (login_token r2) = Ok c
                              /\ userId c = uid))
  | (Throw _, _) => False
  end.
Proof.
  intros w.
  destruct (register (rt := Demo.runtime) Demo.cfg 5000 "salt3" "v-0002"
              Demo.carol w) as [[r|e] w1] eqn:Hrun.
  - exact (register_then_login_round_trips (laws := demo_laws) Demo.cfg
             5000 "salt3" "v-0002" Demo.carol w w1 r Hrun).
  - vm_compute in Hrun. discriminate Hrun.
Defined.


(** What that sync leaves in the store and what a fetch then returns: the
    old favorite is gone, each list holds its entries, the numeric id is
    stored as text and the date string as its time. *)
Example syncUserData_typed_lists_stored :
  let payload : jsobj :=
    {[ "favorites" := JArr [Demo.naruto; Demo.bleach];
       "watchlist" := JArr [Demo.bleach];
       "watchHistory" := JArr [Demo.episode] ]} in
  let '(r, w') :=
    syncUserData (rt := Demo.runtime) 20000 1 payload (Demo.world_with ∅ 5) in
  r = Ok (true, {| synced_favorites := Some 2; synced_watchlist := Some 1;
                   synced_watchHistory := Some 1 |})
  /\ fv_animeId <$> rows (favorites (w_db w')) = ["naruto"; "269"]
  /\ wl_status <$> rows (watchlist (w_db w')) = ["completed"]
  /\ wh_watchedAt <$> rows (watchHistory (w_db w')) = [1705314600000]
  /\ wh_completed <$> rows (watchHistory (w_db w')) = [false]
  /\ exists snap, (fetchUserData 1 w').1 = Ok snap
                  /\ snap_favorites snap = [Demo.naruto; Demo.bleach].
Proof.
  vm_compute. repeat (split; [reflexivity|]).
  eexists. split; reflexivity.
Qed.

(** Outside the well-typed payloads the model follows the store: a progress
    beyond [int4] is refused after the delete has run, and the user is left
    with no history. *)
Example syncUserData_oversized_progress_clears_and_throws :
  let w :=
    stored (set_watchHistory
              {| rows := [{| wh_id := 1; wh_userId := 1; wh_animeId := "naruto";
                             wh_episodeId := "naruto-ep-0";
                             wh_episodeNumber := None; wh_progress := 0;
                             wh_duration := 0; wh_completed := true;
                             wh_watchedAt := 5000; wh_createdAt := 5000 |}];
                 serial := 2 |} (Demo.db 5)) (Demo.world_with ∅ 5) in
  let '(r, w') :=
    syncUserData (rt := Demo.runtime) 20000 1
      {[ "watchHistory" :=
           JArr [JObj {[ "animeId" := JStr "naruto";
                         "episodeId" := JStr "naruto-ep-1";
                         "progress" := JNum 3000000000 ]}] ]} w in
  r = Throw StoreError
  /\ length (owned_rows wh_userId 1 (watchHistory (w_db w))) = 1%nat
  /\ owned_rows wh_userId 1 (watchHistory (w_db w')) = [].
Proof. vm_compute. repeat split; reflexivity. Qed.

(** The store reads a flag sent as a number and a count sent as a string. *)
Example syncUserData_reads_text_forms :
  let '(r, w') :=
    syncUserData (rt := Demo.runtime) 20000 1
      {[ "watchHistory" :=
           JArr [JObj {[ "animeId" := JStr "naruto";
                         "episodeId" := JStr "naruto-ep-1";
                         "progress" := JStr "12";
                         "completed" := JNum 1 ]}] ]}
      (Demo.world_with ∅ 5) in
  r = Ok (true, {| synced_favorites := None; synced_watchlist := None;
                   synced_watchHistory := Some 1 |})
  /\ wh_progress <$> rows (watchHistory (w_db w')) = [12]
  /\ wh_completed <$> rows (watchHistory (w_db w')) = [true].
Proof. vm_compute. repeat split; reflexivity. Qed.


(** C9 at work: the projection [getUserById] returns for Alice. *)
Example getUserById_alice :
  exists user, (getUserById 1 (Demo.world_with ∅ 5)).1 = Ok user
               /\ user !! "email" = Some (JStr "alice@example.com")
               /\ user !! "password" = None.
Proof. eexists. split; [reflexivity|]. split; vm_compute; reflexivity. Qed.

(** ** The password and verification flows on the example store *)

Lemma changePassword_then_login_witness :
  let w := Demo.world_with ∅ 5 in
  exists w1,
    changePassword 7000 "salt9" 1 "hunter22" "n3wpass" w
    = (Ok (success "Password changed successfully"), w1)
    /\ forall now2, exists r w2,
         login Demo.cfg now2 (u_email Demo.alice) "n3wpass" w1 = (Ok r, w2)
         /\ login_user r !! "id" = Some (JNum 1)
         /\ login_user r !! "email" = Some (JStr (u_email Demo.alice)).
Proof.
  intros w.
  apply (changePassword_then_login (laws := demo_laws) Demo.cfg 7000 "salt9" 1
           "hunter22" "n3wpass" w Demo.alice).
  - exists "s3cret", 604800. split; [reflexivity|].
    split; [discriminate | reflexivity].
  - vm_compute. reflexivity.
  - reflexivity.
  - vm_compute. reflexivity.
Defined.

Lemma changePassword_fails_cleanly_witness :
  let w := Demo.world_with ∅ 5 in
  ((Error "Current password is incorrect" = Error "User not found"
    /\ List.find (fun u => u_id u =? 1) (rows (users (w_db w))) = None)
   \/ (Error "Current password is incorrect"
       = Error "Current password is incorrect"
       /\ exists user,
            List.find (fun u => u_id u =? 1) (rows (users (w_db w)))
            = Some user
            /\ bcrypt_compare "hunter23" (u_password user) = false))
  /\ w_db (changePassword 7000 "salt9" 1 "hunter23" "n3wpass" w).2 = w_db w
  /\ w_heap (changePassword 7000 "salt9" 1 "hunter23" "n3wpass" w).2
     = w_heap w.
Proof.
  intros w.
  apply (changePassword_fails_cleanly (rt := Demo.runtime) 7000 "salt9" 1
           "hunter23" "n3wpass" w (Error "Current password is incorrect")).
  - reflexivity.
  - vm_compute. reflexivity.
  - discriminate.
Defined.

Lemma requestPasswordReset_uniform_witness :
  let w := Demo.world_with ∅ 5 in
  match requestPasswordReset 5000 "r-0002" "alice@example.com" w,
        requestPasswordReset 6000 "r-0003" "nobody@example.com" w with
  | (Ok r1, w1'), (Ok r2, w2') =>
      rr_success r1 = rr_success r2 /\ rr_message r1 = rr_message r2
      /\ (rr_resetToken r1 = None
          <-> List.find (fun u => String.eqb (u_email u) "alice@example.com")
                (rows (users (w_db w))) = None)
      /\ (rr_resetToken r1 = None -> w_db w1' = w_db w)
  | _, _ => False
  end.
Proof.
  intros w.
  destruct (requestPasswordReset 5000 "r-0002" "alice@example.com" w)
    as [[r1|e1] w1'] eqn:Hrun1.
  - destruct (requestPasswordReset 6000 "r-0003" "nobody@example.com" w)
      as [[r2|e2] w2'] eqn:Hrun2.
    + exact (requestPasswordReset_uniform 5000 6000 "r-0002" "r-0003"
               "alice@example.com" "nobody@example.com" w w w1' w2' r1 r2
               Hrun1 Hrun2).
    + vm_compute in Hrun2. discriminate Hrun2.
  - vm_compute in Hrun1. discriminate Hrun1.
Defined.

Lemma reset_token_good_for_one_hour_witness :
  let w := Demo.world_with ∅ 5 in
  match requestPasswordReset 5000 "r-0002" "alice@example.com" w with
  | (Ok r, w1) =>
      (forall now2 salt newPassword, now2 < 5000 + 3600000 ->
         exists w2,
           resetPassword now2 salt "r-0002" newPassword w1
           = (Ok (success "Password reset successful"), w2)
           /\ forall now3, exists r3 w3,
                login Demo.cfg now3 "alice@example.com" newPassword w2
                = (Ok r3, w3)
                /\ Some (login_user r3 !! "id") = (Some ∘ JNum) <$> rr_userId r)
      /\ (forall now2 salt newPassword, 5000 + 3600000 <= now2 ->
            resetPassword now2 salt "r-0002" newPassword w1
            = (Throw (Error "Invalid or expired reset token"),
               logged (EvSelect PasswordResetTokens) w1))
  | (Throw _, _) => False
  end.
Proof.
  intros w.
  destruct (requestPasswordReset 5000 "r-0002" "alice@example.com" w)
    as [[r|e] w1] eqn:Hrun.
  - apply (reset_token_good_for_one_hour (laws := demo_laws) Demo.cfg 5000
             "r-0002" "alice@example.com" w w1 r "r-0002").
    + exists "s3cret", 604800. split; [reflexivity|].
      split; [discriminate | reflexivity].
    + exact Hrun.
    + vm_compute in Hrun. injection Hrun as <- _. reflexivity.
  - vm_compute in Hrun. discriminate Hrun.
Defined.

Lemma resendVerificationEmail_supersedes_witness :
  let w := Demo.world_with ∅ 5 in
  match resendVerificationEmail 5000 "v-0002" 1 w with
  | (Ok res, w1) =>
      res = (success "Verification email sent", "v-0002")
      /\ (forall old, old ∈ rows (emailVerificationTokens (w_db w)) ->
            tk_userId old = 1 ->
            forall now2,
              verifyEmail now2 (tk_token old) w1
              = (Throw (Error "Invalid or expired verification token"),
                 logged (EvSelect EmailVerificationTokens) w1))
      /\ (forall now2, now2 < 5000 + 86400000 ->
            exists w2,
              verifyEmail now2 "v-0002" w1
              = (Ok (success "Email verified successfully"), w2)
              /\ forall u, u ∈ rows (users (w_db w2)) -> u_id u = 1 ->
                   u_isVerified u = Some true)
  | (Throw _, _) => False
  end.
Proof.
  intros w.
  destruct (resendVerificationEmail 5000 "v-0002" 1 w) as [[res|e] w1] eqn:Hrun.
  - exact (resendVerificationEmail_supersedes 5000 "v-0002" 1 w w1 res Hrun).
  - vm_compute in Hrun. discriminate Hrun.
Defined.

Lemma resendVerificationEmail_refusals_witness :
  let w := Demo.world_with ∅ 5 in
  ((Error "Email already verified" = Error "User not found"
    /\ List.find (fun u => u_id u =? 2) (rows (users (w_db w))) = None)
   \/ (Error "Email already verified" = Error "Email already verified"
       /\ exists user,
            List.find (fun u => u_id u =? 2) (rows (users (w_db w)))
            = Some user
            /\ u_isVerified user = Some true))
  /\ w_db (resendVerificationEmail 5000 "v-0002" 2 w).2 = w_db w
  /\ w_heap (resendVerificationEmail 5000 "v-0002" 2 w).2 = w_heap w.
Proof.
  intros w.
  apply (resendVerificationEmail_refusals 5000 "v-0002" 2 w
           (Error "Email already verified")).
  - vm_compute. reflexivity.
  - discriminate.
Defined.

Lemma register_then_verifyEmail_witness :
  let w := Demo.world_with ∅ 5 in
  match register Demo.cfg 5000 "salt3" "v-0002" Demo.carol w with
  | (Ok r, w1) =>
      exists uid,
        reg_user r !! "id" = Some (JNum uid)
        /\ reg_user r !! "isVerified" = Some (JBool false)
        /\ (forall now2, now2 < 5000 + 86400000 ->
              exists w2,
                verifyEmail now2 (reg_verificationToken r) w1
                = (Ok (success "Email verified successfully"), w2)
                /\ (exists o w3, getUserById uid w2 = (Ok o, w3)
                                 /\ o !! "isVerified" = Some (JBool true))
                /\ (forall now3 tok3,
                      (resendVerificationEmail now3 tok3 uid w2).1
                      = Throw (Error "Email already verified")))
        /\ (forall now2, 5000 + 86400000 <= now2 ->
              verifyEmail now2 (reg_verificationToken r) w1
              = (Throw (Error "Invalid or expired verification token"),
                 logged (EvSelect EmailVerificationTokens) w1))
  | (Throw _, _) => False
  end.
Proof.
  intros w.
  destruct (register Demo.cfg 5000 "salt3" "v-0002" Demo.carol w)
    as [[r|e] w1] eqn:Hrun.
  - exact (register_then_verifyEmail Demo.cfg 5000 "salt3" "v-0002"
             Demo.carol w w1 r Hrun).
  - vm_compute in Hrun. discriminate Hrun.
Defined.

(** ** Refused registrations and deleted accounts on the example store *)

Lemma register_rejections_witness :
  let full := Demo.world_with ∅ 300 in
  let w := Demo.world_with ∅ 5 in
  let again := {| email := "alice@example.com"; username := "alice2";
                  password := "pw"; avatar := None |} in
  let namesake := {| email := "alice2@example.com"; username := "alice";
                     password := "pw"; avatar := None |} in
  register Demo.cfg 5000 "salt3" "v-0002" Demo.carol full
  = (Throw (Error "Daily signup limit reached. Please try again tomorrow."),
     logged (EvSelect DailySignups) full)
  /\ (register Demo.cfg 5000 "salt3" "v-0002" again w).1
     = Throw (Error "User already exists with this email")
  /\ (register Demo.cfg 5000 "salt3" "v-0002" namesake w).1
     = Throw (Error "Username already taken").
Proof.
  intros full w again namesake.
  destruct (register_rejections Demo.cfg 5000 "salt3" "v-0002" Demo.carol full)
    as (Hfull & _ & _).
  destruct (register_rejections Demo.cfg 5000 "salt3" "v-0002" again w)
    as (_ & Hemail & _).
  destruct (register_rejections Demo.cfg 5000 "salt3" "v-0002" namesake w)
    as (_ & _ & Hname).
  split; [|split].
  - apply Hfull. vm_compute. reflexivity.
  - apply (Hemail ltac:(vm_compute; reflexivity) Demo.alice). reflexivity.
  - apply (Hname ltac:(vm_compute; reflexivity) ltac:(reflexivity) Demo.alice).
    reflexivity.
Defined.

Lemma register_fails_late_without_secret_witness :
  let cfg0 := {| JWT_SECRET := None; JWT_EXPIRES_IN := None;
                 DAILY_SIGNUP_LIMIT := None |} in
  let w := Demo.world_with ∅ 5 in
  match register cfg0 5000 "salt3" "v-0002" Demo.carol w with
  | (Throw e, w') =>
      e = Error "secretOrPrivateKey must have a value"
      /\ exists newUser,
           rows (users (w_db w')) = rows (users (w_db w)) ++ [newUser]
           /\ u_email newUser = email Demo.carol
           /\ u_username newUser = username Demo.carol
           /\ forall cfg2 now2 salt2 tok2,
                exists e2,
                  (register cfg2 now2 salt2 tok2 Demo.carol w').1 = Throw e2
  | (Ok _, _) => False
  end.
Proof.
  intros cfg0 w.
  destruct (register cfg0 5000 "salt3" "v-0002" Demo.carol w)
    as [[r|e] w'] eqn:Hrun.
  - vm_compute in Hrun. discriminate Hrun.
  - assert (He : e = Error "secretOrPrivateKey must have a value").
    { pose proof Hrun as Hc. vm_compute in Hc. injection Hc as <- _.
      reflexivity. }
    subst e. split; [reflexivity|].
    exact (register_fails_late_without_secret cfg0 5000 "salt3" "v-0002"
             Demo.carol w w' Hrun).
Defined.

Lemma deleteAccount_fails_cleanly_witness :
  let w := Demo.world_with ∅ 5 in
  ((Error "Invalid password" = Error "User not found"
    /\ List.find (fun u => u_id u =? 1) (rows (users (w_db w))) = None)
   \/ (Error "Invalid password" = Error "Invalid password"
       /\ exists user,
            List.find (fun u => u_id u =? 1) (rows (users (w_db w)))
            = Some user
            /\ bcrypt_compare "hunter23" (u_password user) = false))
  /\ w_db (deleteAccount 1 "hunter23" w).2 = w_db w
  /\ w_heap (deleteAccount 1 "hunter23" w).2 = w_heap w.
Proof.
  intros w.
  apply (deleteAccount_fails_cleanly (rt := Demo.runtime) 1 "hunter23" w
           (Error "Invalid password")).
  - reflexivity.
  - vm_compute. reflexivity.
  - discriminate.
Defined.

Lemma deleteAccount_cascades_witness :
  let w := Demo.world_with ∅ 5 in
  exists w1,
    deleteAccount 1 "hunter22" w
    = (Ok (success "Account deleted successfully"), w1)
    /\ users (w_db w1) = delete_where (fun u => u_id u =? 1) (users (w_db w))
    /\ emailVerificationTokens (w_db w1)
       = delete_where (fun t => tk_userId t =? 1)
           (emailVerificationTokens (w_db w))
    /\ passwordResetTokens (w_db w1)
       = delete_where (fun t => tk_userId t =? 1)
           (passwordResetTokens (w_db w))
    /\ favorites (w_db w1)
       = delete_where (fun r => fv_userId r =? 1) (favorites (w_db w))
    /\ watchlist (w_db w1)
       = delete_where (fun r => wl_userId r =? 1) (watchlist (w_db w))
    /\ watchHistory (w_db w1)
       = delete_where (fun r => wh_userId r =? 1) (watchHistory (w_db w))
    /\ dailySignups (w_db w1) = dailySignups (w_db w)
    /\ (store_ok (w_db w) = true -> store_ok (w_db w1) = true)
    /\ (getUserById 1 w1).1 = Throw (Error "User not found")
    /\ (unique_on u_email (users (w_db w)) = true ->
        forall cfg now pw,
          (login cfg now (u_email Demo.alice) pw w1).1
          = Throw (Error "Invalid credentials")).
Proof.
  intros w.
  apply (deleteAccount_cascades (rt := Demo.runtime) 1 "hunter22" w Demo.alice).
  - reflexivity.
  - vm_compute. reflexivity.
Defined.

(** ** Bearer tokens and responses on the example store *)

Lemma demo_payload_encode secret claims :
  Demo.payload (Demo.encode secret claims) = Some claims.
Proof.
  unfold Demo.payload, Demo.encode. rewrite demo_read_Z. simpl.
  rewrite demo_read_Z. simpl. rewrite demo_read_Z. simpl.
  destruct claims. reflexivity.
Qed.

#[local] Existing Instance Demo.inspect.

#[local] Instance demo_inspect_laws : InspectLaws Demo.inspect.
Proof. constructor. exact demo_payload_encode. Qed.

Lemma generateToken_verifyToken_witness :
  match generateToken Demo.cfg 5000 1 (Some "1h") with
  | Ok tok =>
      exists ttl,
        timespan (env_or (Some "1h") (env_or (JWT_EXPIRES_IN Demo.cfg) "7d"))
        = Some ttl
        /\ (forall t,
              verifyToken Demo.cfg t tok
              = if t / 1000 <? 5000 / 1000 + ttl
                then Ok {| userId := 1; iat := 5000 / 1000;
                           exp := 5000 / 1000 + ttl |}
                else Throw (Error "Token has expired"))
        /\ (Some "1h" = None ->
            forall w, generateJWT Demo.cfg 5000 1 w = (Ok tok, w))
  | Throw _ => False
  end.
Proof.
  destruct (generateToken Demo.cfg 5000 1 (Some "1h")) as [tok|e] eqn:Hrun.
  - exact (generateToken_verifyToken (laws := demo_laws) Demo.cfg 5000 1
             (Some "1h") tok Hrun).
  - vm_compute in Hrun. discriminate Hrun.
Defined.

Lemma isTokenExpired_agrees_with_verifyToken_witness :
  let claims := {| userId := 1; iat := 5; exp := 4000 |} in
  isTokenExpired 5000000 (jwt_encode "s3cret" claims) = true
  <-> verifyToken Demo.cfg 5000000 (jwt_encode "s3cret" claims)
      = Throw (Error "Token has expired").
Proof.
  intros claims.
  apply (isTokenExpired_agrees_with_verifyToken (laws := demo_laws)
           (ins := Demo.inspect) Demo.cfg 5000000 "s3cret" claims).
  - reflexivity.
  - discriminate.
  - lia.
Defined.

Lemma login_then_authenticate_witness :
  let w := Demo.world_with ∅ 5 in
  match login Demo.cfg 5000 "alice@example.com" "hunter22" w with
  | (Ok r, w1) =>
      exists uid ttl,
        login_user r !! "id" = Some (JNum uid)
        /\ timespan (env_or (JWT_EXPIRES_IN Demo.cfg) "7d") = Some ttl
        /\ forall t, t / 1000 < 5000 / 1000 + ttl ->
             authenticate Demo.cfg Demo.engine t
               (Some ("Bearer " +:+ login_token r)) w1
             = (Ok (Next (Some (login_user r, uid))),
                logged (EvSelect Users) w1)
  | (Throw _, _) => False
  end.
Proof.
  intros w.
  destruct (login Demo.cfg 5000 "alice@example.com" "hunter22" w)
    as [[r|e] w1] eqn:Hrun.
  - apply (login_then_authenticate (laws := demo_laws) Demo.cfg Demo.engine
             5000 "alice@example.com" "hunter22" w w1 r Hrun).
    + pose proof Hrun as Hc. vm_compute in Hc. injection Hc as <- _.
      vm_compute. reflexivity.
    + pose proof Hrun as Hc. vm_compute in Hc. injection Hc as <- _.
      discriminate.
    + vm_compute. reflexivity.
  - vm_compute in Hrun. discriminate Hrun.
Defined.

Lemma deleteAccount_then_authenticate_witness :
  let w := Demo.world_with ∅ 5 in
  let claims := {| userId := 1; iat := 5; exp := 604805 |} in
  match deleteAccount 1 "hunter22" w with
  | (Ok o, w1) =>
      authenticate Demo.cfg Demo.engine 6000
        (Some ("Bearer " +:+ jwt_encode "s3cret" claims)) w1
      = (Ok (Responded 401 (failure "User not found")),
         logged (EvSelect Users) w1)
  | (Throw _, _) => False
  end.
Proof.
  intros w claims.
  destruct (deleteAccount 1 "hunter22" w) as [[o|e] w1] eqn:Hrun.
  - apply (deleteAccount_then_authenticate (rt := Demo.runtime) Demo.cfg
             Demo.engine 1 "hunter22" w w1 o 6000 (jwt_encode "s3cret" claims)
             claims Hrun).
    + vm_compute. reflexivity.
    + discriminate.
    + vm_compute. reflexivity.
    + reflexivity.
  - vm_compute in Hrun. discriminate Hrun.
Defined.

Lemma errorHandler_production_hides_witness :
  let err := {| err_name := "Error";
                err_message := "connect ECONNREFUSED db.internal:5432";
                err_stack := "Error at index.js" |} in
  let err' := {| err_name := "Error"; err_message := "Invalid credentials";
                 err_stack := "Error at authService.js" |} in
  errorHandler (Some "production") err = errorHandler (Some "production") err'
  /\ (errorHandler (Some "production") err).2 !! "stack" = None
  /\ ((errorHandler (Some "production") err).1 = 500 ->
      (errorHandler (Some "production") err).2
      = failure "Internal server error").
Proof.
  intros err err'. apply (errorHandler_production_hides err err').
  - reflexivity.
  - discriminate.
Defined.

Lemma bad_credentials_answered_500_witness :
  let w := Demo.world_with ∅ 5 in
  exists a w',
    with_errorHandler (Some "production") Demo.engine
      (route_login Demo.cfg 5000 "alice@example.com" "hunter23") w
    = (Ok a, w')
    /\ w_db w' = w_db w
    /\ status a = 500 /\ mails a = []
    /\ body a !! "success" = Some (JBool false)
    /\ body a !! "error"
       = Some (JStr (if bool_decide (Some "production" = Some "production")
                     then "Internal server error"
                     else "Invalid credentials")).
Proof.
  intros w.
  apply (bad_credentials_answered_500 (rt := Demo.runtime) Demo.cfg
           (Some "production") Demo.engine 5000 "alice@example.com"
           "hunter23" w).
  right. exists Demo.alice. split; [reflexivity|]. vm_compute. reflexivity.
Defined.

Lemma forgot_password_route_witness :
  let w := Demo.world_with ∅ 5 in
  match route_forgot_password 5000 "r-0002" "alice@example.com" w with
  | (Ok a, w') =>
      status a = 200
      /\ body a = success "If an account exists, a reset link will be sent."
      /\ match List.find (fun u => String.eqb (u_email u) "alice@example.com")
                 (rows (users (w_db w))) with
         | None => mails a = [] /\ w_db w' = w_db w
         | Some user =>
             mails a = [PasswordResetEmail (JStr (u_email user))
                          (JStr (u_username user)) "r-0002"]
             /\ exists t, t ∈ rows (passwordResetTokens (w_db w'))
                          /\ tk_token t = "r-0002" /\ tk_userId t = u_id user
         end
  | (Throw _, _) => False
  end.
Proof.
  intros w.
  destruct (route_forgot_password 5000 "r-0002" "alice@example.com" w)
    as [[a|e] w'] eqn:Hrun.
  - apply (forgot_password_route 5000 "r-0002"
             "alice@example.com" w w' a Hrun).
    + discriminate.
    + vm_compute. reflexivity.
  - vm_compute in Hrun. discriminate Hrun.
Defined.

Lemma signup_limit_fails_open_witness :
  let cfg0 := {| JWT_SECRET := Some "s3cret"; JWT_EXPIRES_IN := None;
                 DAILY_SIGNUP_LIMIT := Some "unlimited" |} in
  let w := Demo.world_with ∅ 100000 in
  exists lc w1,
    checkDailySignupLimit cfg0 5000 w = (Ok lc, w1) /\ allowed lc = true
    /\ message lc = None.
Proof.
  intros cfg0 w.
  apply (signup_limit_fails_open (rt := Demo.runtime) cfg0 5000 w).
  left. vm_compute. reflexivity.
Defined.

(** ** Profiles, repeated requests and routes on the example store *)

Lemma updateProfile_refuses_taken_username_witness :
  let w := Demo.world_with {[ "username" := JStr "bob" ]} 5 in
  (updateProfile 20000 1 1 w).1 = Throw (Error "Username already taken")
  /\ w_db (updateProfile 20000 1 1 w).2 = w_db w.
Proof.
  intros w.
  apply (updateProfile_refuses_taken_username 20000 1 1 w
           {[ "username" := JStr "bob" ]} "bob" Demo.bob).
  - vm_compute. reflexivity.
  - vm_compute. reflexivity.
  - discriminate.
  - reflexivity.
  - discriminate.
Defined.

Lemma reset_requests_accumulate_witness :
  let w := Demo.world_with ∅ 5 in
  match requestPasswordReset 5000 "r-0002" "alice@example.com" w with
  | (Ok r1, w1) =>
      match requestPasswordReset 6000 "r-0003" "alice@example.com" w1 with
      | (Ok r2, w2) =>
          forall t t' salt salt' pw pw',
            t < 5000 + 3600000 -> t' < 6000 + 3600000 ->
            exists w3 w4,
              resetPassword t salt "r-0002" pw w2
              = (Ok (success "Password reset successful"), w3)
              /\ resetPassword t' salt' "r-0003" pw' w3
                 = (Ok (success "Password reset successful"), w4)
      | (Throw _, _) => False
      end
  | (Throw _, _) => False
  end.
Proof.
  intros w.
  destruct (requestPasswordReset 5000 "r-0002" "alice@example.com" w)
    as [[r1|e1] w1] eqn:Hrun1.
  2:{ vm_compute in Hrun1. discriminate Hrun1. }
  assert (Ht1 : rr_resetToken r1 = Some "r-0002").
  { pose proof Hrun1 as Hc. vm_compute in Hc. injection Hc as <- _.
    reflexivity. }
  destruct (requestPasswordReset 6000 "r-0003" "alice@example.com" w1)
    as [[r2|e2] w2] eqn:Hrun2.
  - assert (Ht2 : rr_resetToken r2 = Some "r-0003").
    { pose proof Hrun1 as Hc. vm_compute in Hc. injection Hc as _ Hw.
      pose proof Hrun2 as Hc2. rewrite <- Hw in Hc2. vm_compute in Hc2.
      injection Hc2 as <- _. reflexivity. }
    exact (reset_requests_accumulate 5000 6000 "r-0002" "r-0003"
             "alice@example.com" w w1 w2 r1 r2 Hrun1 Hrun2 Ht1 Ht2).
  - pose proof Hrun1 as Hc. vm_compute in Hc. injection Hc as _ Hw.
    rewrite <- Hw in Hrun2. vm_compute in Hrun2. discriminate Hrun2.
Defined.

Lemma updateProfile_verifies_without_token_witness :
  let w := Demo.world_with {[ "isVerified" := JBool true ]} 5 in
  match updateProfile 20000 1 1 w with
  | (Ok o, w') =>
      o !! "isVerified" = Some (JBool true)
      /\ exists u,
           u ∈ rows (users (w_db w')) /\ o = without_password (user_obj u)
           /\ u_isVerified u = Some true
           /\ forall now2 tok,
                (resendVerificationEmail now2 tok (u_id u) w').1
                = Throw (Error "Email already verified")
  | (Throw _, _) => False
  end.
Proof.
  intros w.
  destruct (updateProfile 20000 1 1 w) as [[o|e] w'] eqn:Hrun.
  - apply (updateProfile_verifies_without_token 20000 1 1 w w'
             {[ "isVerified" := JBool true ]} o).
    + vm_compute. reflexivity.
    + vm_compute. reflexivity.
    + exact Hrun.
  - vm_compute in Hrun. discriminate Hrun.
Defined.

Lemma delete_account_route_witness :
  let w := Demo.world_with ∅ 5 in
  (exists w',
      route_delete_account 1 "hunter22" w
      = (Ok {| mails := [AccountDeletionEmail (JStr (u_email Demo.alice))
                           (JStr (u_username Demo.alice))];
               status := 200;
               body := success "Account deleted successfully" |}, w')
      /\ List.find (fun u => u_id u =? 1) (rows (users (w_db w'))) = None)
  /\ (exists w',
        route_delete_account 1 "hunter23" w
        = (Throw (Error "Invalid password"), w')
        /\ w_db w' = w_db w).
Proof.
  intros w. split.
  - apply (delete_account_route (rt := Demo.runtime) 1 "hunter22" w Demo.alice).
    + reflexivity.
    + vm_compute. reflexivity.
  - apply (delete_account_route (rt := Demo.runtime) 1 "hunter23" w Demo.alice).
    + reflexivity.
    + vm_compute. reflexivity.
Defined.

Lemma register_route_witness :
  let w := Demo.world_with ∅ 5 in
  match route_register Demo.cfg 5000 "salt3" "v-0002" Demo.carol w with
  | (Ok a, w') =>
      status a = 201
      /\ mails a = [VerificationEmail (JStr (email Demo.carol))
                      (JStr (username Demo.carol)) "v-0002"]
      /\ (exists t, t ∈ rows (emailVerificationTokens (w_db w'))
                    /\ tk_token t = "v-0002" /\ tk_used t = false
                    /\ tk_expiresAt t = 5000 + 86400000)
      /\ exists o jwt,
           body a !! "user" = Some (JObj o) /\ o !! "password" = None
           /\ o !! "email" = Some (JStr (email Demo.carol))
           /\ body a !! "token" = Some (JStr jwt)
  | (Throw _, _) => False
  end.
Proof.
  intros w.
  destruct (route_register Demo.cfg 5000 "salt3" "v-0002" Demo.carol w)
    as [[a|e] w'] eqn:Hrun.
  - exact (register_route Demo.cfg 5000 "salt3" "v-0002" Demo.carol w w' a
             Hrun).
  - vm_compute in Hrun. discriminate Hrun.
Defined.
